(** * The project-generation wizard of vscode-spring-initializr

    A shallow embedding of [src/handler/GenerateProjectHandler.ts]: the
    wizard's step functions, the orchestrator [runSteps], the download URL
    and the download-then-unzip phase, followed by the properties the
    specification states about them.

    The wizard is asynchronous glue around the editor's UI, the file system
    and the network.  Each [async] function becomes a computation in the
    monad [M]: it reads the host through a fixed environment [Env], threads
    the mutable [World] (the answers the user has still to give, and the
    state of the dependency manager), may throw, and writes down every call
    it makes to the host as an [Event]. *)

From Stdlib Require Import String Ascii List Bool Arith Lia.
Import ListNotations.
Open Scope string_scope.
Open Scope list_scope.

Set Implicit Arguments.

(** ** JavaScript values *)

(** A [string | undefined] is an [option string].  The empty string is the
    only falsy string. *)
Definition truthy (v : option string) : bool :=
  match v with
  | Some s => negb (s =? "")
  | None => false
  end.

(** [a || b] *)
Definition jsOr (a b : option string) : option string :=
  if truthy a then a else b.

(** [`${v}`]: a template literal prints [undefined] for a missing value. *)
Definition tpl (v : option string) : string :=
  match v with
  | Some s => s
  | None => "undefined"
  end.

(** [params.join(sep)] *)
Definition join (sep : string) (l : list string) : string := String.concat sep l.

(** [s.startsWith(p)] *)
Definition startsWith (s p : string) : bool := String.prefix p s.

(** The errors a run can end with.  [OperationCanceledError] is the
    extension's own class; a [TypeError] is what reading [property] of
    [undefined] raises; a [HostError] is any error handed back by the
    network, the archive extractor or the editor. *)
Inductive JsError : Type :=
| OperationCanceledError (message : string)
| TypeError (property : string)
| HostError (message : string).

(** ** Data model *)

Inductive ProjectType : Type := MavenProject | GradleProject.

Definition projectTypeName (t : ProjectType) : string :=
  match t with
  | MavenProject => "maven-project"
  | GradleProject => "gradle-project"
  end.

(** [interface WizardParams] *)
Record WizardParams : Type := {
  wp_artifactId : option string;
  wp_groupId : option string;
  wp_language : option string;
  wp_projectType : option ProjectType;
  wp_packaging : option string;
  wp_bootVersion : option string;
  wp_dependencies : option (list string);
  wp_targetFolder : option string
}.

(** [defaults || {}] *)
Definition noDefaults : WizardParams :=
  {| wp_artifactId := None; wp_groupId := None; wp_language := None;
     wp_projectType := None; wp_packaging := None; wp_bootVersion := None;
     wp_dependencies := None; wp_targetFolder := None |}.

(** [vscode.Uri], of which the wizard reads [fsPath] only. *)
Record Uri : Type := { fsPath : string }.

(** [vscode.Uri.file(path)] *)
Definition Uri_file (path : string) : Uri := {| fsPath := path |}.

(** [vscode.WorkspaceFolder]; the source guards its [uri]. *)
Record WorkspaceFolder : Type := { wf_uri : option Uri }.

(** [IValue] of the model: a version the service offers. *)
Record IValue : Type := { v_id : string; v_name : string }.

(** The items of the Spring Boot version prompt, [{ value: v, label: v.name }]. *)
Record VersionItem : Type := { vi_value : option IValue; vi_label : string }.

(** [IDependenciesItem]: a quick-pick item with a kind tag and an id. *)
Record IDependenciesItem : Type := { itemType : string; id : string }.

(** [new ServiceManager(serviceUrl)] *)
Record ServiceManager : Type := { sm_url : string }.

(** The private fields of the handler.  They are unset until their step has
    run; [projectType] and [defaults] come from the constructor. *)
Record GenerateProjectHandler : Type := {
  serviceUrl : option string;
  artifactId : option string;
  groupId : option string;
  language : option string;
  projectType : ProjectType;
  packaging : option string;
  bootVersion : option string;
  dependencies : option IDependenciesItem;
  outputUri : option Uri;
  manager : option ServiceManager;
  defaults : WizardParams
}.

(** [constructor(projectType, defaults?)] *)
Definition newHandler (t : ProjectType) (d : option WizardParams) : GenerateProjectHandler :=
  {| serviceUrl := None; artifactId := None; groupId := None; language := None;
     projectType := t; packaging := None; bootVersion := None;
     dependencies := None; outputUri := None; manager := None;
     defaults := match d with Some d => d | None => noDefaults end |}.

Definition set_serviceUrl (v : string) (h : GenerateProjectHandler) :=
  {| serviceUrl := Some v; artifactId := artifactId h; groupId := groupId h;
     language := language h; projectType := projectType h; packaging := packaging h;
     bootVersion := bootVersion h; dependencies := dependencies h;
     outputUri := outputUri h; manager := manager h; defaults := defaults h |}.

Definition set_manager (v : ServiceManager) (h : GenerateProjectHandler) :=
  {| serviceUrl := serviceUrl h; artifactId := artifactId h; groupId := groupId h;
     language := language h; projectType := projectType h; packaging := packaging h;
     bootVersion := bootVersion h; dependencies := dependencies h;
     outputUri := outputUri h; manager := Some v; defaults := defaults h |}.

Definition set_language (v : string) (h : GenerateProjectHandler) :=
  {| serviceUrl := serviceUrl h; artifactId := artifactId h; groupId := groupId h;
     language := Some v; projectType := projectType h; packaging := packaging h;
     bootVersion := bootVersion h; dependencies := dependencies h;
     outputUri := outputUri h; manager := manager h; defaults := defaults h |}.

Definition set_groupId (v : string) (h : GenerateProjectHandler) :=
  {| serviceUrl := serviceUrl h; artifactId := artifactId h; groupId := Some v;
     language := language h; projectType := projectType h; packaging := packaging h;
     bootVersion := bootVersion h; dependencies := dependencies h;
     outputUri := outputUri h; manager := manager h; defaults := defaults h |}.

Definition set_artifactId (v : string) (h : GenerateProjectHandler) :=
  {| serviceUrl := serviceUrl h; artifactId := Some v; groupId := groupId h;
     language := language h; projectType := projectType h; packaging := packaging h;
     bootVersion := bootVersion h; dependencies := dependencies h;
     outputUri := outputUri h; manager := manager h; defaults := defaults h |}.

Definition set_packaging (v : string) (h : GenerateProjectHandler) :=
  {| serviceUrl := serviceUrl h; artifactId := artifactId h; groupId := groupId h;
     language := language h; projectType := projectType h; packaging := Some v;
     bootVersion := bootVersion h; dependencies := dependencies h;
     outputUri := outputUri h; manager := manager h; defaults := defaults h |}.

Definition set_bootVersion (v : string) (h : GenerateProjectHandler) :=
  {| serviceUrl := serviceUrl h; artifactId := artifactId h; groupId := groupId h;
     language := language h; projectType := projectType h; packaging := packaging h;
     bootVersion := Some v; dependencies := dependencies h;
     outputUri := outputUri h; manager := manager h; defaults := defaults h |}.

Definition set_dependencies (v : IDependenciesItem) (h : GenerateProjectHandler) :=
  {| serviceUrl := serviceUrl h; artifactId := artifactId h; groupId := groupId h;
     language := language h; projectType := projectType h; packaging := packaging h;
     bootVersion := bootVersion h; dependencies := Some v;
     outputUri := outputUri h; manager := manager h; defaults := defaults h |}.

Definition set_outputUri (v : Uri) (h : GenerateProjectHandler) :=
  {| serviceUrl := serviceUrl h; artifactId := artifactId h; groupId := groupId h;
     language := language h; projectType := projectType h; packaging := packaging h;
     bootVersion := bootVersion h; dependencies := dependencies h;
     outputUri := Some v; manager := manager h; defaults := defaults h |}.

(** ** The dependency manager

    [../DependencyManager] exports the singleton [dependencyManager].  The
    handler assigns its field [selectedIds] and calls three of its methods. *)
Module DependencyManager.

Record t : Type := {
  selectedIds : list string;
  lastUsed : option IDependenciesItem
}.

Definition isSelected (i : string) (sel : list string) : bool :=
  existsb (String.eqb i) sel.

(** Modelled from the spec: [toggleDependency] of [../DependencyManager],
    which is not among the sources.  "Toggle its membership in the
    selection set": a selected id is removed, an unselected one is added.
    The defaults are "read-only, never mutated", so the toggle replaces
    the list rather than changing it in place. *)
Definition toggle (i : string) (sel : list string) : list string :=
  if isSelected i sel
  then filter (fun x => negb (String.eqb x i)) sel
  else sel ++ [i].

Definition toggleDependency (i : string) (dm : t) : t :=
  {| selectedIds := toggle i (selectedIds dm); lastUsed := lastUsed dm |}.

(** Modelled from the spec: [updateLastUsedDependencies] of
    [../DependencyManager], which is not among the sources.  It "persists
    the final selection as last used". *)
Definition updateLastUsedDependencies (v : IDependenciesItem) (dm : t) : t :=
  {| selectedIds := selectedIds dm; lastUsed := Some v |}.

(** [dependencyManager.selectedIds = ids] *)
Definition set_selectedIds (ids : list string) (dm : t) : t :=
  {| selectedIds := ids; lastUsed := lastUsed dm |}.

End DependencyManager.

(** ** The host: what the editor, the user, the disk and the network answer *)

(** How an awaited call settled, as the telemetry wrapper sees it. *)
Inductive Settled : Type :=
| Fulfilled (defined : bool)
| Rejected (e : JsError).

(** The calls a run makes, in the order it makes them. *)
Inductive Event : Type :=
| EStepBegin (stepName : string)
| EStepEnd (stepName : string) (how : Settled)
| ESendInfo (info : list (string * string))
| EShowQuickPick (labels : list string) (placeHolder : string)
| EShowDependencyPick (bootVersion : string) (selected : list string)
| EInputBox (prompt : string) (value : option string)
| EOpenDialog (openLabel : string)
| EPathExists (path : string)
| EShowWarningMessage (message : string) (options : list string)
| EProgress (message : string)
| EDownloadFile (url : string)
| EExtract (filepath : string) (dir : string)
| EUpdateLastUsed (v : IDependenciesItem)
| EShowInformationMessage (message : string) (candidates : list string)
| EExecuteCommand (command : string) (uri : Uri) (newWindow : bool)
| EUpdateWorkspaceFolders (start : nat) (uri : Uri).

(** What does not change during a run.  A prompt shown once has one answer;
    [None] is a dismissed prompt. *)
Record Env : Type := {
  (** [vscode.workspace.getConfiguration("spring.initializr").get(key)] *)
  config : string -> option string;
  (** [vscode.workspace.rootPath] and [vscode.workspace.workspaceFolders] *)
  rootPath : option string;
  workspaceFolders : option (list WorkspaceFolder);
  (** [fse.pathExists], [path.join], [String.prototype.toLowerCase] *)
  pathExists : string -> bool;
  path_join : string -> string -> string;
  toLowerCase : string -> string;
  (** what [specifyServiceUrl] of [./utils] resolves to *)
  serviceUrlAnswer : option string;
  (** what the two single-choice prompts resolve to *)
  languagePick : option string;
  packagingPick : option string;
  (** [getFromInputBox] of [../Utils/VSCodeUI]: what the box resolves to,
      given the value it is pre-filled with *)
  groupIdInput : option string -> option string;
  artifactIdInput : option string -> option string;
  (** [manager.getBootVersions()] of [../model], "the list of supported
      platform versions", and the item picked among them *)
  bootVersions : ServiceManager -> JsError + list IValue;
  bootVersionPick : option VersionItem;
  (** [downloadFile(url)] of [../Utils] "retrieves the remote archive to a
      temporary location" and resolves to its path;
      [extract(filepath, { dir }, callback)] calls back with an error or none *)
  downloadFile : string -> JsError + string;
  extract : string -> string -> option JsError;
  (** the button clicked in the final information message *)
  openMethodPick : list string -> option string
}.

(** What changes during a run: the answers still to come for the prompts
    that sit in a loop, and the dependency manager.  A prompt whose answers
    have run out is dismissed. *)
Record World : Type := {
  dependencyPicks : list (option IDependenciesItem);
  folderPicks : list (option Uri);
  warningPicks : list (option string);
  dependencyManager : DependencyManager.t
}.

Definition set_dependencyPicks (l : list (option IDependenciesItem)) (w : World) : World :=
  {| dependencyPicks := l; folderPicks := folderPicks w;
     warningPicks := warningPicks w; dependencyManager := dependencyManager w |}.

Definition set_folderPicks (l : list (option Uri)) (w : World) : World :=
  {| dependencyPicks := dependencyPicks w; folderPicks := l;
     warningPicks := warningPicks w; dependencyManager := dependencyManager w |}.

Definition set_warningPicks (l : list (option string)) (w : World) : World :=
  {| dependencyPicks := dependencyPicks w; folderPicks := folderPicks w;
     warningPicks := l; dependencyManager := dependencyManager w |}.

Definition set_dependencyManager (dm : DependencyManager.t) (w : World) : World :=
  {| dependencyPicks := dependencyPicks w; folderPicks := folderPicks w;
     warningPicks := warningPicks w; dependencyManager := dm |}.

(** ** The monad of asynchronous computations *)

(** A call returns, throws, or is still looping when the fuel is spent. *)
Inductive Outcome (A : Type) : Type :=
| Ok (a : A)
| Throw (e : JsError)
| OutOfFuel.

Arguments Ok {A} a.
Arguments Throw {A} e.
Arguments OutOfFuel {A}.

Definition M (A : Type) : Type := World -> Outcome A * World * list Event.

Definition ret {A} (a : A) : M A := fun w => (Ok a, w, []).

Definition throw {A} (e : JsError) : M A := fun w => (Throw e, w, []).

Definition outOfFuel {A} : M A := fun w => (OutOfFuel, w, []).

Definition bind {A B} (m : M A) (k : A -> M B) : M B := fun w =>
  let '(r, w1, t1) := m w in
  match r with
  | Ok a => let '(r2, w2, t2) := k a w1 in (r2, w2, t1 ++ t2)
  | Throw e => (Throw e, w1, t1)
  | OutOfFuel => (OutOfFuel, w1, t1)
  end.

Declare Scope wizard_scope.
Delimit Scope wizard_scope with wizard.
Notation "x <- m ;; k" := (bind m (fun x => k))
  (at level 100, m at next level, right associativity) : wizard_scope.
Notation "m ;; k" := (bind m (fun _ => k))
  (at level 100, right associativity) : wizard_scope.
Open Scope wizard_scope.

Definition emit (e : Event) : M unit := fun w => (Ok tt, w, [e]).

Definition getWorld : M World := fun w => (Ok w, w, []).

Definition modifyWorld (f : World -> World) : M unit := fun w => (Ok tt, f w, []).

(** A promise that is already settled. *)
Definition settled {A} (r : JsError + A) : M A :=
  match r with
  | inl e => throw e
  | inr a => ret a
  end.

(** The three components of a run. *)
Definition outcome {A} (x : Outcome A * World * list Event) : Outcome A := fst (fst x).
Definition world {A} (x : Outcome A * World * list Event) : World := snd (fst x).
Definition events {A} (x : Outcome A * World * list Event) : list Event := snd x.

(** Whether a resolved value is something other than [undefined]. *)
Class JsValue (A : Type) : Type := isDefined : A -> bool.

#[global] Instance JsValue_option {A} : JsValue (option A) :=
  fun v => match v with Some _ => true | None => false end.
#[global] Instance JsValue_unit : JsValue unit := fun _ => false.
#[global] Instance JsValue_item : JsValue IDependenciesItem := fun _ => true.

(** [instrumentOperationStep(operationId, stepName, cb)(...args)] of the
    telemetry wrapper: runs [cb], reports how it settled, and hands the
    value or the error on unchanged. *)
Definition instrumentOperationStep {A} `{JsValue A} (stepName : string) (cb : M A) : M A :=
  fun w =>
    let '(r, w1, t) := cb w in
    match r with
    | Ok a => (Ok a, w1, EStepBegin stepName :: t ++ [EStepEnd stepName (Fulfilled (isDefined a))])
    | Throw e => (Throw e, w1, EStepBegin stepName :: t ++ [EStepEnd stepName (Rejected e)])
    | OutOfFuel => (OutOfFuel, w1, EStepBegin stepName :: t)
    end.

(** [sendInfo(operationId, info)] *)
Definition sendInfo (info : list (string * string)) : M unit := emit (ESendInfo info).

(** ** The wizard *)

Definition OPEN_IN_NEW_WORKSPACE : string := "Open".
Definition OPEN_IN_CURRENT_WORKSPACE : string := "Add to Workspace".

(** [v === s] for a [string | undefined] *)
Definition isString (v : option string) (s : string) : bool :=
  match v with
  | Some x => x =? s
  | None => false
  end.

(** [current && current.itemType === "dependency"] *)
Definition isDependency (current : option IDependenciesItem) : bool :=
  match current with
  | Some c => itemType c =? "dependency"
  | None => false
  end.

(** [ids || []]: an array, even an empty one, is truthy. *)
Definition orEmpty (ids : option (list string)) : list string :=
  match ids with
  | Some l => l
  | None => []
  end.

(** [if (v === undefined) { throw new OperationCanceledError(message); }] *)
Definition orCanceled {A} (message : string) (v : option A) : M A :=
  match v with
  | None => throw (OperationCanceledError message)
  | Some a => ret a
  end.

(** [get downloadUrl()].  Reading [this.dependencies.id] needs the
    dependencies to be there; the other fields go through the template
    literal as they are. *)
Definition downloadUrl (h : GenerateProjectHandler) : JsError + string :=
  match dependencies h with
  | None => inl (TypeError "id")
  | Some d =>
      let params : list string := [
        ("type=" ++ projectTypeName (projectType h))%string;
        ("language=" ++ tpl (language h))%string;
        ("groupId=" ++ tpl (groupId h))%string;
        ("artifactId=" ++ tpl (artifactId h))%string;
        ("packaging=" ++ tpl (packaging h))%string;
        ("bootVersion=" ++ tpl (bootVersion h))%string;
        ("baseDir=" ++ tpl (artifactId h))%string;
        ("dependencies=" ++ id d)%string
      ] in
      inr (tpl (serviceUrl h) ++ "/starter.zip?" ++ join "&" params)%string
  end.

(** [!rootPath || !fsPath.startsWith(rootPath)] *)
Definition outsideRootPath (fsPath : string) (rootPath : option string) : bool :=
  match rootPath with
  | Some root => negb (truthy (Some root)) || negb (startsWith fsPath root)
  | None => true
  end.

(** [workspaceFolder.uri && fsPath.startsWith(workspaceFolder.uri.fsPath)] *)
Definition insideFolder (fsPath' : string) (workspaceFolder : WorkspaceFolder) : bool :=
  match wf_uri workspaceFolder with
  | Some uri => startsWith fsPath' (fsPath uri)
  | None => false
  end.

Section Wizard.

Variable env : Env.

(** *** Calls to the host *)

(** [vscode.window.showQuickPick(items, { placeHolder })] *)
Definition showQuickPick {A} (labels : list string) (placeHolder : string)
    (answer : option A) : M (option A) :=
  emit (EShowQuickPick labels placeHolder) ;;
  ret answer.

(** Modelled from the spec: [getFromInputBox] of [../Utils/VSCodeUI], which
    is not among the sources.  A "free-text input" seeded with [value] whose
    text "must pass a format validator before acceptance", invalid input
    being "re-prompted inline": it resolves to the accepted text, or to
    nothing when the box is dismissed. *)
Definition getFromInputBox (prompt : string) (value : option string)
    (answer : option string -> option string) : M (option string) :=
  emit (EInputBox prompt value) ;;
  ret (answer value).

(** [vscode.window.showQuickPick(dependencyManager.getQuickPickItems(manager,
    bootVersion, ...), ...)].
    Modelled from the spec: [getQuickPickItems] of [../DependencyManager],
    which is not among the sources.  "The prompt list is re-derived on every
    iteration to reflect the chosen platform version and current selection
    state": the event keeps the version and the selection the list is
    derived from, and the prompt resolves to the next answer of the user,
    one of the items or nothing. *)
Definition showDependencyPick (bootVersion : string) : M (option IDependenciesItem) :=
  w <- getWorld ;;
  emit (EShowDependencyPick bootVersion
          (DependencyManager.selectedIds (dependencyManager w))) ;;
  match dependencyPicks w with
  | [] => ret None
  | answer :: rest => modifyWorld (set_dependencyPicks rest) ;; ret answer
  end.

(** Modelled from the spec: [openDialogForFolder] of [../Utils/VSCodeUI],
    which is not among the sources.  The "folder-picker": it resolves to the
    folder chosen, or to nothing when it is dismissed "with no choice". *)
Definition openDialogForFolder (openLabel : string) : M (option Uri) :=
  w <- getWorld ;;
  emit (EOpenDialog openLabel) ;;
  match folderPicks w with
  | [] => ret None
  | answer :: rest => modifyWorld (set_folderPicks rest) ;; ret answer
  end.

(** [vscode.window.showWarningMessage(message, ...options)] *)
Definition showWarningMessage (message : string) (options : list string)
    : M (option string) :=
  w <- getWorld ;;
  emit (EShowWarningMessage message options) ;;
  match warningPicks w with
  | [] => ret None
  | answer :: rest => modifyWorld (set_warningPicks rest) ;; ret answer
  end.

(** [fse.pathExists(path)] *)
Definition fsPathExists (path : string) : M bool :=
  emit (EPathExists path) ;;
  ret (pathExists env path).

(** [dependencyManager.toggleDependency(id)] *)
Definition toggleDependency (i : string) : M unit :=
  modifyWorld (fun w =>
    set_dependencyManager (DependencyManager.toggleDependency i (dependencyManager w)) w).

(** [dependencyManager.updateLastUsedDependencies(v)] *)
Definition updateLastUsedDependencies (v : IDependenciesItem) : M unit :=
  emit (EUpdateLastUsed v) ;;
  modifyWorld (fun w =>
    set_dependencyManager
      (DependencyManager.updateLastUsedDependencies v (dependencyManager w)) w).

(** *** The steps *)

(** Modelled from the spec: [specifyServiceUrl] of [./utils], which is not
    among the sources.  It "resolves the generation service base URL
    (externally supplied); producing undefined signals cancellation". *)
Definition specifyServiceUrl : M (option string) :=
  ret (serviceUrlAnswer env).

Definition specifyLanguage (defaults : WizardParams) : M (option string) :=
  let language := jsOr (wp_language defaults) (config env "defaultLanguage") in
  language <-
    (if negb (truthy language)
     then showQuickPick ["Java"; "Kotlin"; "Groovy"] "Specify project language."
            (languagePick env)
     else ret language) ;;
  ret (if truthy language then option_map (toLowerCase env) language else language).

Definition specifyGroupId (defaults : WizardParams) : M (option string) :=
  let defaultGroupId := jsOr (wp_groupId defaults) (config env "defaultGroupId") in
  getFromInputBox "Input Group Id for your project." defaultGroupId (groupIdInput env).

Definition specifyArtifactId (defaults : WizardParams) : M (option string) :=
  let defaultArtifactId := jsOr (wp_artifactId defaults) (config env "defaultArtifactId") in
  getFromInputBox "Input Artifact Id for your project." defaultArtifactId
    (artifactIdInput env).

Definition specifyPackaging (defaults : WizardParams) : M (option string) :=
  let packaging := jsOr (wp_packaging defaults) (config env "defaultPackaging") in
  packaging <-
    (if negb (truthy packaging)
     then showQuickPick ["JAR"; "WAR"] "Specify packaging type." (packagingPick env)
     else ret packaging) ;;
  ret (if truthy packaging then option_map (toLowerCase env) packaging else packaging).

Definition specifyOpenMethod (hasOpenFolder : bool) (projectLocation : string)
    : M (option string) :=
  let openMethod := config env "defaultOpenProjectMethod" in
  if negb (isString openMethod OPEN_IN_CURRENT_WORKSPACE)
     && negb (isString openMethod OPEN_IN_NEW_WORKSPACE)
  then
    let candidates : list string :=
      OPEN_IN_NEW_WORKSPACE ::
      (if hasOpenFolder then [OPEN_IN_CURRENT_WORKSPACE] else []) in
    emit (EShowInformationMessage
            ("Successfully generated. Location: " ++ projectLocation)%string candidates) ;;
    ret (openMethodPick env candidates)
  else ret openMethod.

Definition specifyBootVersion (manager : ServiceManager) : M (option string) :=
  versions <- settled (bootVersions env manager) ;;
  bootVersion <-
    showQuickPick (map v_name versions) "Specify Spring Boot version."
      (bootVersionPick env) ;;
  ret (match bootVersion with
       | Some item =>
           match vi_value item with
           | Some v => Some (v_id v)
           | None => None
           end
       | None => None
       end).

(** The [do ... while] of [specifyDependencies]; it resolves to the last
    [current]. *)
Fixpoint specifyDependencies_loop (fuel : nat) (bootVersion : string)
    (defaults : WizardParams) : M (option IDependenciesItem) :=
  match fuel with
  | O => outOfFuel
  | S fuel' =>
      modifyWorld (fun w =>
        set_dependencyManager
          (DependencyManager.set_selectedIds (orEmpty (wp_dependencies defaults))
             (dependencyManager w)) w) ;;
      current <- showDependencyPick bootVersion ;;
      (if isDependency current
       then toggleDependency (match current with Some c => id c | None => "" end)
       else ret tt) ;;
      if isDependency current
      then specifyDependencies_loop fuel' bootVersion defaults
      else ret current
  end.

Definition specifyDependencies (fuel : nat) (manager : ServiceManager)
    (bootVersion : string) (defaults : WizardParams) : M IDependenciesItem :=
  current <- specifyDependencies_loop fuel bootVersion defaults ;;
  match current with
  | None => throw (OperationCanceledError "Canceled on dependency seletion.")
  | Some c => ret c
  end.

Definition OPTION_CONTINUE : string := "Continue".
Definition OPTION_CHOOSE_ANOTHER_FOLDER : string := "Choose another folder".
Definition LABEL_CHOOSE_FOLDER : string := "Generate into this folder".
Definition MESSAGE_EXISTING_FOLDER (projectName : string) : string :=
  ("A folder [" ++ projectName
   ++ "] already exists in the selected folder. Continue to overwrite or Choose another folder?")%string.

(** The [while] of [specifyTargetFolder]; it resolves to the last
    [outputUri]. *)
Fixpoint specifyTargetFolder_loop (fuel : nat) (projectName : string)
    (outputUri : option Uri) : M (option Uri) :=
  match fuel with
  | O => outOfFuel
  | S fuel' =>
      match outputUri with
      | None => ret outputUri
      | Some u =>
          found <- fsPathExists (path_join env (fsPath u) projectName) ;;
          if found : bool then
            overrideChoice <-
              showWarningMessage (MESSAGE_EXISTING_FOLDER projectName)
                [OPTION_CONTINUE; OPTION_CHOOSE_ANOTHER_FOLDER] ;;
            if isString overrideChoice OPTION_CHOOSE_ANOTHER_FOLDER then
              outputUri' <- openDialogForFolder LABEL_CHOOSE_FOLDER ;;
              specifyTargetFolder_loop fuel' projectName outputUri'
            else ret outputUri
          else ret outputUri
      end
  end.

Definition specifyTargetFolder (fuel : nat) (defaults : WizardParams)
    (projectName : string) : M (option Uri) :=
  outputUri <-
    (if truthy (wp_targetFolder defaults)
     then ret (option_map Uri_file (wp_targetFolder defaults))
     else openDialogForFolder LABEL_CHOOSE_FOLDER) ;;
  specifyTargetFolder_loop fuel projectName outputUri.

Definition downloadAndUnzip (targetUrl targetFolder : string) : M unit :=
  emit (EProgress "Downloading zip package...") ;;
  emit (EDownloadFile targetUrl) ;;
  filepath <- settled (downloadFile env targetUrl) ;;
  emit (EProgress "Starting to unzip...") ;;
  emit (EExtract filepath targetFolder) ;;
  match extract env filepath targetFolder with
  | Some err => throw err
  | None => ret tt
  end.

(** *** The orchestrator *)

(** Lines 96 to 107 of [runSteps]: what is done with the generated
    project. *)
Definition openProject (outputUri : Uri) (artifactId : string) : M unit :=
  let hasOpenFolder :=
    isDefined (workspaceFolders env) || isDefined (rootPath env) in
  let projectLocation := fsPath outputUri in
  choice <- specifyOpenMethod hasOpenFolder (fsPath outputUri) ;;
  if isString choice OPEN_IN_NEW_WORKSPACE then
    emit (EExecuteCommand "vscode.openFolder"
            (Uri_file (path_join env projectLocation artifactId)) hasOpenFolder)
  else if isString choice OPEN_IN_CURRENT_WORKSPACE then
    if outsideRootPath (fsPath outputUri) (rootPath env) then
      match workspaceFolders env with
      | None => throw (TypeError "find")
      | Some folders =>
          if negb (isDefined (find (insideFolder (fsPath outputUri)) folders)) then
            emit (EUpdateWorkspaceFolders (length folders)
                    (Uri_file (path_join env projectLocation artifactId)))
          else ret tt
      end
    else ret tt
  else ret tt.

Definition runSteps (fuel : nat) (h : GenerateProjectHandler) : M unit :=
  (* Step: service URL *)
  serviceUrl <- instrumentOperationStep "serviceUrl" specifyServiceUrl ;;
  serviceUrl <- orCanceled "Service URL not specified." serviceUrl ;;
  let h := set_serviceUrl serviceUrl h in
  let manager := {| sm_url := serviceUrl |} in
  let h := set_manager manager h in
  (* Step: language *)
  language <- instrumentOperationStep "Language" (specifyLanguage (defaults h)) ;;
  language <- orCanceled "Language not specified." language ;;
  let h := set_language language h in
  (* Step: Group Id *)
  groupId <- instrumentOperationStep "GroupId" (specifyGroupId (defaults h)) ;;
  groupId <- orCanceled "GroupId not specified." groupId ;;
  let h := set_groupId groupId h in
  (* Step: Artifact Id *)
  artifactId <- instrumentOperationStep "ArtifactId" (specifyArtifactId (defaults h)) ;;
  artifactId <- orCanceled "ArtifactId not specified." artifactId ;;
  let h := set_artifactId artifactId h in
  (* Step: Packaging *)
  packaging <- instrumentOperationStep "Packaging" (specifyPackaging (defaults h)) ;;
  packaging <- orCanceled "Packaging not specified." packaging ;;
  let h := set_packaging packaging h in
  (* Step: bootVersion *)
  bootVersion <- instrumentOperationStep "BootVersion" (specifyBootVersion manager) ;;
  bootVersion <- orCanceled "BootVersion not specified." bootVersion ;;
  let h := set_bootVersion bootVersion h in
  sendInfo [("bootVersion", bootVersion)] ;;
  (* Step: Dependencies *)
  dependencies <-
    instrumentOperationStep "Dependencies"
      (specifyDependencies fuel manager bootVersion (defaults h)) ;;
  let h := set_dependencies dependencies h in
  sendInfo [("depsType", itemType dependencies); ("dependencies", id dependencies)] ;;
  (* Step: Choose target folder *)
  outputUri <-
    instrumentOperationStep "TargetFolder"
      (specifyTargetFolder fuel (defaults h) artifactId) ;;
  outputUri <- orCanceled "Target folder not specified." outputUri ;;
  let h := set_outputUri outputUri h in
  (* Step: Download & Unzip *)
  targetUrl <- settled (downloadUrl h) ;;
  instrumentOperationStep "DownloadUnzip"
    (downloadAndUnzip targetUrl (fsPath outputUri)) ;;
  updateLastUsedDependencies dependencies ;;
  openProject outputUri artifactId.

End Wizard.

(** ** Reading a URL back *)

(** The query string of a URL: what follows its first [?]. *)
Fixpoint queryOf (url : string) : string :=
  match url with
  | EmptyString => EmptyString
  | String c rest => if Ascii.eqb c "?" then rest else queryOf rest
  end.

(** [s.split(sep)] for a one-character separator. *)
Fixpoint splitOn (sep : ascii) (s : string) : list string :=
  match s with
  | EmptyString => [EmptyString]
  | String c rest =>
      if Ascii.eqb c sep then EmptyString :: splitOn sep rest
      else match splitOn sep rest with
           | [] => [String c EmptyString]
           | first :: others => String c first :: others
           end
  end.

(** A parameter [name=value], cut at its first [=]. *)
Fixpoint keyValue (p : string) : string * string :=
  match p with
  | EmptyString => (EmptyString, EmptyString)
  | String c rest =>
      if Ascii.eqb c "=" then (EmptyString, rest)
      else let '(k, v) := keyValue rest in (String c k, v)
  end.

(** The parameters of a query string, in the order they are written. *)
Definition queryParameters (q : string) : list (string * string) :=
  map keyValue (splitOn "&" q).

(** ** Reading a run back *)

(** The labels reported to the progress notification, in order. *)
Definition progressLabels (t : list Event) : list string :=
  flat_map (fun e => match e with EProgress m => [m] | _ => [] end) t.

(** How many times the overwrite warning was shown. *)
Definition overwriteWarnings (t : list Event) : nat :=
  length (filter (fun e => match e with EShowWarningMessage _ _ => true | _ => false end) t).

(** How many times the dependency prompt was shown. *)
Definition dependencyPrompts (t : list Event) : nat :=
  length (filter (fun e => match e with EShowDependencyPick _ _ => true | _ => false end) t).

(** ** A sample host *)

Definition lowerAscii (c : ascii) : ascii :=
  let n := nat_of_ascii c in
  if Nat.leb 65 n && Nat.leb n 90 then ascii_of_nat (n + 32) else c.

Fixpoint lowerCase (s : string) : string :=
  match s with
  | EmptyString => EmptyString
  | String c rest => String (lowerAscii c) (lowerCase rest)
  end.

(** A host on which every prompt is answered, the folder [/work/demo]
    exists already, and the archive is fetched and unpacked unless told
    otherwise. *)
Definition sampleEnv (openMethod : option string) (root : option string)
    (folders : option (list WorkspaceFolder)) (language : option string)
    (archive : JsError + string) (unpacked : option JsError) : Env :=
  {| config := fun key => if key =? "defaultOpenProjectMethod" then openMethod else None;
     rootPath := root;
     workspaceFolders := folders;
     pathExists := fun p => (p =? "/work/demo") || (p =? "/home/demo");
     path_join := fun a b => (a ++ "/" ++ b)%string;
     toLowerCase := lowerCase;
     serviceUrlAnswer := Some "https://start.spring.io";
     languagePick := language;
     packagingPick := Some "JAR";
     groupIdInput := fun _ => Some "com.example";
     artifactIdInput := fun _ => Some "demo";
     bootVersions := fun _ => inr [{| v_id := "2.7.0"; v_name := "2.7.0" |}];
     bootVersionPick :=
       Some {| vi_value := Some {| v_id := "2.7.0"; v_name := "2.7.0" |};
               vi_label := "2.7.0" |};
     downloadFile := fun _ => archive;
     extract := fun _ _ => unpacked;
     openMethodPick := fun _ => Some OPEN_IN_NEW_WORKSPACE |}.

Definition sampleWorld (picks : list (option IDependenciesItem))
    (folders : list (option Uri)) (warnings : list (option string)) : World :=
  {| dependencyPicks := picks;
     folderPicks := folders;
     warningPicks := warnings;
     dependencyManager :=
       {| DependencyManager.selectedIds := []; DependencyManager.lastUsed := None |} |}.

(** The two kinds of item the dependency prompt offers: a dependency to
    toggle, and the item that confirms the selection shown. *)
Definition dependencyItem (i : string) : IDependenciesItem :=
  {| itemType := "dependency"; id := i |}.

Definition confirmItem (ids : string) : IDependenciesItem :=
  {| itemType := "selection"; id := ids |}.

(** The answers of the URL example: group [com.example], artifact [demo],
    Java, jar, version 2.7.0, dependencies [web,data-jpa], a Maven project. *)
Definition demoAnswers (url kind : string) (out : option Uri)
    (mgr : option ServiceManager) (d : WizardParams) : GenerateProjectHandler :=
  {| serviceUrl := Some url; artifactId := Some "demo"; groupId := Some "com.example";
     language := Some "java"; projectType := MavenProject; packaging := Some "jar";
     bootVersion := Some "2.7.0";
     dependencies := Some {| itemType := kind; id := "web,data-jpa" |};
     outputUri := out; manager := mgr; defaults := d |}.

(** The query string as the specification words it, with a parameter named
    [platformVersion]. *)
Definition specifiedParameters : list (string * string) :=
  [("type", "maven-project"); ("language", "java"); ("groupId", "com.example");
   ("artifactId", "demo"); ("packaging", "jar"); ("platformVersion", "2.7.0");
   ("baseDir", "demo"); ("dependencies", "web,data-jpa")].

(** The query string the code writes. *)
Definition demoQuery : string :=
  "type=maven-project&language=java&groupId=com.example&artifactId=demo&packaging=jar&bootVersion=2.7.0&baseDir=demo&dependencies=web,data-jpa".

(** ** The selection a run should end with *)

(** The world after the dependency prompt was answered: the answers left
    are [rest] and the selection is [sel]. *)
Definition pickedWorld (sel : list string) (rest : list (option IDependenciesItem))
    (w : World) : World :=
  {| dependencyPicks := rest;
     folderPicks := folderPicks w;
     warningPicks := warningPicks w;
     dependencyManager :=
       {| DependencyManager.selectedIds := sel;
          DependencyManager.lastUsed := DependencyManager.lastUsed (dependencyManager w) |} |}.

(** The net selection in the words of the specification: an id is selected
    when it was toggled an odd number of times, relative to whether it was
    selected at the start. *)
Definition netSelected (initial toggled : list string) (i : string) : bool :=
  xorb (DependencyManager.isSelected i initial)
       (Nat.odd (count_occ string_dec toggled i)).

(** ** The candidates of the target-folder step *)

(** The world after the folder picker and the overwrite warning were
    answered: the answers left are [folders] and [warnings]. *)
Definition answeredWorld (folders : list (option Uri)) (warnings : list (option string))
    (w : World) : World :=
  {| dependencyPicks := dependencyPicks w;
     folderPicks := folders;
     warningPicks := warnings;
     dependencyManager := dependencyManager w |}.

(** A candidate folder conflicts when it already holds an entry named after
    the project. *)
Definition conflicts (env : Env) (projectName : string) (c : Uri) : bool :=
  pathExists env (path_join env (fsPath c) projectName).

(** The candidates the step will look at, in order: the folder of the
    defaults when there is one, then what the folder picker resolves to. *)
Definition candidates (defaults : WizardParams) (w : World) : list (option Uri) :=
  (if truthy (wp_targetFolder defaults)
   then [option_map Uri_file (wp_targetFolder defaults)]
   else [])
  ++ folderPicks w.

(** The calls of one round-trip through "Choose another folder". *)
Definition roundTrip (env : Env) (projectName : string) (c : Uri) : list Event :=
  [EPathExists (path_join env (fsPath c) projectName);
   EShowWarningMessage (MESSAGE_EXISTING_FOLDER projectName)
     [OPTION_CONTINUE; OPTION_CHOOSE_ANOTHER_FOLDER];
   EOpenDialog LABEL_CHOOSE_FOLDER].

(** The folder picker is opened at the start unless the defaults name a
    folder. *)
Definition firstDialog (defaults : WizardParams) : list Event :=
  if truthy (wp_targetFolder defaults) then [] else [EOpenDialog LABEL_CHOOSE_FOLDER].

(** ** The roots of the workspace *)

(** The roots that are open: the root path, when there is one, and the
    folders of the workspace that have a location. *)
Definition existingRoots (env : Env) : list string :=
  (match rootPath env with
   | Some root => if truthy (Some root) then [root] else []
   | None => []
   end)
  ++ flat_map (fun workspaceFolder =>
                 match wf_uri workspaceFolder with
                 | Some uri => [fsPath uri]
                 | None => []
                 end)
       (match workspaceFolders env with Some folders => folders | None => [] end).

(** A path is nested in the workspace when some open root is a prefix of
    it. *)
Definition nestedInRoot (env : Env) (path : string) : bool :=
  existsb (startsWith path) (existingRoots env).

(** The events of the fetch pipeline, and of the opening of the project. *)
Definition isFetchEvent (e : Event) : bool :=
  match e with
  | EProgress _ | EDownloadFile _ | EExtract _ _ => true
  | _ => false
  end.

Definition isOpenEvent (e : Event) : bool :=
  match e with
  | EShowInformationMessage _ _ | EExecuteCommand _ _ _ | EUpdateWorkspaceFolders _ _ => true
  | _ => false
  end.

(** ** Reading the orchestrator back *)

(** The eight steps of the wizard, in the order [runSteps] takes them. *)
Inductive Step : Type :=
| StepServiceUrl
| StepLanguage
| StepGroupId
| StepArtifactId
| StepPackaging
| StepBootVersion
| StepDependencies
| StepTargetFolder.

Definition allSteps : list Step :=
  [StepServiceUrl; StepLanguage; StepGroupId; StepArtifactId; StepPackaging;
   StepBootVersion; StepDependencies; StepTargetFolder].

(** The name a step is instrumented under. *)
Definition stepName (s : Step) : string :=
  match s with
  | StepServiceUrl => "serviceUrl"
  | StepLanguage => "Language"
  | StepGroupId => "GroupId"
  | StepArtifactId => "ArtifactId"
  | StepPackaging => "Packaging"
  | StepBootVersion => "BootVersion"
  | StepDependencies => "Dependencies"
  | StepTargetFolder => "TargetFolder"
  end.

(** The message of the cancellation raised for a step: by [runSteps] after
    the step, or, for the dependencies, by the step itself. *)
Definition cancelMessage (s : Step) : string :=
  match s with
  | StepServiceUrl => "Service URL not specified."
  | StepLanguage => "Language not specified."
  | StepGroupId => "GroupId not specified."
  | StepArtifactId => "ArtifactId not specified."
  | StepPackaging => "Packaging not specified."
  | StepBootVersion => "BootVersion not specified."
  | StepDependencies => "Canceled on dependency seletion."
  | StepTargetFolder => "Target folder not specified."
  end.

Definition stepIndex (s : Step) : nat :=
  match s with
  | StepServiceUrl => 0
  | StepLanguage => 1
  | StepGroupId => 2
  | StepArtifactId => 3
  | StepPackaging => 4
  | StepBootVersion => 5
  | StepDependencies => 6
  | StepTargetFolder => 7
  end.

Definition stepsBefore (s : Step) : list Step := firstn (stepIndex s) allSteps.

(** The calls the orchestrator itself makes: the steps it starts and how
    they settle, the fetch pipeline, the update of the last used
    dependencies, and the opening of the project.  What a step does inside
    (prompts, look-ups on disk) and telemetry are left out. *)
Definition isOrchestration (e : Event) : bool :=
  match e with
  | EStepBegin _ | EStepEnd _ _
  | EProgress _ | EDownloadFile _ | EExtract _ _
  | EUpdateLastUsed _
  | EShowInformationMessage _ _ | EExecuteCommand _ _ _ | EUpdateWorkspaceFolders _ _ => true
  | _ => false
  end.

Definition orchestration (t : list Event) : list Event := filter isOrchestration t.

(** The record of steps that were started and resolved to a value. *)
Definition completed (steps : list Step) : list Event :=
  flat_map (fun s => [EStepBegin (stepName s); EStepEnd (stepName s) (Fulfilled true)]) steps.

(** A trace ends with an event when nothing comes after it. *)
Definition endsWith (e : Event) (t : list Event) : Prop := exists before, t = before ++ [e].

(** A step is cancelled in a run when its call resolves to [undefined], or
    raises the cancellation with the message of the step, as the
    dependencies step does when its prompt is dismissed. *)
Definition declined (s : Step) (how : Settled) : Prop :=
  how = Fulfilled false \/ how = Rejected (OperationCanceledError (cancelMessage s)).

Definition lastUsedOf (w : World) : option IDependenciesItem :=
  DependencyManager.lastUsed (dependencyManager w).

(** A computation is quiet when it makes none of the orchestrator's calls
    and leaves the last used dependencies alone. *)
Definition quiet {A} (m : M A) : Prop :=
  forall w, orchestration (events (m w)) = [] /\ lastUsedOf (world (m w)) = lastUsedOf w.

(** How a step that did not resolve to a value left the run: it settled
    badly, or it never settled. *)
Definition stopOutcome {B} (message : string) (how : option Settled) : Outcome B :=
  match how with
  | Some (Fulfilled _) => Throw (OperationCanceledError message)
  | Some (Rejected e) => Throw e
  | None => OutOfFuel
  end.

Definition settlement (name : string) (how : option Settled) : list Event :=
  match how with
  | Some h => [EStepEnd name h]
  | None => []
  end.

(** The three ways a run of [runSteps] can go, seen from the calls of the
    orchestrator: it stops at a step; the archive cannot be fetched or
    unpacked; the project is generated and opened. *)
Inductive RunShape (env : Env) (w : World) : Outcome unit -> World -> list Event -> Prop :=
| run_stopped (s : Step) (how : option Settled) (w' : World) (t : list Event) :
    how <> Some (Fulfilled true) ->
    (s = StepDependencies -> how <> Some (Fulfilled false)) ->
    lastUsedOf w' = lastUsedOf w ->
    orchestration t
      = completed (stepsBefore s) ++ EStepBegin (stepName s) :: settlement (stepName s) how ->
    (forall h, how = Some h -> endsWith (EStepEnd (stepName s) h) t) ->
    RunShape env w (stopOutcome (B:=unit) (cancelMessage s) how) w' t
| run_fetch_failed (targetUrl targetFolder : string) (w1 w' : World) (e : JsError)
    (t : list Event) :
    outcome (downloadAndUnzip env targetUrl targetFolder w1) = Throw e ->
    lastUsedOf w' = lastUsedOf w ->
    orchestration t
      = completed allSteps ++ EStepBegin "DownloadUnzip"
        :: events (downloadAndUnzip env targetUrl targetFolder w1)
        ++ [EStepEnd "DownloadUnzip" (Rejected e)] ->
    RunShape env w (Throw e) w' t
| run_generated (targetUrl : string) (outputUri : Uri) (artifactId : string)
    (dependencies : IDependenciesItem) (w1 w2 : World) (t : list Event) :
    outcome (downloadAndUnzip env targetUrl (fsPath outputUri) w1) = Ok tt ->
    lastUsedOf w2 = Some dependencies ->
    orchestration t
      = completed allSteps ++ EStepBegin "DownloadUnzip"
        :: events (downloadAndUnzip env targetUrl (fsPath outputUri) w1)
        ++ EStepEnd "DownloadUnzip" (Fulfilled false)
        :: EUpdateLastUsed dependencies
        :: events (openProject env outputUri artifactId w2) ->
    RunShape env w
      (outcome (openProject env outputUri artifactId w2))
      (world (openProject env outputUri artifactId w2)) t.

(** ** Further readings of a run *)

(** The names under which steps were started, in the order of the trace. *)
Definition stepsStarted (t : list Event) : list string :=
  flat_map (fun e => match e with EStepBegin name => [name] | _ => [] end) t.

(** The names [runSteps] instruments, in the order of its text. *)
Definition instrumentedSteps : list string :=
  map stepName allSteps ++ ["DownloadUnzip"].

(** A string in which a character does not occur. *)
Fixpoint lacks (c : ascii) (s : string) : bool :=
  match s with
  | EmptyString => true
  | String x rest => negb (Ascii.eqb x c) && lacks c rest
  end.

(** A parameter as [downloadUrl] writes it. *)
Definition parameter (p : string * string) : string :=
  (fst p ++ "=" ++ snd p)%string.

(** A name and a value that come back from a query string as they went in:
    no [=] in the name, no [&] in either. *)
Definition plain (p : string * string) : bool :=
  lacks "=" (fst p) && lacks "&" (fst p) && lacks "&" (snd p).

(** The handler once the eight steps have resolved. *)
Definition answered (h : GenerateProjectHandler) (url language groupId artifactId
    packaging bootVersion : string) (item : IDependenciesItem) (out : Uri)
    : GenerateProjectHandler :=
  set_outputUri out
    (set_dependencies item
       (set_bootVersion bootVersion
          (set_packaging packaging
             (set_artifactId artifactId
                (set_groupId groupId
                   (set_language language
                      (set_manager {| sm_url := url |}
                         (set_serviceUrl url h)))))))).

(** A computation is steady when it leaves the world as it found it and
    always settles. *)
Definition steady {A} (m : M A) : Prop :=
  forall w, world (m w) = w /\ outcome (m w) <> OutOfFuel.

(** [hasOpenFolder] of [runSteps]. *)
Definition hasOpenFolder (env : Env) : bool :=
  isDefined (workspaceFolders env) || isDefined (rootPath env).

(** The parameters [downloadUrl] writes, in its order, for a handler whose
    dependencies are [d]. *)
Definition writtenParameters (h : GenerateProjectHandler) (d : IDependenciesItem)
    : list (string * string) :=
  [("type", projectTypeName (projectType h)); ("language", tpl (language h));
   ("groupId", tpl (groupId h)); ("artifactId", tpl (artifactId h));
   ("packaging", tpl (packaging h)); ("bootVersion", tpl (bootVersion h));
   ("baseDir", tpl (artifactId h)); ("dependencies", id d)].


(** A run told after the events that came before it. *)
Definition prefixed {A} (before : list Event) (run : Outcome A * World * list Event) :
    Outcome A * World * list Event :=
  let '(r, w, t) := run in (r, w, before ++ t).

(** Every event of a computation, whatever the world it starts in, is one
    that [P] allows. *)
Definition only {A} (P : Event -> Prop) (m : M A) : Prop :=
  forall w e, In e (events (m w)) -> P e.

(** A quick pick shown under the given place holder. *)
Definition asksFor (placeHolder : string) (e : Event) : Prop :=
  exists labels, e = EShowQuickPick labels placeHolder.

Definition isInputBox (e : Event) : bool :=
  match e with
  | EInputBox _ _ => true
  | _ => false
  end.

(** The two input boxes of the wizard, each with the text it is seeded
    with: the value of the wizard's defaults, else the configured one. *)
Definition inputBoxes (env : Env) (defaults : WizardParams) : list Event :=
  [EInputBox "Input Group Id for your project."
     (jsOr (wp_groupId defaults) (config env "defaultGroupId"));
   EInputBox "Input Artifact Id for your project."
     (jsOr (wp_artifactId defaults) (config env "defaultArtifactId"))].

(** * Properties *)

(** ** The download URL *)

(** C2, as the code has it: for the answers of the example the download URL
    is the service URL, then [/starter.zip?], then a query string of exactly
    eight parameters, [type], [language], [groupId], [artifactId],
    [packaging], [bootVersion], [baseDir] and [dependencies], with the values
    given and [baseDir] equal to the artifact id.  The version travels under
    the name [bootVersion]. *)
Theorem C2_downloadUrl_demo :
  forall (url kind : string) out mgr d,
    downloadUrl (demoAnswers url kind out mgr d)
      = inr (url ++ "/starter.zip?" ++ demoQuery)%string
    /\ queryParameters demoQuery
       = [("type", "maven-project"); ("language", "java"); ("groupId", "com.example");
          ("artifactId", "demo"); ("packaging", "jar"); ("bootVersion", "2.7.0");
          ("baseDir", "demo"); ("dependencies", "web,data-jpa")].
Proof.
  intros url kind out mgr d. split.
  - unfold downloadUrl, demoAnswers, demoQuery. cbn. reflexivity.
  - vm_compute. reflexivity.
Qed.

(** C2, as the specification words it, fails: the URL built for the example
    on [https://start.spring.io] has no parameter named [platformVersion],
    so its parameters are not the eight that are specified. *)
Lemma C2_no_platformVersion_parameter :
  exists u,
    downloadUrl (demoAnswers "https://start.spring.io" "selection" None None noDefaults)
      = inr u
    /\ queryParameters (queryOf u) <> specifiedParameters
    /\ ~ In "platformVersion" (map fst (queryParameters (queryOf u))).
Proof.
  eexists. split; [vm_compute; reflexivity|]. split.
  - vm_compute. discriminate.
  - vm_compute. intuition discriminate.
Qed.

(** ** Fetching and unpacking the archive *)

Section DownloadAndUnzip.

Variable env : Env.

Lemma downloadAndUnzip_unfold (targetUrl targetFolder : string) (w : World) :
  downloadAndUnzip env targetUrl targetFolder w =
  match downloadFile env targetUrl with
  | inl error =>
      (Throw error, w, [EProgress "Downloading zip package..."; EDownloadFile targetUrl])
  | inr filepath =>
      (match extract env filepath targetFolder with
       | Some err => Throw err
       | None => Ok tt
       end,
       w,
       [EProgress "Downloading zip package..."; EDownloadFile targetUrl;
        EProgress "Starting to unzip..."; EExtract filepath targetFolder])
  end.
Proof.
  unfold downloadAndUnzip, bind, emit, settled, throw, ret.
  destruct (downloadFile env targetUrl) as [error | filepath]; cbn.
  - reflexivity.
  - destruct (extract env filepath targetFolder); reflexivity.
Qed.

End DownloadAndUnzip.

(** C7: when fetching the archive fails, the phase rejects with that very
    error and the extractor is never called; when the extractor fails after
    a successful download, the phase rejects with that very error; the
    labels go to the progress notification in the order downloading, then
    unzipping, the second one only once the archive is there. *)
Theorem C7_downloadAndUnzip_failures_verbatim :
  forall env (targetUrl targetFolder : string) (w : World),
    let run := downloadAndUnzip env targetUrl targetFolder w in
    (forall error,
        downloadFile env targetUrl = inl error ->
        outcome run = Throw error
        /\ (forall filepath dir, ~ In (EExtract filepath dir) (events run))
        /\ progressLabels (events run) = ["Downloading zip package..."])
    /\ (forall filepath err,
        downloadFile env targetUrl = inr filepath ->
        extract env filepath targetFolder = Some err ->
        outcome run = Throw err
        /\ progressLabels (events run)
           = ["Downloading zip package..."; "Starting to unzip..."])
    /\ (forall filepath,
        downloadFile env targetUrl = inr filepath ->
        extract env filepath targetFolder = None ->
        outcome run = Ok tt
        /\ progressLabels (events run)
           = ["Downloading zip package..."; "Starting to unzip..."]
        /\ events run
           = [EProgress "Downloading zip package..."; EDownloadFile targetUrl;
              EProgress "Starting to unzip..."; EExtract filepath targetFolder]).
Proof.
  intros env targetUrl targetFolder w run. subst run.
  rewrite downloadAndUnzip_unfold.
  repeat split; intros.
  - rewrite H. reflexivity.
  - rewrite H. cbn. intuition discriminate.
  - rewrite H. reflexivity.
  - rewrite H, H0. reflexivity.
  - rewrite H, H0. reflexivity.
  - rewrite H, H0. reflexivity.
  - rewrite H, H0. reflexivity.
  - rewrite H, H0. reflexivity.
Qed.

(** On a host whose network is down the phase stops at the download. *)
Lemma C7_downloadAndUnzip_witness :
  let env := sampleEnv None None None (Some "Java") (inl (HostError "ENOTFOUND")) None in
  let run := downloadAndUnzip env "https://start.spring.io/starter.zip" "/out"
               (sampleWorld [] [] []) in
  outcome run = Throw (HostError "ENOTFOUND")
  /\ (forall filepath dir, ~ In (EExtract filepath dir) (events run))
  /\ progressLabels (events run) = ["Downloading zip package..."].
Proof.
  intros env run.
  apply (proj1 (C7_downloadAndUnzip_failures_verbatim env
                  "https://start.spring.io/starter.zip" "/out" (sampleWorld [] [] []))).
  reflexivity.
Defined.

(** ** The dependency selection loop *)

Lemma isSelected_filter_other (i x : string) (sel : list string) :
  x <> i ->
  DependencyManager.isSelected x (filter (fun y => negb (y =? i)%string) sel)
  = DependencyManager.isSelected x sel.
Proof.
  intros Hne. unfold DependencyManager.isSelected.
  induction sel as [|y sel IH]; cbn; [reflexivity|].
  destruct (String.eqb_spec y i) as [-> | Hyi]; cbn.
  - destruct (String.eqb_spec x i); [contradiction|]. exact IH.
  - rewrite IH. reflexivity.
Qed.

Lemma isSelected_filter_same (i : string) (sel : list string) :
  DependencyManager.isSelected i (filter (fun y => negb (y =? i)%string) sel) = false.
Proof.
  unfold DependencyManager.isSelected.
  induction sel as [|y sel IH]; cbn; [reflexivity|].
  destruct (String.eqb_spec y i) as [-> | Hyi]; cbn; [exact IH|].
  rewrite IH. destruct (String.eqb_spec i y); [subst; contradiction | reflexivity].
Qed.

(** The toggle modelled from the specification flips the membership of the
    id it is given, and of no other. *)
Lemma isSelected_toggle (i x : string) (sel : list string) :
  DependencyManager.isSelected x (DependencyManager.toggle i sel)
  = xorb (DependencyManager.isSelected x sel) (x =? i)%string.
Proof.
  unfold DependencyManager.toggle.
  destruct (DependencyManager.isSelected i sel) eqn:Hi;
    destruct (String.eqb_spec x i) as [-> | Hne].
  - rewrite isSelected_filter_same, Hi. reflexivity.
  - rewrite isSelected_filter_other by assumption. rewrite xorb_false_r. reflexivity.
  - unfold DependencyManager.isSelected in *. rewrite existsb_app, Hi. cbn.
    rewrite String.eqb_refl. reflexivity.
  - unfold DependencyManager.isSelected. rewrite existsb_app. cbn.
    destruct (String.eqb_spec x i); [contradiction|].
    rewrite orb_false_r, xorb_false_r. reflexivity.
Qed.

(** Toggling an id twice restores the membership of every id. *)
Lemma isSelected_toggle_twice (i x : string) (sel : list string) :
  DependencyManager.isSelected x (DependencyManager.toggle i (DependencyManager.toggle i sel))
  = DependencyManager.isSelected x sel.
Proof.
  rewrite !isSelected_toggle. destruct (DependencyManager.isSelected x sel), (x =? i)%string; reflexivity.
Qed.

Section DependencyLoop.

Variable bootVersion : string.
Variable defaults : WizardParams.

Let seed : list string := orEmpty (wp_dependencies defaults).

(** One turn of the loop on a dependency item: the selection is seeded
    again, the prompt shows it, the item is toggled, and the loop goes on. *)
Lemma specifyDependencies_loop_toggle (fuel : nat) (w : World)
    (c : IDependenciesItem) (rest : list (option IDependenciesItem)) :
  dependencyPicks w = Some c :: rest ->
  itemType c = "dependency" ->
  specifyDependencies_loop (S fuel) bootVersion defaults w =
  let '(r, w', t) :=
    specifyDependencies_loop fuel bootVersion defaults
      (pickedWorld (DependencyManager.toggle (id c) seed) rest w) in
  (r, w', EShowDependencyPick bootVersion seed :: t).
Proof.
  intros Hpicks Hkind.
  cbn [specifyDependencies_loop].
  unfold bind, modifyWorld, showDependencyPick, getWorld, emit, toggleDependency, ret.
  cbn. rewrite Hpicks. cbn. rewrite Hkind. cbn.
  unfold pickedWorld. cbn. fold seed.
  destruct (specifyDependencies_loop fuel bootVersion defaults _) as [[r w'] t].
  reflexivity.
Qed.

(** One turn of the loop on anything else: the selection is seeded again,
    the prompt shows it, and the loop ends with the answer. *)
Lemma specifyDependencies_loop_stop (fuel : nat) (w : World)
    (a : option IDependenciesItem) (rest : list (option IDependenciesItem)) :
  dependencyPicks w = a :: rest ->
  isDependency a = false ->
  specifyDependencies_loop (S fuel) bootVersion defaults w =
  (Ok a, pickedWorld seed rest w, [EShowDependencyPick bootVersion seed]).
Proof.
  intros Hpicks Hkind.
  cbn [specifyDependencies_loop].
  unfold bind, modifyWorld, showDependencyPick, getWorld, emit, toggleDependency, ret.
  cbn. rewrite Hpicks. cbn. rewrite Hkind. cbn. reflexivity.
Qed.

(** A run of the loop: [toggles] are picked one after the other, then
    something that is no dependency.  Every prompt shows the seed, and the
    selection the loop leaves behind is the seed. *)
Lemma specifyDependencies_loop_run (toggles : list IDependenciesItem) :
  forall (fuel : nat) (w : World) (a : option IDependenciesItem)
         (rest : list (option IDependenciesItem)),
    Forall (fun c => itemType c = "dependency") toggles ->
    isDependency a = false ->
    dependencyPicks w = map Some toggles ++ a :: rest ->
    length toggles < fuel ->
    specifyDependencies_loop fuel bootVersion defaults w =
    (Ok a, pickedWorld seed rest w,
     repeat (EShowDependencyPick bootVersion seed) (S (length toggles))).
Proof.
  induction toggles as [|c toggles IH]; intros fuel w a rest Hall Ha Hpicks Hfuel.
  - destruct fuel as [|fuel]; [inversion Hfuel|].
    apply specifyDependencies_loop_stop; assumption.
  - destruct fuel as [|fuel]; [inversion Hfuel|].
    inversion Hall as [|c' l Hc Htl]; subst.
    cbn [map app] in Hpicks.
    rewrite (specifyDependencies_loop_toggle fuel w Hpicks Hc).
    rewrite (IH fuel (pickedWorld (DependencyManager.toggle (id c) seed)
                        (map Some toggles ++ a :: rest) w) a rest Htl Ha eq_refl)
      by (cbn in Hfuel; lia).
    reflexivity.
Qed.

(** The answers that are left bound the turns of the loop: with more fuel
    than answers the loop comes to an end. *)
Lemma specifyDependencies_loop_enough_fuel (fuel : nat) :
  forall w : World,
    length (dependencyPicks w) < fuel ->
    outcome (specifyDependencies_loop fuel bootVersion defaults w) <> OutOfFuel.
Proof.
  induction fuel as [|fuel IH]; intros w Hfuel; [inversion Hfuel|].
  cbn [specifyDependencies_loop].
  unfold bind, modifyWorld, showDependencyPick, getWorld, emit, toggleDependency, ret.
  cbn.
  destruct (dependencyPicks w) as [|a rest] eqn:Hpicks; cbn; [discriminate|].
  destruct (isDependency a); cbn; [|discriminate].
  match goal with
  | |- context [specifyDependencies_loop fuel bootVersion defaults ?w1] =>
      specialize (IH w1); destruct (specifyDependencies_loop fuel bootVersion defaults w1)
        as [[r w'] t]
  end.
  cbn in *. apply IH. lia.
Qed.
End DependencyLoop.

Lemma specifyDependencies_enough_fuel fuel manager bootVersion defaults w :
  length (dependencyPicks w) < fuel ->
  outcome (specifyDependencies fuel manager bootVersion defaults w) <> OutOfFuel.
Proof.
  intros Hfuel. unfold specifyDependencies, bind.
  pose proof (@specifyDependencies_loop_enough_fuel bootVersion defaults fuel w Hfuel) as Hloop.
  destruct (specifyDependencies_loop fuel bootVersion defaults w) as [[r w'] t].
  cbn in *. destruct r as [[c|] | e |]; cbn; try discriminate. contradiction.
Qed.


(** Whatever is toggled, a confirmed selection is the seed: the value the
    step resolves to is the item picked last, and the selection the
    dependency manager is left with is [defaults.dependencies || []]. *)
Lemma specifyDependencies_confirm_keeps_seed
    (fuel : nat) (manager : ServiceManager) (bootVersion : string)
    (defaults : WizardParams) (w : World) (toggles : list IDependenciesItem)
    (confirm : IDependenciesItem) (rest : list (option IDependenciesItem)) :
  Forall (fun c => itemType c = "dependency") toggles ->
  (itemType confirm =? "dependency")%string = false ->
  dependencyPicks w = map Some toggles ++ Some confirm :: rest ->
  length toggles < fuel ->
  specifyDependencies fuel manager bootVersion defaults w =
  (Ok confirm, pickedWorld (orEmpty (wp_dependencies defaults)) rest w,
   repeat (EShowDependencyPick bootVersion (orEmpty (wp_dependencies defaults)))
     (S (length toggles))).
Proof.
  intros Hall Hconfirm Hpicks Hfuel.
  unfold specifyDependencies, bind.
  rewrite (@specifyDependencies_loop_run bootVersion defaults toggles fuel w
             (Some confirm) rest Hall Hconfirm Hpicks Hfuel).
  cbn. rewrite app_nil_r. reflexivity.
Qed.

Lemma dependencyPrompts_repeat (bootVersion : string) (sel : list string) (n : nat) :
  dependencyPrompts (repeat (EShowDependencyPick bootVersion sel) n) = n.
Proof.
  unfold dependencyPrompts. induction n as [|n IH]; cbn; [reflexivity|].
  f_equal. exact IH.
Qed.

(** C3, evaluated where it fails: with no defaults, the user toggles [web]
    and then confirms.  The net selection is [web], but the step leaves the
    selection empty, and both prompts showed it empty: the selection is
    seeded again at the top of every turn of the loop, so no toggle
    survives to the next prompt.  For the same reason a second toggle of
    [web] does not undo the first: after two turns on [web] the selection
    holds [web], as it did after one. *)
Theorem C3_toggle_then_confirm_loses_the_toggle :
  let manager := {| sm_url := "https://start.spring.io" |} in
  let run :=
    specifyDependencies 2 manager "2.7.0" noDefaults
      (sampleWorld [Some (dependencyItem "web"); Some (confirmItem "")] [] []) in
  let twoTurns :=
    specifyDependencies_loop 2 "2.7.0" noDefaults
      (sampleWorld [Some (dependencyItem "web"); Some (dependencyItem "web");
                    Some (confirmItem "")] [] []) in
  outcome run = Ok (confirmItem "")
  /\ DependencyManager.selectedIds (dependencyManager (world run)) = []
  /\ events run = [EShowDependencyPick "2.7.0" []; EShowDependencyPick "2.7.0" []]
  /\ netSelected [] ["web"] "web" = true
  /\ DependencyManager.isSelected "web"
       (DependencyManager.selectedIds (dependencyManager (world run))) = false
  /\ outcome twoTurns = OutOfFuel
  /\ DependencyManager.selectedIds (dependencyManager (world twoTurns)) = ["web"]
  /\ netSelected [] ["web"; "web"] "web" = false.
Proof.
  cbv zeta.
  rewrite (@specifyDependencies_confirm_keeps_seed 2 _ "2.7.0" noDefaults _
             [dependencyItem "web"] (confirmItem "") []);
    [ | repeat constructor | reflexivity | reflexivity | cbn; lia ].
  repeat split; reflexivity.
Qed.

(** C5: when the dependency prompt is dismissed, after any number of
    toggles, the step throws [OperationCanceledError]; it returns no value
    and does not show the prompt again. *)
Theorem C5_dismissed_dependency_prompt_cancels :
  forall (fuel : nat) (manager : ServiceManager) (bootVersion : string)
         (defaults : WizardParams) (w : World) (toggles : list IDependenciesItem)
         (rest : list (option IDependenciesItem)),
    Forall (fun c => itemType c = "dependency") toggles ->
    dependencyPicks w = map Some toggles ++ None :: rest ->
    length toggles < fuel ->
    let run := specifyDependencies fuel manager bootVersion defaults w in
    outcome run = Throw (OperationCanceledError "Canceled on dependency seletion.")
    /\ dependencyPrompts (events run) = S (length toggles)
    /\ dependencyPicks (world run) = rest.
Proof.
  intros fuel manager bootVersion defaults w toggles rest Hall Hpicks Hfuel run.
  subst run. unfold specifyDependencies, bind.
  rewrite (@specifyDependencies_loop_run bootVersion defaults toggles fuel w
             None rest Hall eq_refl Hpicks Hfuel).
  cbn [outcome events world fst snd throw].
  rewrite app_nil_r.
  repeat split.
  apply (dependencyPrompts_repeat bootVersion _ (S (length toggles))).
Qed.

(** The prompt is dismissed after one toggle. *)
Lemma C5_dismissed_dependency_prompt_witness :
  let run :=
    specifyDependencies 2 {| sm_url := "https://start.spring.io" |} "2.7.0" noDefaults
      (sampleWorld [Some (dependencyItem "web"); None; Some (confirmItem "web")] [] []) in
  outcome run = Throw (OperationCanceledError "Canceled on dependency seletion.")
  /\ dependencyPrompts (events run) = 2
  /\ dependencyPicks (world run) = [Some (confirmItem "web")].
Proof.
  apply (@C5_dismissed_dependency_prompt_cancels 2 {| sm_url := "https://start.spring.io" |}
           "2.7.0" noDefaults
           (sampleWorld [Some (dependencyItem "web"); None; Some (confirmItem "web")] [] [])
           [dependencyItem "web"] [Some (confirmItem "web")]).
  - repeat constructor.
  - reflexivity.
  - cbn. lia.
Defined.

(** ** The target-folder loop *)

Lemma answeredWorld_same (w : World) :
  answeredWorld (folderPicks w) (warningPicks w) w = w.
Proof. destruct w; reflexivity. Qed.

Lemma answeredWorld_twice (w : World) folders warnings folders' warnings' :
  answeredWorld folders warnings (answeredWorld folders' warnings' w)
  = answeredWorld folders warnings w.
Proof. reflexivity. Qed.

Section TargetFolderLoop.

Variable env : Env.
Variable projectName : string.

Let another : option string := Some OPTION_CHOOSE_ANOTHER_FOLDER.

(** No candidate: the loop is not entered. *)
Lemma specifyTargetFolder_loop_none (fuel : nat) (w : World) :
  specifyTargetFolder_loop env (S fuel) projectName None w = (Ok None, w, []).
Proof. reflexivity. Qed.

(** A candidate without conflict: the loop is not entered. *)
Lemma specifyTargetFolder_loop_free (fuel : nat) (w : World) (c : Uri) :
  conflicts env projectName c = false ->
  specifyTargetFolder_loop env (S fuel) projectName (Some c) w =
  (Ok (Some c), w, [EPathExists (path_join env (fsPath c) projectName)]).
Proof.
  intros Hfree. unfold conflicts in Hfree.
  cbn [specifyTargetFolder_loop].
  unfold bind, fsPathExists, emit, ret. cbn. rewrite Hfree. reflexivity.
Qed.

(** A conflict answered with anything but "Choose another folder": the
    loop breaks and keeps the candidate. *)
Lemma specifyTargetFolder_loop_keep (fuel : nat) (w : World) (c : Uri)
    (choice : option string) (warnings : list (option string)) :
  conflicts env projectName c = true ->
  warningPicks w = choice :: warnings ->
  isString choice OPTION_CHOOSE_ANOTHER_FOLDER = false ->
  specifyTargetFolder_loop env (S fuel) projectName (Some c) w =
  (Ok (Some c), answeredWorld (folderPicks w) warnings w,
   [EPathExists (path_join env (fsPath c) projectName);
    EShowWarningMessage (MESSAGE_EXISTING_FOLDER projectName)
      [OPTION_CONTINUE; OPTION_CHOOSE_ANOTHER_FOLDER]]).
Proof.
  intros Hconflict Hwarnings Hchoice. unfold conflicts in Hconflict.
  cbn [specifyTargetFolder_loop].
  unfold bind, fsPathExists, showWarningMessage, getWorld, modifyWorld, emit, ret.
  cbn. rewrite Hconflict, Hwarnings. cbn. rewrite Hchoice. reflexivity.
Qed.

(** A conflict answered with "Choose another folder": the picker is
    opened again and the loop goes on with what it resolves to. *)
Lemma specifyTargetFolder_loop_another (fuel : nat) (w : World) (c : Uri)
    (next : option Uri) (folders : list (option Uri))
    (warnings : list (option string)) :
  conflicts env projectName c = true ->
  warningPicks w = another :: warnings ->
  folderPicks w = next :: folders ->
  specifyTargetFolder_loop env (S fuel) projectName (Some c) w =
  let '(r, w', t) :=
    specifyTargetFolder_loop env fuel projectName next
      (answeredWorld folders warnings w) in
  (r, w', roundTrip env projectName c ++ t).
Proof.
  intros Hconflict Hwarnings Hfolders. unfold conflicts in Hconflict.
  cbn [specifyTargetFolder_loop].
  unfold bind, fsPathExists, showWarningMessage, openDialogForFolder,
    getWorld, modifyWorld, emit, ret.
  cbn. rewrite Hconflict, Hwarnings. cbn. rewrite Hfolders. cbn.
  unfold answeredWorld. cbn.
  destruct (specifyTargetFolder_loop env fuel projectName next _) as [[r w'] t].
  reflexivity.
Qed.

(** Through [earlier], all conflicting and all answered with "Choose
    another folder", the loop arrives at the candidate after them. *)
Lemma specifyTargetFolder_loop_rounds (earlier : list Uri) :
  forall (fuel : nat) (w : World) (current next : option Uri)
         (rest : list (option Uri)) (warnings : list (option string)),
    Forall (fun c => conflicts env projectName c = true) earlier ->
    current :: folderPicks w = map Some earlier ++ next :: rest ->
    warningPicks w = repeat another (length earlier) ++ warnings ->
    specifyTargetFolder_loop env (length earlier + fuel) projectName current w =
    let '(r, w', t) :=
      specifyTargetFolder_loop env fuel projectName next
        (answeredWorld rest warnings w) in
    (r, w', flat_map (roundTrip env projectName) earlier ++ t).
Proof.
  induction earlier as [|c earlier IH];
    intros fuel w current next rest warnings Hall Hstream Hwarnings.
  - cbn in Hstream, Hwarnings. injection Hstream as -> Hrest.
    rewrite <- Hrest, <- Hwarnings, answeredWorld_same. cbn.
    destruct (specifyTargetFolder_loop env fuel projectName next w) as [[r w'] t].
    reflexivity.
  - cbn [map app] in Hstream. injection Hstream as -> Hfolders.
    cbn [length repeat app] in Hwarnings.
    inversion Hall as [|c' l Hc Htl]; subst.
    remember (map Some earlier ++ next :: rest) as stream eqn:Hs.
    destruct stream as [|following folders].
    { symmetry in Hs. apply app_eq_nil in Hs. destruct Hs as [_ Hs]. discriminate. }
    cbn [length Nat.add].
    rewrite (@specifyTargetFolder_loop_another (length earlier + fuel) w c following
               folders (repeat another (length earlier) ++ warnings) Hc Hwarnings Hfolders).
    rewrite (IH fuel (answeredWorld folders
                        (repeat another (length earlier) ++ warnings) w)
               following next rest warnings Htl Hs eq_refl).
    rewrite answeredWorld_twice.
    destruct (specifyTargetFolder_loop env fuel projectName next
                (answeredWorld rest warnings w)) as [[r w'] t].
    cbn [flat_map]. rewrite <- !app_assoc. reflexivity.
Qed.

(** The step, from its first candidate on. *)
Lemma specifyTargetFolder_rounds (defaults : WizardParams) (earlier : list Uri)
    (fuel : nat) (w : World) (next : option Uri) (rest : list (option Uri))
    (warnings : list (option string)) :
  Forall (fun c => conflicts env projectName c = true) earlier ->
  candidates defaults w = map Some earlier ++ next :: rest ->
  warningPicks w = repeat another (length earlier) ++ warnings ->
  specifyTargetFolder env (length earlier + fuel) defaults projectName w =
  let '(r, w', t) :=
    specifyTargetFolder_loop env fuel projectName next
      (answeredWorld rest warnings w) in
  (r, w', firstDialog defaults ++ flat_map (roundTrip env projectName) earlier ++ t).
Proof.
  intros Hall Hcandidates Hwarnings.
  unfold specifyTargetFolder, candidates, firstDialog in *.
  destruct (truthy (wp_targetFolder defaults)).
  - unfold bind at 1. unfold ret at 1.
    rewrite (@specifyTargetFolder_loop_rounds earlier fuel w _ next rest warnings
               Hall Hcandidates Hwarnings).
    destruct (specifyTargetFolder_loop env fuel projectName next
                (answeredWorld rest warnings w)) as [[r w'] t].
    reflexivity.
  - cbn [app] in Hcandidates.
    remember (map Some earlier ++ next :: rest) as stream eqn:Hs.
    destruct stream as [|first folders].
    { symmetry in Hs. apply app_eq_nil in Hs. destruct Hs as [_ Hs]. discriminate. }
    unfold bind at 1. unfold openDialogForFolder, bind, getWorld, emit, modifyWorld, ret.
    cbn. rewrite Hcandidates. cbn.
    rewrite (@specifyTargetFolder_loop_rounds earlier fuel
               (set_folderPicks folders w) first next rest warnings Hall);
      [ | cbn; rewrite Hs; reflexivity | exact Hwarnings ].
    unfold answeredWorld, set_folderPicks. cbn.
    destruct (specifyTargetFolder_loop env fuel projectName next _) as [[r w'] t].
    reflexivity.
Qed.

Lemma overwriteWarnings_rounds (earlier : list Uri) :
  overwriteWarnings (flat_map (roundTrip env projectName) earlier) = length earlier.
Proof.
  unfold overwriteWarnings.
  induction earlier as [|c earlier IH]; cbn; [reflexivity|].
  f_equal. exact IH.
Qed.

(** The folders still to be picked bound the turns of the loop. *)
Lemma specifyTargetFolder_loop_enough_fuel (fuel : nat) :
  forall (outputUri : option Uri) (w : World),
    length (folderPicks w) + 2 <= fuel ->
    outcome (specifyTargetFolder_loop env fuel projectName outputUri w) <> OutOfFuel.
Proof.
  induction fuel as [|fuel IH]; intros outputUri w Hfuel; [lia|].
  cbn [specifyTargetFolder_loop].
  destruct outputUri as [u|]; [|discriminate].
  unfold bind, fsPathExists, showWarningMessage, openDialogForFolder,
    getWorld, modifyWorld, emit, ret.
  cbn.
  destruct (pathExists env _); cbn; [|discriminate].
  destruct (warningPicks w) as [|choice warnings]; cbn; [discriminate|].
  destruct (isString choice OPTION_CHOOSE_ANOTHER_FOLDER); cbn; [|discriminate].
  destruct (folderPicks w) as [|next folders] eqn:Hpicks; cbn.
  - destruct fuel as [|fuel]; [cbn in Hfuel; lia|]. cbn. discriminate.
  - match goal with
    | |- context [specifyTargetFolder_loop env fuel projectName next ?w1] =>
        specialize (IH next w1);
        destruct (specifyTargetFolder_loop env fuel projectName next w1) as [[r w'] t]
    end.
    cbn in *. apply IH. lia.
Qed.

Lemma specifyTargetFolder_enough_fuel (fuel : nat) (d : WizardParams) (w : World) :
  length (folderPicks w) + 2 <= fuel ->
  outcome (specifyTargetFolder env fuel d projectName w) <> OutOfFuel.
Proof.
  intros Hfuel. unfold specifyTargetFolder.
  destruct (truthy (wp_targetFolder d)).
  - unfold bind at 1. unfold ret at 1.
    pose proof (@specifyTargetFolder_loop_enough_fuel fuel
                  (option_map Uri_file (wp_targetFolder d)) w Hfuel) as Hloop.
    destruct (specifyTargetFolder_loop env fuel projectName _ w) as [[r w'] t].
    exact Hloop.
  - unfold bind at 1. unfold openDialogForFolder, bind, getWorld, emit, modifyWorld, ret.
    cbn.
    destruct (folderPicks w) as [|first folders] eqn:Hpicks; cbn.
    + destruct fuel as [|fuel]; [lia|]. cbn. discriminate.
    + match goal with
      | |- context [specifyTargetFolder_loop env fuel projectName first ?w1] =>
          pose proof (@specifyTargetFolder_loop_enough_fuel fuel first w1) as Hloop;
          destruct (specifyTargetFolder_loop env fuel projectName first w1) as [[r w'] t]
      end.
      cbn in *. apply Hloop. lia.
Qed.
End TargetFolderLoop.

(** C4: when the first K candidates each hold an entry named after the
    artifact id, each is answered with "Choose another folder", and the
    candidate after them holds none, the step makes exactly K round-trips
    and resolves to that candidate; "Continue" at a conflicting candidate
    resolves to that candidate at once; a dismissed folder picker makes the
    step resolve to no folder. *)
Theorem C4_target_folder_conflict_loop :
  forall (env : Env) (fuel : nat) (defaults : WizardParams) (projectName : string)
         (w : World) (earlier : list Uri) (next : option Uri)
         (rest : list (option Uri)) (warnings : list (option string)),
    Forall (fun c => conflicts env projectName c = true) earlier ->
    candidates defaults w = map Some earlier ++ next :: rest ->
    warningPicks w
      = repeat (Some OPTION_CHOOSE_ANOTHER_FOLDER) (length earlier) ++ warnings ->
    length earlier < fuel ->
    let run := specifyTargetFolder env fuel defaults projectName w in
    (forall c,
        next = Some c ->
        conflicts env projectName c = false ->
        outcome run = Ok (Some c)
        /\ events run
           = firstDialog defaults ++ flat_map (roundTrip env projectName) earlier
             ++ [EPathExists (path_join env (fsPath c) projectName)]
        /\ overwriteWarnings (events run) = length earlier
        /\ world run = answeredWorld rest warnings w)
    /\ (forall c warnings',
        next = Some c ->
        conflicts env projectName c = true ->
        warnings = Some OPTION_CONTINUE :: warnings' ->
        outcome run = Ok (Some c)
        /\ events run
           = firstDialog defaults ++ flat_map (roundTrip env projectName) earlier
             ++ [EPathExists (path_join env (fsPath c) projectName);
                 EShowWarningMessage (MESSAGE_EXISTING_FOLDER projectName)
                   [OPTION_CONTINUE; OPTION_CHOOSE_ANOTHER_FOLDER]]
        /\ world run = answeredWorld rest warnings' w)
    /\ (next = None ->
        outcome run = Ok None
        /\ events run
           = firstDialog defaults ++ flat_map (roundTrip env projectName) earlier
        /\ world run = answeredWorld rest warnings w).
Proof.
  intros env fuel defaults projectName w earlier next rest warnings
    Hall Hcandidates Hwarnings Hfuel run.
  assert (Hrun : exists fuel', fuel = length earlier + S fuel').
  { exists (fuel - S (length earlier)). lia. }
  destruct Hrun as [fuel' ->]. subst run.
  rewrite (@specifyTargetFolder_rounds env projectName defaults earlier (S fuel') w
             next rest warnings Hall Hcandidates Hwarnings).
  split; [|split].
  - intros c -> Hfree.
    rewrite (@specifyTargetFolder_loop_free env projectName fuel' _ c Hfree).
    cbn [outcome events world fst snd]. repeat split.
    unfold overwriteWarnings. rewrite !filter_app, !length_app.
    fold (overwriteWarnings (flat_map (roundTrip env projectName) earlier)).
    rewrite overwriteWarnings_rounds.
    unfold firstDialog. destruct (truthy (wp_targetFolder defaults)); cbn; lia.
  - intros c warnings' -> Hconflict ->.
    rewrite (@specifyTargetFolder_loop_keep env projectName fuel'
               (answeredWorld rest (Some OPTION_CONTINUE :: warnings') w) c
               (Some OPTION_CONTINUE) warnings' Hconflict eq_refl eq_refl).
    rewrite answeredWorld_twice.
    cbn [outcome events world fst snd]. repeat split.
  - intros ->.
    rewrite specifyTargetFolder_loop_none.
    cbn [outcome events world fst snd]. rewrite app_nil_r. repeat split.
Qed.

(** Two folders that already hold [demo] are turned down, the third is
    free. *)
Lemma C4_target_folder_conflict_loop_witness :
  let env := sampleEnv None None None (Some "Java") (inr "/tmp/demo.zip") None in
  let w :=
    sampleWorld []
      [Some (Uri_file "/work"); Some (Uri_file "/home"); Some (Uri_file "/out")]
      [Some OPTION_CHOOSE_ANOTHER_FOLDER; Some OPTION_CHOOSE_ANOTHER_FOLDER] in
  let run := specifyTargetFolder env 3 noDefaults "demo" w in
  outcome run = Ok (Some (Uri_file "/out"))
  /\ events run
     = firstDialog noDefaults
       ++ flat_map (roundTrip env "demo") [Uri_file "/work"; Uri_file "/home"]
       ++ [EPathExists (path_join env "/out" "demo")]
  /\ overwriteWarnings (events run) = 2
  /\ world run = answeredWorld [] [] w.
Proof.
  intros env w run.
  refine (proj1 (@C4_target_folder_conflict_loop env 3 noDefaults "demo" w
                   [Uri_file "/work"; Uri_file "/home"] (Some (Uri_file "/out")) [] []
                   _ _ _ _) (Uri_file "/out") eq_refl _).
  - repeat constructor.
  - reflexivity.
  - reflexivity.
  - cbn. lia.
  - reflexivity.
Defined.

(** C9: at a conflicting candidate, an overwrite warning that is dismissed
    is treated exactly as "Continue" is: the loop breaks and the step
    resolves to that candidate, without opening the folder picker again and
    without cancelling. *)
Theorem C9_dismissed_warning_keeps_candidate :
  forall (env : Env) (fuel : nat) (defaults : WizardParams) (projectName : string)
         (w : World) (earlier : list Uri) (c : Uri)
         (rest : list (option Uri)) (warnings : list (option string)),
    Forall (fun c => conflicts env projectName c = true) earlier ->
    conflicts env projectName c = true ->
    candidates defaults w = map Some earlier ++ Some c :: rest ->
    warningPicks w
      = repeat (Some OPTION_CHOOSE_ANOTHER_FOLDER) (length earlier) ++ None :: warnings ->
    length earlier < fuel ->
    let run := specifyTargetFolder env fuel defaults projectName w in
    let continued :=
      specifyTargetFolder env fuel defaults projectName
        (answeredWorld (folderPicks w)
           (repeat (Some OPTION_CHOOSE_ANOTHER_FOLDER) (length earlier)
            ++ Some OPTION_CONTINUE :: warnings) w) in
    outcome run = Ok (Some c)
    /\ run = continued
    /\ folderPicks (world run) = rest
    /\ warningPicks (world run) = warnings.
Proof.
  intros env fuel defaults projectName w earlier c rest warnings
    Hall Hconflict Hcandidates Hwarnings Hfuel run continued.
  assert (Hrun : exists fuel', fuel = length earlier + S fuel').
  { exists (fuel - S (length earlier)). lia. }
  destruct Hrun as [fuel' ->]. subst run continued.
  rewrite (@specifyTargetFolder_rounds env projectName defaults earlier (S fuel') w
             (Some c) rest (None :: warnings) Hall Hcandidates Hwarnings).
  rewrite (@specifyTargetFolder_rounds env projectName defaults earlier (S fuel')
             (answeredWorld (folderPicks w)
                (repeat (Some OPTION_CHOOSE_ANOTHER_FOLDER) (length earlier)
                 ++ Some OPTION_CONTINUE :: warnings) w)
             (Some c) rest (Some OPTION_CONTINUE :: warnings) Hall Hcandidates eq_refl).
  rewrite answeredWorld_twice.
  rewrite (@specifyTargetFolder_loop_keep env projectName fuel'
             (answeredWorld rest (None :: warnings) w) c
             None warnings Hconflict eq_refl eq_refl).
  rewrite (@specifyTargetFolder_loop_keep env projectName fuel'
             (answeredWorld rest (Some OPTION_CONTINUE :: warnings) w) c
             (Some OPTION_CONTINUE) warnings Hconflict eq_refl eq_refl).
  rewrite !answeredWorld_twice.
  cbn [outcome events world fst snd]. repeat split.
Qed.

(** The folder [/work] already holds [demo] and the warning is dismissed. *)
Lemma C9_dismissed_warning_witness :
  let env := sampleEnv None None None (Some "Java") (inr "/tmp/demo.zip") None in
  let w := sampleWorld [] [Some (Uri_file "/work"); Some (Uri_file "/out")] [None] in
  let run := specifyTargetFolder env 1 noDefaults "demo" w in
  let continued :=
    specifyTargetFolder env 1 noDefaults "demo"
      (answeredWorld (folderPicks w) [Some OPTION_CONTINUE] w) in
  outcome run = Ok (Some (Uri_file "/work"))
  /\ run = continued
  /\ folderPicks (world run) = [Some (Uri_file "/out")]
  /\ warningPicks (world run) = [].
Proof.
  intros env w run continued.
  refine (@C9_dismissed_warning_keeps_candidate env 1 noDefaults "demo" w
            [] (Uri_file "/work") [Some (Uri_file "/out")] [] _ _ _ _ _).
  - constructor.
  - reflexivity.
  - reflexivity.
  - reflexivity.
  - cbn. lia.
Defined.

(** ** What the steps leave alone *)

Lemma orchestration_app (t1 t2 : list Event) :
  orchestration (t1 ++ t2) = orchestration t1 ++ orchestration t2.
Proof. apply filter_app. Qed.

Lemma quiet_ret {A} (a : A) : quiet (ret a).
Proof. intros w. split; reflexivity. Qed.

Lemma quiet_throw {A} (e : JsError) : quiet (@throw A e).
Proof. intros w. split; reflexivity. Qed.

Lemma quiet_outOfFuel {A} : quiet (@outOfFuel A).
Proof. intros w. split; reflexivity. Qed.

Lemma quiet_getWorld : quiet getWorld.
Proof. intros w. split; reflexivity. Qed.

Lemma quiet_settled {A} (r : JsError + A) : quiet (settled r).
Proof. destruct r; [apply quiet_throw | apply quiet_ret]. Qed.

Lemma quiet_emit (e : Event) : isOrchestration e = false -> quiet (emit e).
Proof. intros He w. split; [|reflexivity]. cbn. rewrite He. reflexivity. Qed.

Lemma quiet_modifyWorld (f : World -> World) :
  (forall w, lastUsedOf (f w) = lastUsedOf w) -> quiet (modifyWorld f).
Proof. intros Hf w. split; [reflexivity | apply Hf]. Qed.

Lemma quiet_bind {A B} (m : M A) (k : A -> M B) :
  quiet m -> (forall a, quiet (k a)) -> quiet (bind m k).
Proof.
  intros Hm Hk w. unfold bind.
  destruct (Hm w) as [Ht Hw].
  destruct (m w) as [[r w1] t1]. cbn [events world fst snd] in Ht, Hw.
  destruct r as [a | e |].
  - destruct (Hk a w1) as [Ht2 Hw2].
    destruct (k a w1) as [[r2 w2] t2]. cbn [events world fst snd] in *.
    rewrite orchestration_app, Ht, Ht2, Hw2, Hw. split; reflexivity.
  - cbn [events world fst snd]. split; assumption.
  - cbn [events world fst snd]. split; assumption.
Qed.

Create HintDb quiet.
#[local] Hint Resolve quiet_ret quiet_throw quiet_outOfFuel quiet_getWorld
  quiet_settled : quiet.

(** Composite computations are taken apart bind by bind; what is left are
    calls to the host that the orchestrator does not make itself. *)
Ltac quiet_step :=
  match goal with
  | |- quiet (bind _ _) => apply quiet_bind; [|intros ?]
  | |- quiet (if ?b then _ else _) => destruct b
  | |- quiet (match ?x with _ => _ end) => destruct x
  | |- quiet (emit _) => apply quiet_emit; reflexivity
  | |- quiet (modifyWorld _) => apply quiet_modifyWorld; intros ?; reflexivity
  | |- quiet _ => solve [auto with quiet]
  end.

Ltac quiet_auto := repeat quiet_step.

Section QuietSteps.

Variable env : Env.

Lemma quiet_showQuickPick {A} labels placeHolder (answer : option A) :
  quiet (showQuickPick labels placeHolder answer).
Proof. unfold showQuickPick. quiet_auto. Qed.

Lemma quiet_getFromInputBox prompt value answer :
  quiet (getFromInputBox prompt value answer).
Proof. unfold getFromInputBox. quiet_auto. Qed.

Lemma quiet_showDependencyPick bootVersion : quiet (showDependencyPick bootVersion).
Proof. unfold showDependencyPick. quiet_auto. Qed.

Lemma quiet_openDialogForFolder openLabel : quiet (openDialogForFolder openLabel).
Proof. unfold openDialogForFolder. quiet_auto. Qed.

Lemma quiet_showWarningMessage message options :
  quiet (showWarningMessage message options).
Proof. unfold showWarningMessage. quiet_auto. Qed.

Lemma quiet_fsPathExists path : quiet (fsPathExists env path).
Proof. unfold fsPathExists. quiet_auto. Qed.

Lemma quiet_toggleDependency i : quiet (toggleDependency i).
Proof. unfold toggleDependency. quiet_auto. Qed.

Hint Resolve quiet_showQuickPick quiet_getFromInputBox quiet_showDependencyPick
  quiet_openDialogForFolder quiet_showWarningMessage quiet_fsPathExists
  quiet_toggleDependency : quiet.

Lemma quiet_specifyServiceUrl : quiet (specifyServiceUrl env).
Proof. unfold specifyServiceUrl. quiet_auto. Qed.

Lemma quiet_specifyLanguage defaults : quiet (specifyLanguage env defaults).
Proof. unfold specifyLanguage. quiet_auto. Qed.

Lemma quiet_specifyGroupId defaults : quiet (specifyGroupId env defaults).
Proof. unfold specifyGroupId. quiet_auto. Qed.

Lemma quiet_specifyArtifactId defaults : quiet (specifyArtifactId env defaults).
Proof. unfold specifyArtifactId. quiet_auto. Qed.

Lemma quiet_specifyPackaging defaults : quiet (specifyPackaging env defaults).
Proof. unfold specifyPackaging. quiet_auto. Qed.

Lemma quiet_specifyBootVersion manager : quiet (specifyBootVersion env manager).
Proof. unfold specifyBootVersion. quiet_auto. Qed.

Lemma quiet_specifyDependencies_loop fuel bootVersion defaults :
  quiet (specifyDependencies_loop fuel bootVersion defaults).
Proof.
  induction fuel as [|fuel IH]; cbn [specifyDependencies_loop].
  - apply quiet_outOfFuel.
  - quiet_auto; exact IH.
Qed.

Lemma quiet_specifyDependencies fuel manager bootVersion defaults :
  quiet (specifyDependencies fuel manager bootVersion defaults).
Proof.
  unfold specifyDependencies.
  apply quiet_bind; [apply quiet_specifyDependencies_loop|].
  intros current. quiet_auto.
Qed.

Lemma quiet_specifyTargetFolder_loop fuel projectName outputUri :
  quiet (specifyTargetFolder_loop env fuel projectName outputUri).
Proof.
  revert outputUri.
  induction fuel as [|fuel IH]; intros outputUri; cbn [specifyTargetFolder_loop].
  - apply quiet_outOfFuel.
  - quiet_auto; apply IH.
Qed.

Lemma quiet_specifyTargetFolder fuel defaults projectName :
  quiet (specifyTargetFolder env fuel defaults projectName).
Proof.
  unfold specifyTargetFolder.
  apply quiet_bind; [quiet_auto|].
  intros outputUri. apply quiet_specifyTargetFolder_loop.
Qed.

End QuietSteps.

(** ** The stages of the orchestrator *)

Lemma endsWith_app (e : Event) (t1 t2 : list Event) :
  endsWith e t2 -> endsWith e (t1 ++ t2).
Proof. intros [before ->]. exists (t1 ++ before). apply app_assoc. Qed.

Lemma endsWith_cons (e x : Event) (t : list Event) :
  endsWith e t -> endsWith e (x :: t).
Proof. intros [before ->]. exists (x :: before). reflexivity. Qed.

Lemma endsWith_last (e : Event) (t : list Event) : endsWith e (t ++ [e]).
Proof. exists t. reflexivity. Qed.

Lemma orchestration_started (name : string) (t : list Event) :
  orchestration t = [] ->
  orchestration (EStepBegin name :: t) = [EStepBegin name].
Proof. intros Ht. cbn. fold (orchestration t). rewrite Ht. reflexivity. Qed.

Lemma orchestration_settled (name : string) (t : list Event) (how : Settled) :
  orchestration t = [] ->
  orchestration (EStepBegin name :: t ++ [EStepEnd name how])
  = [EStepBegin name; EStepEnd name how].
Proof.
  intros Ht. cbn. fold (orchestration (t ++ [EStepEnd name how])).
  rewrite orchestration_app, Ht. reflexivity.
Qed.

(** A guarded stage, [x = await step(); if (x === undefined) throw ...;]
    followed by the rest: either the run stops there, with the step
    started and at most settled, or the step resolved to a value and the
    rest runs on it. *)
Lemma guarded_stage {A B} (name message : string) (cb : M (option A)) (k : A -> M B)
    (w : World) :
  quiet cb ->
  let run :=
    (x <- instrumentOperationStep name cb ;; x <- orCanceled message x ;; k x) w in
  (exists how,
      how <> Some (Fulfilled true)
      /\ outcome run = stopOutcome message how
      /\ lastUsedOf (world run) = lastUsedOf w
      /\ orchestration (events run) = EStepBegin name :: settlement name how
      /\ (forall h, how = Some h -> endsWith (EStepEnd name h) (events run)))
  \/ (exists v w1 t1,
      lastUsedOf w1 = lastUsedOf w
      /\ outcome run = outcome (k v w1)
      /\ world run = world (k v w1)
      /\ events run = t1 ++ events (k v w1)
      /\ orchestration t1 = [EStepBegin name; EStepEnd name (Fulfilled true)]).
Proof.
  intros Hquiet run. subst run.
  destruct (Hquiet w) as [Ht Hw].
  unfold bind, instrumentOperationStep. cbv beta.
  destruct (cb w) as [[r w1] t1]. cbn [events world fst snd] in Ht, Hw.
  destruct r as [[v|] | e |]; cbn [orCanceled ret throw].
  - right. exists v, w1, (EStepBegin name :: t1 ++ [EStepEnd name (Fulfilled true)]).
    destruct (k v w1) as [[r2 w2] t2]. cbn [outcome world events fst snd].
    repeat split; try assumption.
    apply orchestration_settled, Ht.
  - left. exists (Some (Fulfilled false)). cbn [outcome world events fst snd].
    repeat split; try assumption.
    + discriminate.
    + rewrite app_nil_r. apply orchestration_settled, Ht.
    + intros h [= <-]. rewrite app_nil_r. apply endsWith_cons, endsWith_last.
  - left. exists (Some (Rejected e)). cbn [outcome world events fst snd].
    repeat split; try assumption.
    + discriminate.
    + apply orchestration_settled, Ht.
    + intros h [= <-]. apply endsWith_cons, endsWith_last.
  - left. exists None. cbn [outcome world events fst snd].
    repeat split; try assumption.
    + discriminate.
    + apply orchestration_started, Ht.
    + intros h [=].
Qed.

(** The dependencies stage has no guard: the step resolves to an item or
    does not resolve at all. *)
Lemma item_stage {B} (name message : string) (cb : M IDependenciesItem)
    (k : IDependenciesItem -> M B) (w : World) :
  quiet cb ->
  let run := (x <- instrumentOperationStep name cb ;; k x) w in
  (exists how,
      how <> Some (Fulfilled true)
      /\ how <> Some (Fulfilled false)
      /\ outcome run = stopOutcome message how
      /\ lastUsedOf (world run) = lastUsedOf w
      /\ orchestration (events run) = EStepBegin name :: settlement name how
      /\ (forall h, how = Some h -> endsWith (EStepEnd name h) (events run)))
  \/ (exists v w1 t1,
      lastUsedOf w1 = lastUsedOf w
      /\ outcome run = outcome (k v w1)
      /\ world run = world (k v w1)
      /\ events run = t1 ++ events (k v w1)
      /\ orchestration t1 = [EStepBegin name; EStepEnd name (Fulfilled true)]).
Proof.
  intros Hquiet run. subst run.
  destruct (Hquiet w) as [Ht Hw].
  unfold bind, instrumentOperationStep. cbv beta.
  destruct (cb w) as [[r w1] t1]. cbn [events world fst snd] in Ht, Hw.
  destruct r as [v | e |].
  - right. exists v, w1, (EStepBegin name :: t1 ++ [EStepEnd name (Fulfilled true)]).
    destruct (k v w1) as [[r2 w2] t2]. cbn [outcome world events fst snd].
    repeat split; try assumption.
    apply orchestration_settled, Ht.
  - left. exists (Some (Rejected e)). cbn [outcome world events fst snd].
    repeat split; try assumption; try discriminate.
    + apply orchestration_settled, Ht.
    + intros h [= <-]. apply endsWith_cons, endsWith_last.
  - left. exists None. cbn [outcome world events fst snd].
    repeat split; try assumption; try discriminate.
    apply orchestration_started, Ht.
Qed.

(** Telemetry between two stages changes nothing the orchestrator is
    answerable for. *)
Lemma sendInfo_then {B} (info : list (string * string)) (k : M B) (w : World) :
  let run := (sendInfo info ;; k) w in
  outcome run = outcome (k w)
  /\ world run = world (k w)
  /\ events run = [ESendInfo info] ++ events (k w).
Proof.
  unfold sendInfo, bind, emit. cbn.
  destruct (k w) as [[r w1] t1]. repeat split.
Qed.

(** ** The shape of a run *)

Lemma completed_app (l1 l2 : list Step) :
  completed (l1 ++ l2) = completed l1 ++ completed l2.
Proof. apply flat_map_app. Qed.

Section RunShapes.

Variable env : Env.
Variable w0 : World.

(** A guarded stage inside a run that has completed the steps before it. *)
Lemma guarded_stage_run {A} (s : Step) (cb : M (option A)) (k : A -> M unit)
    (w : World) (pre : list Event) :
  s <> StepDependencies ->
  quiet cb ->
  lastUsedOf w = lastUsedOf w0 ->
  orchestration pre = completed (stepsBefore s) ->
  (forall v w1 pre',
      lastUsedOf w1 = lastUsedOf w0 ->
      orchestration pre' = completed (stepsBefore s ++ [s]) ->
      RunShape env w0 (outcome (k v w1)) (world (k v w1)) (pre' ++ events (k v w1))) ->
  let run :=
    (x <- instrumentOperationStep (stepName s) cb ;;
     x <- orCanceled (cancelMessage s) x ;; k x) w in
  RunShape env w0 (outcome run) (world run) (pre ++ events run).
Proof.
  intros Hs Hquiet Hw Hpre Hnext run.
  destruct (@guarded_stage A unit (stepName s) (cancelMessage s) cb k w Hquiet)
    as [(how & Hhow & Hout & Hlast & Horch & Hends)
       | (v & w1 & t1 & Hlast & Hout & Hworld & Hev & Horch)];
    fold run in Hout, Hlast, Horch, Hends || fold run in Hout, Hworld, Hev.
  - rewrite Hout. apply run_stopped.
    + exact Hhow.
    + intros Hdeps. contradiction.
    + rewrite Hlast. exact Hw.
    + rewrite orchestration_app, Hpre, Horch. reflexivity.
    + intros h Hh. apply endsWith_app, Hends, Hh.
  - rewrite Hout, Hworld, Hev, app_assoc. apply Hnext.
    + rewrite Hlast. exact Hw.
    + rewrite orchestration_app, completed_app, Hpre, Horch. reflexivity.
Qed.

(** The dependencies stage inside a run that has completed the steps
    before it. *)
Lemma item_stage_run (cb : M IDependenciesItem) (k : IDependenciesItem -> M unit)
    (w : World) (pre : list Event) :
  quiet cb ->
  lastUsedOf w = lastUsedOf w0 ->
  orchestration pre = completed (stepsBefore StepDependencies) ->
  (forall v w1 pre',
      lastUsedOf w1 = lastUsedOf w0 ->
      orchestration pre' = completed (stepsBefore StepDependencies ++ [StepDependencies]) ->
      RunShape env w0 (outcome (k v w1)) (world (k v w1)) (pre' ++ events (k v w1))) ->
  let run := (x <- instrumentOperationStep "Dependencies" cb ;; k x) w in
  RunShape env w0 (outcome run) (world run) (pre ++ events run).
Proof.
  intros Hquiet Hw Hpre Hnext run.
  destruct (@item_stage unit "Dependencies" (cancelMessage StepDependencies) cb k w Hquiet)
    as [(how & Hhow & Hhow' & Hout & Hlast & Horch & Hends)
       | (v & w1 & t1 & Hlast & Hout & Hworld & Hev & Horch)];
    fold run in Hout, Hlast, Horch, Hends || fold run in Hout, Hworld, Hev.
  - rewrite Hout. apply (@run_stopped env w0 StepDependencies how).
    + exact Hhow.
    + intros _. exact Hhow'.
    + rewrite Hlast. exact Hw.
    + rewrite orchestration_app, Hpre, Horch. reflexivity.
    + intros h Hh. apply endsWith_app, Hends, Hh.
  - rewrite Hout, Hworld, Hev, app_assoc. apply Hnext.
    + rewrite Hlast. exact Hw.
    + rewrite orchestration_app, completed_app, Hpre, Horch. reflexivity.
Qed.

(** Telemetry inside a run. *)
Lemma sendInfo_run (info : list (string * string)) (k : M unit) (w : World)
    (pre : list Event) (done : list Event) :
  orchestration pre = done ->
  (forall pre',
      orchestration pre' = done ->
      RunShape env w0 (outcome (k w)) (world (k w)) (pre' ++ events (k w))) ->
  let run := (sendInfo info ;; k) w in
  RunShape env w0 (outcome run) (world run) (pre ++ events run).
Proof.
  intros Hpre Hnext run.
  destruct (@sendInfo_then unit info k w) as (Hout & Hworld & Hev).
  fold run in Hout, Hworld, Hev.
  rewrite Hout, Hworld, Hev, app_assoc. apply Hnext.
  rewrite orchestration_app, Hpre. cbn. apply app_nil_r.
Qed.

End RunShapes.

Lemma downloadAndUnzip_facts env targetUrl targetFolder w :
  let run := downloadAndUnzip env targetUrl targetFolder w in
  world run = w
  /\ orchestration (events run) = events run
  /\ outcome run <> OutOfFuel.
Proof.
  cbv zeta. rewrite downloadAndUnzip_unfold.
  destruct (downloadFile env targetUrl) as [error | filepath].
  - repeat split. discriminate.
  - destruct (extract env filepath targetFolder); repeat split; discriminate.
Qed.

Lemma openProject_facts env outputUri artifactId w :
  let run := openProject env outputUri artifactId w in
  world run = w /\ orchestration (events run) = events run.
Proof.
  cbv zeta. unfold openProject, specifyOpenMethod, bind, emit, ret, throw.
  repeat match goal with
         | |- context [if ?b then _ else _] => destruct b
         | |- context [match workspaceFolders env with _ => _ end] =>
             destruct (workspaceFolders env)
         end; cbn; split; reflexivity.
Qed.


Lemma fetch_unfold env (h : GenerateProjectHandler) (deps : IDependenciesItem)
    (outputUri : Uri) (artifactId : string) (w : World) :
  dependencies h = Some deps ->
  exists targetUrl,
    downloadUrl h = inr targetUrl
    /\ (targetUrl <- settled (downloadUrl h) ;;
        instrumentOperationStep "DownloadUnzip"
          (downloadAndUnzip env targetUrl (fsPath outputUri)) ;;
        updateLastUsedDependencies deps ;;
        openProject env outputUri artifactId) w
       = match downloadAndUnzip env targetUrl (fsPath outputUri) w with
         | (Ok _, w1, t1) =>
             let w2 :=
               set_dependencyManager
                 (DependencyManager.updateLastUsedDependencies deps (dependencyManager w1))
                 w1 in
             let '(r, w', t) := openProject env outputUri artifactId w2 in
             (r, w',
              EStepBegin "DownloadUnzip"
              :: t1 ++ EStepEnd "DownloadUnzip" (Fulfilled false)
                 :: EUpdateLastUsed deps :: t)
         | (Throw e, w1, t1) =>
             (Throw e, w1,
              EStepBegin "DownloadUnzip" :: t1 ++ [EStepEnd "DownloadUnzip" (Rejected e)])
         | (OutOfFuel, w1, t1) => (OutOfFuel, w1, EStepBegin "DownloadUnzip" :: t1)
         end.
Proof.
  intros Hdeps. unfold downloadUrl. rewrite Hdeps. eexists. split; [reflexivity|].
  cbn [settled].
  unfold bind, instrumentOperationStep, updateLastUsedDependencies, bind, emit,
    modifyWorld, ret.
  cbv beta iota.
  destruct (downloadAndUnzip env _ (fsPath outputUri) w) as [[r w1] t1].
  destruct r as [[] | e |]; [ | reflexivity | reflexivity].
  cbv zeta.
  destruct (openProject env outputUri artifactId _) as [[r2 w2] t2].
  cbn. rewrite <- app_assoc. reflexivity.
Qed.

Lemma fetch_run env w0 (h : GenerateProjectHandler) (deps : IDependenciesItem)
    (outputUri : Uri) (artifactId : string) (w : World) (pre : list Event) :
  dependencies h = Some deps ->
  lastUsedOf w = lastUsedOf w0 ->
  orchestration pre = completed allSteps ->
  let run :=
    (targetUrl <- settled (downloadUrl h) ;;
     instrumentOperationStep "DownloadUnzip"
       (downloadAndUnzip env targetUrl (fsPath outputUri)) ;;
     updateLastUsedDependencies deps ;;
     openProject env outputUri artifactId) w in
  RunShape env w0 (outcome run) (world run) (pre ++ events run).
Proof.
  intros Hdeps Hw Hpre run. subst run.
  destruct (@fetch_unfold env h deps outputUri artifactId w Hdeps) as (targetUrl & _ & ->).
  destruct (downloadAndUnzip_facts env targetUrl (fsPath outputUri) w)
    as (Hworld & Horch & Hfuel).
  destruct (downloadAndUnzip env targetUrl (fsPath outputUri) w)
    as [[r w1] t1] eqn:Hrun.
  cbn [outcome world events fst snd] in Hworld, Horch, Hfuel. subst w1.
  destruct r as [[] | e |]; [ | | contradiction].
  - cbv zeta.
    set (w2 := set_dependencyManager _ w).
    destruct (openProject_facts env outputUri artifactId w2) as (Hworld2 & Horch2).
    assert (Hshape := @run_generated env w0 targetUrl outputUri artifactId deps w w2
                        (pre ++ EStepBegin "DownloadUnzip"
                           :: t1 ++ EStepEnd "DownloadUnzip" (Fulfilled false)
                              :: EUpdateLastUsed deps
                              :: events (openProject env outputUri artifactId w2))).
    rewrite Hrun in Hshape. cbn [outcome events fst snd] in Hshape.
    destruct (openProject env outputUri artifactId w2) as [[r2 w3] t2].
    cbn [outcome world events fst snd] in *.
    apply Hshape; [reflexivity | reflexivity |].
    rewrite orchestration_app, Hpre. f_equal.
    cbn. f_equal. fold (orchestration (t1 ++ EStepEnd "DownloadUnzip" (Fulfilled false)
                                         :: EUpdateLastUsed deps :: t2)).
    rewrite orchestration_app, Horch. f_equal.
    cbn. fold (orchestration t2). rewrite Horch2. reflexivity.
  - cbn [outcome world events fst snd].
    apply (@run_fetch_failed env w0 targetUrl (fsPath outputUri) w w e).
    + rewrite Hrun. reflexivity.
    + exact Hw.
    + rewrite Hrun. cbn [events snd].
      rewrite orchestration_app, Hpre. f_equal.
      cbn. f_equal. fold (orchestration (t1 ++ [EStepEnd "DownloadUnzip" (Rejected e)])).
      rewrite orchestration_app, Horch. reflexivity.
Qed.

(** Every run of [runSteps] has one of the three shapes. *)
Lemma runSteps_shape (env : Env) (fuel : nat) (h : GenerateProjectHandler) (w : World) :
  let run := runSteps env fuel h w in
  RunShape env w (outcome run) (world run) (events run).
Proof.
  intros run. subst run. unfold runSteps.
  change (events ?x) with ([] ++ events x).
  apply (@guarded_stage_run env w _ StepServiceUrl);
    [discriminate | apply quiet_specifyServiceUrl | reflexivity | reflexivity |].
  intros serviceUrl w1 pre1 Hw1 Hpre1. cbv beta zeta.
  apply (@guarded_stage_run env w _ StepLanguage);
    [discriminate | apply quiet_specifyLanguage | assumption | assumption |].
  clear w1 pre1 Hw1 Hpre1.
  intros language w1 pre1 Hw1 Hpre1. cbv beta zeta.
  apply (@guarded_stage_run env w _ StepGroupId);
    [discriminate | apply quiet_specifyGroupId | assumption | assumption |].
  clear w1 pre1 Hw1 Hpre1.
  intros groupId w1 pre1 Hw1 Hpre1. cbv beta zeta.
  apply (@guarded_stage_run env w _ StepArtifactId);
    [discriminate | apply quiet_specifyArtifactId | assumption | assumption |].
  clear w1 pre1 Hw1 Hpre1.
  intros artifactId w1 pre1 Hw1 Hpre1. cbv beta zeta.
  apply (@guarded_stage_run env w _ StepPackaging);
    [discriminate | apply quiet_specifyPackaging | assumption | assumption |].
  clear w1 pre1 Hw1 Hpre1.
  intros packaging w1 pre1 Hw1 Hpre1. cbv beta zeta.
  apply (@guarded_stage_run env w _ StepBootVersion);
    [discriminate | apply quiet_specifyBootVersion | assumption | assumption |].
  clear w1 pre1 Hw1 Hpre1.
  intros bootVersion w1 pre1 Hw1 Hpre1. cbv beta zeta.
  apply (@sendInfo_run env w _ _ w1 pre1 _ Hpre1).
  clear pre1 Hpre1. intros pre1 Hpre1.
  apply (@item_stage_run env w);
    [apply quiet_specifyDependencies | assumption | assumption |].
  clear w1 pre1 Hw1 Hpre1.
  intros dependencies w1 pre1 Hw1 Hpre1. cbv beta zeta.
  apply (@sendInfo_run env w _ _ w1 pre1 _ Hpre1).
  clear pre1 Hpre1. intros pre1 Hpre1.
  apply (@guarded_stage_run env w _ StepTargetFolder);
    [discriminate | apply quiet_specifyTargetFolder | assumption | assumption |].
  clear w1 pre1 Hw1 Hpre1.
  intros outputUri w1 pre1 Hw1 Hpre1. cbv beta zeta.
  apply fetch_run; [reflexivity | assumption | assumption].
Qed.

(** ** What a run can contain *)

Lemma stepName_inj (s s' : Step) : stepName s = stepName s' -> s = s'.
Proof. destruct s, s'; cbn; intros H; try reflexivity; discriminate. Qed.

Lemma stepName_not_fetch (s : Step) : stepName s <> "DownloadUnzip".
Proof. destruct s; discriminate. Qed.

Lemma In_completed (e : Event) (steps : list Step) :
  In e (completed steps) ->
  exists s, In s steps
            /\ (e = EStepBegin (stepName s) \/ e = EStepEnd (stepName s) (Fulfilled true)).
Proof.
  unfold completed. intros He. apply in_flat_map in He.
  destruct He as (s & Hs & He). exists s. split; [exact Hs|].
  cbn in He. intuition congruence.
Qed.

Lemma In_stepsBefore (s s' : Step) :
  In s' (stepsBefore s) -> stepIndex s' < stepIndex s.
Proof.
  destruct s; cbn; intuition (subst; cbn; lia).
Qed.

Lemma In_orchestration (e : Event) (t : list Event) :
  In e t -> isOrchestration e = true -> In e (orchestration t).
Proof. intros He Ho. apply filter_In. split; assumption. Qed.

Lemma orchestration_In (e : Event) (t : list Event) :
  In e (orchestration t) -> In e t.
Proof. intros He. apply filter_In in He. apply He. Qed.

(** The fetch pipeline makes calls of its own kind only, and so does the
    opening of the project. *)
Lemma downloadAndUnzip_events env targetUrl targetFolder w e :
  In e (events (downloadAndUnzip env targetUrl targetFolder w)) ->
  isFetchEvent e = true.
Proof.
  revert e. apply Forall_forall.
  rewrite downloadAndUnzip_unfold.
  destruct (downloadFile env targetUrl); cbn; repeat constructor.
Qed.

Lemma openProject_events env outputUri artifactId w e :
  In e (events (openProject env outputUri artifactId w)) ->
  isOpenEvent e = true.
Proof.
  revert e. apply Forall_forall.
  unfold openProject, specifyOpenMethod, bind, emit, ret, throw.
  repeat match goal with
         | |- context [if ?b then _ else _] => destruct b
         | |- context [match workspaceFolders env with _ => _ end] =>
             destruct (workspaceFolders env)
         end; cbn; repeat constructor.
Qed.

(** A step that declined is found nowhere but at the end of a run that
    stopped at it. *)
Lemma declined_step_shape env w r w' t (s : Step) (how : Settled) :
  RunShape env w r w' t ->
  declined s how ->
  In (EStepEnd (stepName s) how) t ->
  r = Throw (OperationCanceledError (cancelMessage s))
  /\ endsWith (EStepEnd (stepName s) how) t
  /\ orchestration t
     = completed (stepsBefore s) ++ [EStepBegin (stepName s); EStepEnd (stepName s) how]
  /\ lastUsedOf w' = lastUsedOf w
  /\ (s = StepDependencies -> how <> Fulfilled false).
Proof.
  intros Hshape Hdeclined Hin.
  apply In_orchestration in Hin; [|reflexivity].
  assert (Hnot : how <> Fulfilled true).
  { destruct Hdeclined as [-> | ->]; discriminate. }
  destruct Hshape as [s0 how0 w' t Hhow Hdeps Hlast Horch Hends
                     | targetUrl targetFolder w1 w' e t Hout Hlast Horch
                     | targetUrl outputUri artifactId deps w1 w2 t Hout Hlast Horch];
    rewrite Horch in Hin; apply in_app_or in Hin; destruct Hin as [Hin | Hin];
    try (apply In_completed in Hin; destruct Hin as (s1 & _ & [Hin | Hin]);
         [discriminate | injection Hin as _ Hin; contradiction]).
  - destruct Hin as [Hin | Hin]; [discriminate|].
    destruct how0 as [h|]; [|contradiction].
    destruct Hin as [Hin | []]. injection Hin as Hname ->.
    apply stepName_inj in Hname. subst s0.
    split; [|split; [|split; [|split]]].
    + destruct Hdeclined as [-> | ->]; reflexivity.
    + apply Hends. reflexivity.
    + exact Horch.
    + exact Hlast.
    + intros Hs ->. exact (Hdeps Hs eq_refl).
  - exfalso. destruct Hin as [Hin | Hin]; [discriminate|].
    apply in_app_or in Hin. destruct Hin as [Hin | [Hin | []]].
    + apply downloadAndUnzip_events in Hin. discriminate.
    + injection Hin as Hname _. symmetry in Hname. exact (stepName_not_fetch _ Hname).
  - exfalso. destruct Hin as [Hin | Hin]; [discriminate|].
    apply in_app_or in Hin. destruct Hin as [Hin | [Hin | [Hin | Hin]]].
    + apply downloadAndUnzip_events in Hin. discriminate.
    + injection Hin as Hname _. symmetry in Hname. exact (stepName_not_fetch _ Hname).
    + discriminate.
    + apply openProject_events in Hin. discriminate.
Qed.

(** In a run that stopped at a step, the orchestrator made no call but
    those of the steps up to it. *)
Lemma stopped_run_calls (t : list Event) (s : Step) (how : Settled) (e : Event) :
  orchestration t
  = completed (stepsBefore s) ++ [EStepBegin (stepName s); EStepEnd (stepName s) how] ->
  In e t ->
  isOrchestration e = true ->
  exists s', stepIndex s' <= stepIndex s
             /\ (e = EStepBegin (stepName s') \/ exists h, e = EStepEnd (stepName s') h).
Proof.
  intros Horch Hin Hcall.
  apply In_orchestration in Hin; [|exact Hcall].
  rewrite Horch in Hin. apply in_app_or in Hin. destruct Hin as [Hin | Hin].
  - apply In_completed in Hin. destruct Hin as (s' & Hs' & He).
    apply In_stepsBefore in Hs'. exists s'. split; [lia|].
    destruct He as [-> | ->]; [left; reflexivity | right; eexists; reflexivity].
  - exists s. split; [lia|].
    destruct Hin as [<- | [<- | []]]; [left; reflexivity | right; eexists; reflexivity].
Qed.

(** Where a filtered list splits, the list it was filtered from splits
    too. *)
Lemma filter_split {A} (f : A -> bool) (l : list A) :
  forall (a : list A) (x : A) (b : list A),
    filter f l = a ++ x :: b ->
    exists l1 l2, l = l1 ++ x :: l2 /\ filter f l1 = a /\ filter f l2 = b.
Proof.
  induction l as [|y l IH]; intros a x b Hsplit.
  - destruct a; discriminate.
  - cbn in Hsplit. destruct (f y) eqn:Hy.
    + destruct a as [|y' a].
      * injection Hsplit as -> Hb. exists [], l. repeat split. exact Hb.
      * injection Hsplit as <- Hrest.
        destruct (IH a x b Hrest) as (l1 & l2 & -> & Ha & Hb).
        exists (y :: l1), l2. repeat split.
        -- cbn. rewrite Hy, Ha. reflexivity.
        -- exact Hb.
    + destruct (IH a x b Hsplit) as (l1 & l2 & -> & Ha & Hb).
      exists (y :: l1), l2. repeat split.
      * cbn. rewrite Hy. exact Ha.
      * exact Hb.
Qed.

(** A fetch that resolved has downloaded the archive and unpacked it. *)
Lemma downloadAndUnzip_resolved env targetUrl targetFolder w :
  outcome (downloadAndUnzip env targetUrl targetFolder w) = Ok tt ->
  exists filepath,
    downloadFile env targetUrl = inr filepath
    /\ extract env filepath targetFolder = None
    /\ events (downloadAndUnzip env targetUrl targetFolder w)
       = [EProgress "Downloading zip package..."; EDownloadFile targetUrl;
          EProgress "Starting to unzip..."; EExtract filepath targetFolder].
Proof.
  rewrite downloadAndUnzip_unfold.
  destruct (downloadFile env targetUrl) as [error | filepath]; [discriminate|].
  destruct (extract env filepath targetFolder) as [err|] eqn:Hextract; [discriminate|].
  intros _. exists filepath. split; [reflexivity|]. split; [exact Hextract | reflexivity].
Qed.

(** With "Add to Workspace" configured and nothing open, the opening of
    the project reads [find] of an undefined folder list. *)
Lemma openProject_add_without_folder env outputUri artifactId w :
  config env "defaultOpenProjectMethod" = Some OPEN_IN_CURRENT_WORKSPACE ->
  rootPath env = None ->
  workspaceFolders env = None ->
  openProject env outputUri artifactId w = (Throw (TypeError "find"), w, []).
Proof.
  intros Hconfig Hroot Hfolders.
  unfold openProject, specifyOpenMethod. rewrite Hconfig, Hroot, Hfolders.
  reflexivity.
Qed.

(** ** Cancellation *)

(** C1: for each of the eight steps, in their order, when the step's call
    resolves to [undefined] (or, as the dependencies step does on
    dismissal, raises the cancellation itself), the run ends at once with an
    [OperationCanceledError] carrying the message of that step: the
    orchestrator has started the steps up to that one and nothing else, no
    later step, no download or unzip, and no update of the last used
    dependencies.  The dependencies step is the one step that never
    resolves to [undefined]: for it the cancellation is always its own. *)
Theorem C1_declined_step_stops_the_run :
  forall (env : Env) (fuel : nat) (h : GenerateProjectHandler) (w : World)
         (s : Step) (how : Settled),
    let run := runSteps env fuel h w in
    declined s how ->
    In (EStepEnd (stepName s) how) (events run) ->
    outcome run = Throw (OperationCanceledError (cancelMessage s))
    /\ endsWith (EStepEnd (stepName s) how) (events run)
    /\ orchestration (events run)
       = completed (stepsBefore s) ++ [EStepBegin (stepName s); EStepEnd (stepName s) how]
    /\ (forall s', stepIndex s < stepIndex s' ->
                   ~ In (EStepBegin (stepName s')) (events run))
    /\ ~ In (EStepBegin "DownloadUnzip") (events run)
    /\ (forall e, In e (events run) -> isFetchEvent e = false)
    /\ (forall v, ~ In (EUpdateLastUsed v) (events run))
    /\ lastUsedOf (world run) = lastUsedOf w
    /\ (s = StepDependencies -> how <> Fulfilled false).
Proof.
  intros env fuel h w s how run Hdeclined Hin.
  destruct (declined_step_shape (runSteps_shape env fuel h w) Hdeclined Hin)
    as (Hout & Hends & Horch & Hlast & Hown).
  fold run in Hout, Hends, Horch, Hlast.
  repeat (split; [assumption|]).
  split; [|split; [|split; [|split; [|split; assumption]]]].
  - intros s' Hlater Hstarted.
    destruct (@stopped_run_calls _ _ _ _ Horch Hstarted eq_refl) as (s1 & Hle & [He | [h' He]]);
      [|discriminate].
    injection He as He. apply stepName_inj in He. subst s1. lia.
  - intros Hstarted.
    destruct (@stopped_run_calls _ _ _ _ Horch Hstarted eq_refl) as (s1 & Hle & [He | [h' He]]);
      [|discriminate].
    injection He as He. symmetry in He. exact (stepName_not_fetch _ He).
  - intros e He.
    destruct (isFetchEvent e) eqn:Hfetch; [exfalso | reflexivity].
    assert (Hcall : isOrchestration e = true) by (destruct e; try discriminate; reflexivity).
    destruct (@stopped_run_calls _ _ _ _ Horch He Hcall) as (s1 & Hle & [-> | [h' ->]]);
      discriminate.
  - intros v Hupdated.
    destruct (@stopped_run_calls _ _ _ _ Horch Hupdated eq_refl) as (s1 & Hle & [He | [h' He]]);
      discriminate.
Qed.

(** The language prompt is dismissed: the run stops after two steps.  The
    dependency prompt is dismissed: the run stops after seven, on the
    cancellation the step raised. *)
Lemma C1_declined_step_witness :
  let h := newHandler MavenProject None in
  let w := sampleWorld [] [] [] in
  let noLanguage :=
    runSteps (sampleEnv None None None None (inr "/tmp/demo.zip") None) 1 h w in
  let noDependencies :=
    runSteps (sampleEnv None None None (Some "Java") (inr "/tmp/demo.zip") None) 1 h w in
  (outcome noLanguage = Throw (OperationCanceledError "Language not specified.")
   /\ orchestration (events noLanguage)
      = [EStepBegin "serviceUrl"; EStepEnd "serviceUrl" (Fulfilled true);
         EStepBegin "Language"; EStepEnd "Language" (Fulfilled false)]
   /\ lastUsedOf (world noLanguage) = lastUsedOf w)
  /\ (outcome noDependencies
      = Throw (OperationCanceledError "Canceled on dependency seletion.")
      /\ orchestration (events noDependencies)
         = completed (stepsBefore StepDependencies)
           ++ [EStepBegin "Dependencies";
               EStepEnd "Dependencies"
                 (Rejected (OperationCanceledError "Canceled on dependency seletion."))]
      /\ lastUsedOf (world noDependencies) = lastUsedOf w).
Proof.
  intros h w noLanguage noDependencies. split.
  - destruct (@C1_declined_step_stops_the_run
                (sampleEnv None None None None (inr "/tmp/demo.zip") None) 1 h w
                StepLanguage (Fulfilled false))
      as (Hout & _ & Horch & _ & _ & _ & _ & Hlast & _).
    + left. reflexivity.
    + vm_compute. repeat (first [left; reflexivity | right]).
    + repeat split; assumption.
  - destruct (@C1_declined_step_stops_the_run
                (sampleEnv None None None (Some "Java") (inr "/tmp/demo.zip") None) 1 h w
                StepDependencies
                (Rejected (OperationCanceledError "Canceled on dependency seletion.")))
      as (Hout & _ & Horch & _ & _ & _ & _ & Hlast & _).
    + right. reflexivity.
    + vm_compute. repeat (first [left; reflexivity | right]).
    + repeat split; assumption.
Defined.

(** ** The last used dependencies *)

(** C6: the last used dependencies are updated only after the download and
    unzip step has resolved.  A run in which it has not resolved leaves them
    as they were, in particular a run in which a step was cancelled and a run
    in which the download or the extraction failed; and an update that does
    happen comes after the archive was downloaded and unpacked without
    error. *)
Theorem C6_last_used_only_after_fetch :
  forall (env : Env) (fuel : nat) (h : GenerateProjectHandler) (w : World),
    let run := runSteps env fuel h w in
    (~ In (EStepEnd "DownloadUnzip" (Fulfilled false)) (events run) ->
       lastUsedOf (world run) = lastUsedOf w
       /\ forall v, ~ In (EUpdateLastUsed v) (events run))
    /\ (forall s how,
           declined s how ->
           In (EStepEnd (stepName s) how) (events run) ->
           lastUsedOf (world run) = lastUsedOf w)
    /\ (forall e,
           In (EStepEnd "DownloadUnzip" (Rejected e)) (events run) ->
           outcome run = Throw e /\ lastUsedOf (world run) = lastUsedOf w)
    /\ (forall v,
           In (EUpdateLastUsed v) (events run) ->
           exists before after targetUrl filepath targetFolder,
             events run = before ++ EUpdateLastUsed v :: after
             /\ In (EStepEnd "DownloadUnzip" (Fulfilled false)) before
             /\ In (EDownloadFile targetUrl) before
             /\ downloadFile env targetUrl = inr filepath
             /\ In (EExtract filepath targetFolder) before
             /\ extract env filepath targetFolder = None
             /\ lastUsedOf (world run) = Some v).
Proof.
  intros env fuel h w run.
  pose proof (runSteps_shape env fuel h w) as Hshape. fold run in Hshape.
  split; [|split; [|split]].
  - intros Hnot.
    destruct Hshape as [s0 how0 w' t Hhow Hdeps Hlast Horch Hends
                       | targetUrl targetFolder w1 w' e t Hout Hlast Horch
                       | targetUrl outputUri artifactId deps w1 w2 t Hout Hlast Horch].
    + split; [exact Hlast|]. intros v Hin.
      apply In_orchestration in Hin; [|reflexivity].
      rewrite Horch in Hin. apply in_app_or in Hin. destruct Hin as [Hin | Hin].
      * apply In_completed in Hin. destruct Hin as (s1 & _ & [Hin | Hin]); discriminate.
      * destruct Hin as [Hin | Hin]; [discriminate|].
        destruct how0; [destruct Hin as [Hin | []]; discriminate | contradiction].
    + split; [exact Hlast|]. intros v Hin.
      apply In_orchestration in Hin; [|reflexivity].
      rewrite Horch in Hin. apply in_app_or in Hin. destruct Hin as [Hin | Hin].
      * apply In_completed in Hin. destruct Hin as (s1 & _ & [Hin | Hin]); discriminate.
      * destruct Hin as [Hin | Hin]; [discriminate|].
        apply in_app_or in Hin. destruct Hin as [Hin | [Hin | []]]; [|discriminate].
        apply downloadAndUnzip_events in Hin. discriminate.
    + exfalso. apply Hnot. apply orchestration_In. rewrite Horch.
      apply in_or_app. right. right. apply in_or_app. right. left. reflexivity.
  - intros s how Hdeclined Hin.
    apply (declined_step_shape Hshape Hdeclined Hin).
  - intros e Hin.
    apply In_orchestration in Hin; [|reflexivity].
    destruct Hshape as [s0 how0 w' t Hhow Hdeps Hlast Horch Hends
                       | targetUrl targetFolder w1 w' e' t Hout Hlast Horch
                       | targetUrl outputUri artifactId deps w1 w2 t Hout Hlast Horch];
      rewrite Horch in Hin; apply in_app_or in Hin; destruct Hin as [Hin | Hin];
      try (apply In_completed in Hin; destruct Hin as (s1 & _ & [Hin | Hin]); discriminate);
      (destruct Hin as [Hin | Hin]; [discriminate|]).
    + exfalso. destruct how0 as [h0|]; [|contradiction].
      destruct Hin as [Hin | []]. injection Hin as Hname _.
      exact (stepName_not_fetch _ Hname).
    + apply in_app_or in Hin. destruct Hin as [Hin | [Hin | []]].
      * apply downloadAndUnzip_events in Hin. discriminate.
      * injection Hin as ->. split; [reflexivity | exact Hlast].
    + exfalso. apply in_app_or in Hin. destruct Hin as [Hin | [Hin | [Hin | Hin]]];
        try discriminate.
      * apply downloadAndUnzip_events in Hin. discriminate.
      * apply openProject_events in Hin. discriminate.
  - intros v Hin.
    apply In_orchestration in Hin; [|reflexivity].
    destruct Hshape as [s0 how0 w' t Hhow Hdeps Hlast Horch Hends
                       | targetUrl targetFolder w1 w' e' t Hout Hlast Horch
                       | targetUrl outputUri artifactId deps w1 w2 t Hout Hlast Horch];
      rewrite Horch in Hin; apply in_app_or in Hin; destruct Hin as [Hin | Hin];
      try (apply In_completed in Hin; destruct Hin as (s1 & _ & [Hin | Hin]); discriminate);
      (destruct Hin as [Hin | Hin]; [discriminate|]).
    + exfalso. destruct how0 as [h0|]; [|contradiction].
      destruct Hin as [Hin | []]. discriminate.
    + exfalso. apply in_app_or in Hin. destruct Hin as [Hin | [Hin | []]]; [|discriminate].
      apply downloadAndUnzip_events in Hin. discriminate.
    + destruct (downloadAndUnzip_resolved env targetUrl (fsPath outputUri) w1 Hout)
        as (filepath & Hdownload & Hextract & Hevents).
      assert (Hv : v = deps).
      { apply in_app_or in Hin. destruct Hin as [Hin | [Hin | [Hin | Hin]]].
        - apply downloadAndUnzip_events in Hin. discriminate.
        - discriminate.
        - injection Hin as ->. reflexivity.
        - apply openProject_events in Hin. discriminate. }
      subst v.
      assert (Hsplit :
                orchestration t
                = (completed allSteps ++ EStepBegin "DownloadUnzip"
                   :: events (downloadAndUnzip env targetUrl (fsPath outputUri) w1)
                   ++ [EStepEnd "DownloadUnzip" (Fulfilled false)])
                  ++ EUpdateLastUsed deps
                  :: events (openProject env outputUri artifactId w2)).
      { rewrite Horch, <- app_assoc. cbn [app]. rewrite <- app_assoc. reflexivity. }
      destruct (filter_split isOrchestration t _ _ _ Hsplit)
        as (before & after & -> & Hbefore & _).
      assert (Hearlier : forall e,
                 In e (events (downloadAndUnzip env targetUrl (fsPath outputUri) w1)
                       ++ [EStepEnd "DownloadUnzip" (Fulfilled false)]) ->
                 In e before).
      { intros e He. apply orchestration_In. unfold orchestration. rewrite Hbefore.
        apply in_or_app. right. right. exact He. }
      exists before, after, targetUrl, filepath, (fsPath outputUri).
      split; [reflexivity|].
      split; [apply Hearlier, in_or_app; right; left; reflexivity|].
      split; [apply Hearlier, in_or_app; left; rewrite Hevents; cbn; tauto|].
      split; [exact Hdownload|].
      split; [apply Hearlier, in_or_app; left; rewrite Hevents; cbn; tauto|].
      split; [exact Hextract|].
      destruct (openProject_facts env outputUri artifactId w2) as (-> & _).
      exact Hlast.
Qed.

(** The network is down: the run fails at the download and the last used
    dependencies stay as they were. *)
Lemma C6_last_used_witness :
  let env := sampleEnv None None None (Some "Java") (inl (HostError "ENOTFOUND")) None in
  let w := sampleWorld [Some (confirmItem "")] [Some (Uri_file "/out")] [] in
  let run := runSteps env 1 (newHandler MavenProject None) w in
  lastUsedOf (world run) = lastUsedOf w
  /\ forall v, ~ In (EUpdateLastUsed v) (events run).
Proof.
  intros env w run.
  apply (proj1 (C6_last_used_only_after_fetch env 1 (newHandler MavenProject None) w)).
  vm_compute. intuition discriminate.
Defined.

(** ** Opening the project with nothing open *)

(** C10: when the configured open method is "Add to Workspace" it is used
    without a prompt, even with no root path and no workspace folders; the
    branch then reads the folder list, which is undefined, and the run,
    having generated the project, fails with a [TypeError], neither
    completing nor cancelling. *)
Theorem C10_add_to_workspace_with_nothing_open :
  forall (env : Env) (fuel : nat) (h : GenerateProjectHandler) (w : World),
    config env "defaultOpenProjectMethod" = Some OPEN_IN_CURRENT_WORKSPACE ->
    rootPath env = None ->
    workspaceFolders env = None ->
    let run := runSteps env fuel h w in
    (forall outputUri artifactId w2,
        openProject env outputUri artifactId w2 = (Throw (TypeError "find"), w2, []))
    /\ (In (EStepEnd "DownloadUnzip" (Fulfilled false)) (events run) ->
        outcome run = Throw (TypeError "find")
        /\ (forall message candidates,
               ~ In (EShowInformationMessage message candidates) (events run))
        /\ (forall start uri, ~ In (EUpdateWorkspaceFolders start uri) (events run))).
Proof.
  intros env fuel h w Hconfig Hroot Hfolders run.
  split.
  { intros outputUri artifactId w2.
    apply openProject_add_without_folder; assumption. }
  intros Hin.
  pose proof (runSteps_shape env fuel h w) as Hshape. fold run in Hshape.
  apply In_orchestration in Hin; [|reflexivity].
  destruct Hshape as [s0 how0 w' t Hhow Hdeps Hlast Horch Hends
                     | targetUrl targetFolder w1 w' e' t Hout Hlast Horch
                     | targetUrl outputUri artifactId deps w1 w2 t Hout Hlast Horch].
  - exfalso. rewrite Horch in Hin. apply in_app_or in Hin. destruct Hin as [Hin | Hin].
    + apply In_completed in Hin. destruct Hin as (s1 & _ & [Hin | Hin]); discriminate.
    + destruct Hin as [Hin | Hin]; [discriminate|].
      destruct how0 as [h0|]; [|contradiction].
      destruct Hin as [Hin | []]. injection Hin as Hname _.
      exact (stepName_not_fetch _ Hname).
  - exfalso. rewrite Horch in Hin. apply in_app_or in Hin. destruct Hin as [Hin | Hin].
    + apply In_completed in Hin. destruct Hin as (s1 & _ & [Hin | Hin]); discriminate.
    + destruct Hin as [Hin | Hin]; [discriminate|].
      apply in_app_or in Hin. destruct Hin as [Hin | [Hin | []]]; [|discriminate].
      apply downloadAndUnzip_events in Hin. discriminate.
  - clear Hin.
    rewrite (openProject_add_without_folder env outputUri artifactId w2
               Hconfig Hroot Hfolders) in *.
    cbn [outcome world events fst snd] in *.
    split; [reflexivity|]. split.
    + intros message candidates Hin.
      apply In_orchestration in Hin; [|reflexivity].
      rewrite Horch in Hin. apply in_app_or in Hin. destruct Hin as [Hin | Hin].
      * apply In_completed in Hin. destruct Hin as (s1 & _ & [Hin | Hin]); discriminate.
      * destruct Hin as [Hin | Hin]; [discriminate|].
        apply in_app_or in Hin. destruct Hin as [Hin | [Hin | [Hin | []]]];
          try discriminate.
        apply downloadAndUnzip_events in Hin. discriminate.
    + intros start uri Hin.
      apply In_orchestration in Hin; [|reflexivity].
      rewrite Horch in Hin. apply in_app_or in Hin. destruct Hin as [Hin | Hin].
      * apply In_completed in Hin. destruct Hin as (s1 & _ & [Hin | Hin]); discriminate.
      * destruct Hin as [Hin | Hin]; [discriminate|].
        apply in_app_or in Hin. destruct Hin as [Hin | [Hin | [Hin | []]]];
          try discriminate.
        apply downloadAndUnzip_events in Hin. discriminate.
Qed.

(** "Add to Workspace" is configured and the editor has nothing open: the
    project is generated into [/out] and the run ends on the [TypeError]. *)
Lemma C10_add_to_workspace_witness :
  let env :=
    sampleEnv (Some OPEN_IN_CURRENT_WORKSPACE) None None (Some "Java")
      (inr "/tmp/demo.zip") None in
  let w := sampleWorld [Some (confirmItem "")] [Some (Uri_file "/out")] [] in
  let run := runSteps env 1 (newHandler MavenProject None) w in
  outcome run = Throw (TypeError "find")
  /\ (forall message candidates,
         ~ In (EShowInformationMessage message candidates) (events run))
  /\ (forall start uri, ~ In (EUpdateWorkspaceFolders start uri) (events run)).
Proof.
  intros env w run.
  apply (proj2 (@C10_add_to_workspace_with_nothing_open env 1
                  (newHandler MavenProject None) w eq_refl eq_refl eq_refl)).
  vm_compute. repeat (first [left; reflexivity | right]).
Defined.

(** ** Adding the project to the workspace *)

Lemma isDefined_find {A} (f : A -> bool) (l : list A) :
  isDefined (find f l) = existsb f l.
Proof.
  induction l as [|x l IH]; cbn; [reflexivity|].
  destruct (f x); [reflexivity | exact IH].
Qed.

Lemma existsb_folder_roots (path : string) (folders : list WorkspaceFolder) :
  existsb (startsWith path)
    (flat_map (fun workspaceFolder =>
                 match wf_uri workspaceFolder with
                 | Some uri => [fsPath uri]
                 | None => []
                 end) folders)
  = existsb (insideFolder path) folders.
Proof.
  induction folders as [|f folders IH]; cbn; [reflexivity|].
  rewrite existsb_app, IH. unfold insideFolder at 2.
  destruct (wf_uri f); cbn; [rewrite orb_false_r|]; reflexivity.
Qed.

(** Containment in an open root, as the branch decides it. *)
Lemma nestedInRoot_decided (env : Env) (path : string) :
  nestedInRoot env path
  = negb (outsideRootPath path (rootPath env))
    || existsb (insideFolder path)
         (match workspaceFolders env with Some folders => folders | None => [] end).
Proof.
  unfold nestedInRoot, existingRoots, outsideRootPath.
  rewrite existsb_app, existsb_folder_roots. f_equal.
  destruct (rootPath env) as [root|]; [|reflexivity].
  destruct (truthy (Some root)); cbn; [|reflexivity].
  rewrite orb_false_r, negb_involutive. reflexivity.
Qed.

(** The open method is resolved without touching the world, with at most
    the information message shown. *)
Lemma specifyOpenMethod_run env hasOpenFolder projectLocation w :
  exists choice t,
    specifyOpenMethod env hasOpenFolder projectLocation w = (Ok choice, w, t)
    /\ forall start uri, ~ In (EUpdateWorkspaceFolders start uri) t.
Proof.
  unfold specifyOpenMethod.
  destruct (negb _ && negb _).
  - eexists. eexists. split; [reflexivity|].
    intros start uri [Hin | []]. discriminate.
  - eexists. eexists. split; [reflexivity|].
    intros start uri [].
Qed.

(** C8, as the code has it: in the branch that adds the project to the
    current workspace, containment is tested on the folder the project was
    generated into, [outputUri.fsPath], by prefix against the root path and
    against every workspace folder.  When that folder is nested in an open
    root no call to [updateWorkspaceFolders] is made; a call that is made
    finds it in no open root; and with "Add to Workspace" chosen it is made
    whenever it is in none. *)
Theorem C8_nested_target_folder_is_not_added :
  forall (env : Env) (outputUri : Uri) (artifactId : string) (w : World),
    let run := openProject env outputUri artifactId w in
    (nestedInRoot env (fsPath outputUri) = true ->
       forall start uri, ~ In (EUpdateWorkspaceFolders start uri) (events run))
    /\ (forall start uri,
           In (EUpdateWorkspaceFolders start uri) (events run) ->
           nestedInRoot env (fsPath outputUri) = false
           /\ exists folders,
               workspaceFolders env = Some folders
               /\ start = length folders
               /\ uri = Uri_file (path_join env (fsPath outputUri) artifactId))
    /\ (forall folders,
           workspaceFolders env = Some folders ->
           outcome (specifyOpenMethod env true (fsPath outputUri) w)
             = Ok (Some OPEN_IN_CURRENT_WORKSPACE) ->
           nestedInRoot env (fsPath outputUri) = false ->
           outcome run = Ok tt
           /\ In (EUpdateWorkspaceFolders (length folders)
                    (Uri_file (path_join env (fsPath outputUri) artifactId)))
                 (events run)).
Proof.
  intros env outputUri artifactId w run.
  assert (Hmade : forall start uri,
             In (EUpdateWorkspaceFolders start uri) (events run) ->
             nestedInRoot env (fsPath outputUri) = false
             /\ exists folders,
                 workspaceFolders env = Some folders
                 /\ start = length folders
                 /\ uri = Uri_file (path_join env (fsPath outputUri) artifactId)).
  { intros start uri. subst run. unfold openProject.
    set (hasOpenFolder := isDefined (workspaceFolders env) || isDefined (rootPath env)).
    destruct (specifyOpenMethod_run env hasOpenFolder (fsPath outputUri) w)
      as (choice & t & Hchoice & Hquiet).
    unfold bind. rewrite Hchoice.
    rewrite nestedInRoot_decided.
    destruct (isString choice OPEN_IN_NEW_WORKSPACE).
    { cbn. rewrite in_app_iff. intros [Hin | [Hin | []]];
        [exfalso; exact (Hquiet _ _ Hin) | discriminate]. }
    destruct (isString choice OPEN_IN_CURRENT_WORKSPACE);
      [|cbn; rewrite app_nil_r; intros Hin; exfalso; exact (Hquiet _ _ Hin)].
    destruct (outsideRootPath (fsPath outputUri) (rootPath env));
      [|cbn; rewrite app_nil_r; intros Hin; exfalso; exact (Hquiet _ _ Hin)].
    destruct (workspaceFolders env) as [folders|];
      [|cbn; rewrite app_nil_r; intros Hin; exfalso; exact (Hquiet _ _ Hin)].
    rewrite isDefined_find.
    destruct (existsb (insideFolder (fsPath outputUri)) folders);
      [cbn; rewrite app_nil_r; intros Hin; exfalso; exact (Hquiet _ _ Hin)|].
    cbn. rewrite in_app_iff. intros [Hin | [Hin | []]];
      [exfalso; exact (Hquiet _ _ Hin)|].
    injection Hin as <- <-. split; [reflexivity|].
    exists folders. repeat split. }
  split; [|split].
  - intros Hnested start uri Hin.
    destruct (Hmade start uri Hin) as [Hfree _]. congruence.
  - exact Hmade.
  - intros folders Hfolders Hchoice Hfree. subst run. unfold openProject.
    rewrite nestedInRoot_decided, Hfolders in Hfree.
    apply orb_false_elim in Hfree. destruct Hfree as [Hroot Hinside].
    apply negb_false_iff in Hroot.
    rewrite Hfolders. cbn [isDefined JsValue_option orb].
    unfold bind.
    destruct (specifyOpenMethod env true (fsPath outputUri) w) as [[r w1] t] eqn:Hrun.
    cbn [outcome fst] in Hchoice. subst r.
    cbn [isString OPEN_IN_NEW_WORKSPACE OPEN_IN_CURRENT_WORKSPACE].
    replace ("Add to Workspace" =? "Open")%string with false by reflexivity.
    replace ("Add to Workspace" =? "Add to Workspace")%string with true by reflexivity.
    rewrite Hroot, isDefined_find, Hinside. cbn.
    split; [reflexivity|]. apply in_or_app. right. left. reflexivity.
Qed.

(** The project is generated into [/work/projects] while [/work] is a
    folder of the workspace. *)
Lemma C8_nested_target_folder_witness :
  let env :=
    sampleEnv (Some OPEN_IN_CURRENT_WORKSPACE) None
      (Some [{| wf_uri := Some (Uri_file "/work") |}]) (Some "Java")
      (inr "/tmp/demo.zip") None in
  let run := openProject env (Uri_file "/work/projects") "demo" (sampleWorld [] [] []) in
  nestedInRoot env "/work/projects" = true
  /\ (forall start uri, ~ In (EUpdateWorkspaceFolders start uri) (events run)).
Proof.
  intros env run. split; [reflexivity|].
  apply (proj1 (C8_nested_target_folder_is_not_added env (Uri_file "/work/projects")
                  "demo" (sampleWorld [] [] []))).
  reflexivity.
Defined.

(** C8, as the specification words it, fails: the folder [/work/demo] is
    open, and the project [demo] is generated into [/work] over it.  The
    path of the new project, [/work/demo], is nested in an open root, and
    still the workspace is asked to add it, because the test is made on
    [/work]. *)
Lemma C8_project_path_nested_yet_added :
  let env :=
    sampleEnv (Some OPEN_IN_CURRENT_WORKSPACE) (Some "/work/demo")
      (Some [{| wf_uri := Some (Uri_file "/work/demo") |}]) (Some "Java")
      (inr "/tmp/demo.zip") None in
  let run := openProject env (Uri_file "/work") "demo" (sampleWorld [] [] []) in
  path_join env "/work" "demo" = "/work/demo"
  /\ nestedInRoot env (path_join env "/work" "demo") = true
  /\ events run = [EUpdateWorkspaceFolders 1 (Uri_file "/work/demo")].
Proof.
  intros env run. repeat split.
Qed.

(** ** More on the order of a run *)

Lemma stepsStarted_app (t1 t2 : list Event) :
  stepsStarted (t1 ++ t2) = stepsStarted t1 ++ stepsStarted t2.
Proof. apply flat_map_app. Qed.

Lemma stepsStarted_orchestration (t : list Event) :
  stepsStarted (orchestration t) = stepsStarted t.
Proof.
  unfold stepsStarted, orchestration.
  induction t as [|e t IH]; [reflexivity|].
  destruct e; cbn; rewrite IH; reflexivity.
Qed.

Lemma stepsStarted_completed (steps : list Step) :
  stepsStarted (completed steps) = map stepName steps.
Proof.
  induction steps as [|s steps IH]; [reflexivity|].
  cbn. f_equal. exact IH.
Qed.

Lemma stepsStarted_none (t : list Event) :
  (forall e, In e t -> isFetchEvent e = true \/ isOpenEvent e = true) ->
  stepsStarted t = [].
Proof.
  unfold stepsStarted.
  induction t as [|e t IH]; intros Hkind; [reflexivity|].
  cbn [flat_map].
  rewrite IH by (intros e' He'; apply Hkind; right; exact He').
  destruct (Hkind e (or_introl eq_refl)) as [He | He]; destruct e;
    try discriminate; reflexivity.
Qed.

(** X1: whatever the answers, [runSteps] starts its steps in the order of
    its text, each one once, and none before the one ahead of it: the names
    started are an initial segment of the eight steps followed by the
    download. *)
Theorem X1_steps_start_in_order :
  forall (env : Env) (fuel : nat) (h : GenerateProjectHandler) (w : World),
  exists n,
    stepsStarted (events (runSteps env fuel h w)) = firstn n instrumentedSteps.
Proof.
  intros env fuel h w.
  pose proof (runSteps_shape env fuel h w) as Hshape. cbv zeta in Hshape.
  rewrite <- stepsStarted_orchestration.
  destruct Hshape as [s0 how0 w' t Hhow Hdeps Hlast Horch Hends
                     | targetUrl targetFolder w1 w' e' t Hout Hlast Horch
                     | targetUrl outputUri artifactId deps w1 w2 t Hout Hlast Horch];
    rewrite Horch.
  - exists (S (stepIndex s0)).
    rewrite stepsStarted_app, stepsStarted_completed.
    destruct s0, how0; reflexivity.
  - exists 9.
    rewrite stepsStarted_app, stepsStarted_completed. cbn [stepsStarted flat_map].
    fold (stepsStarted (events (downloadAndUnzip env targetUrl targetFolder w1)
                        ++ [EStepEnd "DownloadUnzip" (Rejected e')])).
    rewrite stepsStarted_app, stepsStarted_none;
      [reflexivity | intros e He; left; exact (downloadAndUnzip_events _ _ _ _ _ He)].
  - exists 9.
    rewrite stepsStarted_app, stepsStarted_completed. cbn [stepsStarted flat_map].
    fold (stepsStarted (events (downloadAndUnzip env targetUrl (fsPath outputUri) w1)
                        ++ EStepEnd "DownloadUnzip" (Fulfilled false)
                           :: EUpdateLastUsed deps
                           :: events (openProject env outputUri artifactId w2))).
    rewrite stepsStarted_app, stepsStarted_none;
      [|intros e He; left; exact (downloadAndUnzip_events _ _ _ _ _ He)].
    cbn [stepsStarted flat_map app].
    fold (stepsStarted (events (openProject env outputUri artifactId w2))).
    rewrite stepsStarted_none;
      [reflexivity | intros e He; right; exact (openProject_events _ _ _ _ _ He)].
Qed.

Lemma downloadAndUnzip_downloads_once env targetUrl targetFolder w :
  exists rest,
    events (downloadAndUnzip env targetUrl targetFolder w)
    = EProgress "Downloading zip package..." :: EDownloadFile targetUrl :: rest
    /\ forall u, ~ In (EDownloadFile u) rest.
Proof.
  rewrite downloadAndUnzip_unfold.
  destruct (downloadFile env targetUrl) as [error | filepath]; eexists;
    (split; [reflexivity|]); cbn; intuition discriminate.
Qed.

(** A run that downloads has its calls laid out around the download. *)
Lemma downloading_run env w r w' t url :
  RunShape env w r w' t ->
  In (EDownloadFile url) t ->
  exists tail,
    orchestration t
    = (completed allSteps
       ++ [EStepBegin "DownloadUnzip"; EProgress "Downloading zip package..."])
      ++ EDownloadFile url :: tail
    /\ forall u, ~ In (EDownloadFile u) tail.
Proof.
  intros Hshape Hin.
  apply In_orchestration in Hin; [|reflexivity].
  destruct Hshape as [s0 how0 w' t Hhow Hdeps Hlast Horch Hends
                     | targetUrl targetFolder w1 w' e' t Hout Hlast Horch
                     | targetUrl outputUri artifactId deps w1 w2 t Hout Hlast Horch];
    rewrite Horch in Hin |- *; apply in_app_or in Hin; destruct Hin as [Hin | Hin];
    try (apply In_completed in Hin; destruct Hin as (s1 & _ & [Hin | Hin]); discriminate);
    (destruct Hin as [Hin | Hin]; [discriminate|]).
  - exfalso. destruct how0 as [h0|]; [|contradiction].
    destruct Hin as [Hin | []]. discriminate.
  - destruct (downloadAndUnzip_downloads_once env targetUrl targetFolder w1)
      as (rest & Hevents & Hrest).
    rewrite Hevents in Hin |- *.
    assert (Hurl : url = targetUrl).
    { destruct Hin as [Hin | [Hin | Hin]]; [discriminate | congruence |].
      exfalso. apply in_app_or in Hin. destruct Hin as [Hin | [Hin | []]];
        [exact (Hrest _ Hin) | discriminate]. }
    subst url. eexists. split.
    + rewrite <- app_assoc. reflexivity.
    + intros u Hu. apply in_app_or in Hu. destruct Hu as [Hu | [Hu | []]];
        [exact (Hrest _ Hu) | discriminate].
  - destruct (downloadAndUnzip_downloads_once env targetUrl (fsPath outputUri) w1)
      as (rest & Hevents & Hrest).
    rewrite Hevents in Hin |- *.
    assert (Hopen : forall u,
               ~ In (EDownloadFile u) (events (openProject env outputUri artifactId w2))).
    { intros u Hu. apply openProject_events in Hu. discriminate. }
    assert (Hurl : url = targetUrl).
    { destruct Hin as [Hin | [Hin | Hin]]; [discriminate | congruence |].
      exfalso. apply in_app_or in Hin. destruct Hin as [Hin | [Hin | [Hin | Hin]]];
        [exact (Hrest _ Hin) | discriminate | discriminate | exact (Hopen _ Hin)]. }
    subst url. eexists. split.
    + rewrite <- app_assoc. reflexivity.
    + intros u Hu. apply in_app_or in Hu. destruct Hu as [Hu | [Hu | [Hu | Hu]]];
        [exact (Hrest _ Hu) | discriminate | discriminate | exact (Hopen _ Hu)].
Qed.

(** X2: an archive is downloaded only once all eight steps have resolved to
    a value, and at most once in a run. *)
Theorem X2_download_only_after_all_steps :
  forall (env : Env) (fuel : nat) (h : GenerateProjectHandler) (w : World) (url : string),
    let run := runSteps env fuel h w in
    In (EDownloadFile url) (events run) ->
    exists before after,
      events run = before ++ EDownloadFile url :: after
      /\ (forall s, In (EStepEnd (stepName s) (Fulfilled true)) before)
      /\ (forall u, ~ In (EDownloadFile u) before)
      /\ (forall u, ~ In (EDownloadFile u) after).
Proof.
  intros env fuel h w url run Hin.
  destruct (@downloading_run _ _ _ _ _ _ (runSteps_shape env fuel h w) Hin) as (tail & Horch & Htail).
  fold run in Horch.
  destruct (filter_split isOrchestration (events run) _ _ _ Horch)
    as (before & after & Hsplit & Hbefore & Hafter).
  exists before, after. split; [exact Hsplit|]. split; [|split].
  - intros s. apply orchestration_In. unfold orchestration. rewrite Hbefore.
    apply in_or_app. left. unfold completed. apply in_flat_map.
    exists s. split; [destruct s; cbn; tauto | right; left; reflexivity].
  - intros u Hu. apply In_orchestration in Hu; [|reflexivity].
    unfold orchestration in Hu. rewrite Hbefore in Hu.
    apply in_app_or in Hu. destruct Hu as [Hu | [Hu | [Hu | []]]]; try discriminate.
    apply In_completed in Hu. destruct Hu as (s1 & _ & [Hu | Hu]); discriminate.
  - intros u Hu. apply In_orchestration in Hu; [|reflexivity].
    unfold orchestration in Hu. rewrite Hafter in Hu. exact (Htail _ Hu).
Qed.

(** X3: the project is offered, opened or added to the workspace only in a
    run in which the download and unzip step has resolved and the last used
    dependencies were updated, and only after both. *)
Theorem X3_opening_only_after_fetch :
  forall (env : Env) (fuel : nat) (h : GenerateProjectHandler) (w : World) (e : Event),
    let run := runSteps env fuel h w in
    isOpenEvent e = true ->
    In e (events run) ->
    exists v before after,
      events run = before ++ e :: after
      /\ In (EStepEnd "DownloadUnzip" (Fulfilled false)) before
      /\ In (EUpdateLastUsed v) before
      /\ lastUsedOf (world run) = Some v.
Proof.
  intros env fuel h w e run Hopen Hin.
  pose proof (runSteps_shape env fuel h w) as Hshape. fold run in Hshape.
  assert (Hcall : isOrchestration e = true) by (destruct e; try discriminate; reflexivity).
  apply In_orchestration in Hin; [|exact Hcall].
  destruct Hshape as [s0 how0 w' t Hhow Hdeps Hlast Horch Hends
                     | targetUrl targetFolder w1 w' e' t Hout Hlast Horch
                     | targetUrl outputUri artifactId deps w1 w2 t Hout Hlast Horch];
    rewrite Horch in Hin; apply in_app_or in Hin; destruct Hin as [Hin | Hin];
    try (apply In_completed in Hin; destruct Hin as (s1 & _ & [-> | ->]); discriminate);
    (destruct Hin as [<- | Hin]; [discriminate|]).
  - exfalso. destruct how0 as [h0|]; [|contradiction].
    destruct Hin as [<- | []]. discriminate.
  - exfalso. apply in_app_or in Hin. destruct Hin as [Hin | [<- | []]]; [|discriminate].
    apply downloadAndUnzip_events in Hin. destruct e; discriminate.
  - apply in_app_or in Hin. destruct Hin as [Hin | [<- | [<- | Hin]]]; try discriminate.
    { exfalso. apply downloadAndUnzip_events in Hin. destruct e; discriminate. }
    apply in_split in Hin. destruct Hin as (o1 & o2 & Ho).
    assert (Hsplit :
              orchestration t
              = (completed allSteps ++ EStepBegin "DownloadUnzip"
                 :: events (downloadAndUnzip env targetUrl (fsPath outputUri) w1)
                 ++ EStepEnd "DownloadUnzip" (Fulfilled false)
                 :: EUpdateLastUsed deps :: o1)
                ++ e :: o2).
    { rewrite Horch, Ho, <- app_assoc. cbn [app]. rewrite <- app_assoc. reflexivity. }
    destruct (filter_split isOrchestration t _ _ _ Hsplit)
      as (before & after & -> & Hbefore & _).
    assert (Hearlier : forall x,
               In x (EStepEnd "DownloadUnzip" (Fulfilled false)
                     :: EUpdateLastUsed deps :: o1) ->
               In x before).
    { intros x Hx. apply orchestration_In. unfold orchestration. rewrite Hbefore.
      apply in_or_app. right. right. apply in_or_app. right. exact Hx. }
    exists deps, before, after.
    split; [reflexivity|].
    split; [apply Hearlier; left; reflexivity|].
    split; [apply Hearlier; right; left; reflexivity|].
    destruct (openProject_facts env outputUri artifactId w2) as (-> & _).
    exact Hlast.
Qed.


(** A run that goes through: the archive is asked for once, after all
    eight steps. *)
Lemma X2_download_witness :
  let env := sampleEnv None None None (Some "Java") (inr "/tmp/demo.zip") None in
  let w := sampleWorld [Some (confirmItem "web,data-jpa")] [Some (Uri_file "/out")] [] in
  let run := runSteps env 2 (newHandler MavenProject None) w in
  let url := ("https://start.spring.io/starter.zip?" ++ demoQuery)%string in
  exists before after,
    events run = before ++ EDownloadFile url :: after
    /\ (forall s, In (EStepEnd (stepName s) (Fulfilled true)) before)
    /\ (forall u, ~ In (EDownloadFile u) before)
    /\ (forall u, ~ In (EDownloadFile u) after).
Proof.
  intros env w run url.
  apply (@X2_download_only_after_all_steps env 2 (newHandler MavenProject None) w url).
  vm_compute. repeat (first [left; reflexivity | right]).
Defined.

(** The same run opens the generated project in a new window, after the
    fetch has settled and the last used dependencies were updated. *)
Lemma X3_opening_witness :
  let env := sampleEnv None None None (Some "Java") (inr "/tmp/demo.zip") None in
  let w := sampleWorld [Some (confirmItem "web,data-jpa")] [Some (Uri_file "/out")] [] in
  let run := runSteps env 2 (newHandler MavenProject None) w in
  let e := EExecuteCommand "vscode.openFolder" (Uri_file "/out/demo") false in
  exists v before after,
    events run = before ++ e :: after
    /\ In (EStepEnd "DownloadUnzip" (Fulfilled false)) before
    /\ In (EUpdateLastUsed v) before
    /\ lastUsedOf (world run) = Some v.
Proof.
  intros env w run e.
  apply (@X3_opening_only_after_fetch env 2 (newHandler MavenProject None) w e).
  - reflexivity.
  - vm_compute. repeat (first [left; reflexivity | right]).
Defined.


(** ** More on the two loops *)

Section TargetFolderInvariants.

Variable env : Env.
Variable projectName : string.

(** What the loop resolves to was its candidate or is a later answer of
    the folder picker; it has been looked up on disk, and when it conflicts
    the overwrite warning was the last thing shown. *)
Lemma specifyTargetFolder_loop_result (fuel : nat) :
  forall (outputUri : option Uri) (w : World) (c : Uri),
    outcome (specifyTargetFolder_loop env fuel projectName outputUri w) = Ok (Some c) ->
    In (Some c) (outputUri :: folderPicks w)
    /\ endsWith
         (if conflicts env projectName c
          then EShowWarningMessage (MESSAGE_EXISTING_FOLDER projectName)
                 [OPTION_CONTINUE; OPTION_CHOOSE_ANOTHER_FOLDER]
          else EPathExists (path_join env (fsPath c) projectName))
         (events (specifyTargetFolder_loop env fuel projectName outputUri w)).
Proof.
  induction fuel as [|fuel IH]; intros outputUri w c; [discriminate|].
  cbn [specifyTargetFolder_loop].
  destruct outputUri as [u|]; [|discriminate].
  unfold bind, fsPathExists, showWarningMessage, openDialogForFolder,
    getWorld, modifyWorld, emit, ret.
  cbn. unfold conflicts.
  destruct (pathExists env (path_join env (fsPath u) projectName)) eqn:Hfound; cbn.
  2:{ intros [= <-]. rewrite Hfound. split; [left; reflexivity|].
      exists []. reflexivity. }
  destruct (warningPicks w) as [|choice warnings]; cbn.
  { intros [= <-]. rewrite Hfound. split; [left; reflexivity|].
    exists [EPathExists (path_join env (fsPath u) projectName)]. reflexivity. }
  destruct (isString choice OPTION_CHOOSE_ANOTHER_FOLDER); cbn.
  2:{ intros [= <-]. rewrite Hfound. split; [left; reflexivity|].
      exists [EPathExists (path_join env (fsPath u) projectName)]. reflexivity. }
  destruct (folderPicks w) as [|next folders] eqn:Hpicks; cbn.
  - match goal with
    | |- context [specifyTargetFolder_loop env fuel projectName None ?w1] =>
        specialize (IH None w1 c);
        destruct (specifyTargetFolder_loop env fuel projectName None w1) as [[r w'] t]
    end.
    cbn in *. intros Hout. destruct (IH Hout) as [Hin Hends].
    rewrite Hpicks in Hin. destruct Hin as [Hin | []]. discriminate.
  - match goal with
    | |- context [specifyTargetFolder_loop env fuel projectName next ?w1] =>
        specialize (IH next w1 c);
        destruct (specifyTargetFolder_loop env fuel projectName next w1) as [[r w'] t]
    end.
    cbn in *. intros Hout. destruct (IH Hout) as [Hin Hends].
    split; [right; exact Hin|].
    destruct Hends as [before ->].
    exists (EPathExists (path_join env (fsPath u) projectName)
            :: EShowWarningMessage (MESSAGE_EXISTING_FOLDER projectName)
                 [OPTION_CONTINUE; OPTION_CHOOSE_ANOTHER_FOLDER]
            :: EOpenDialog LABEL_CHOOSE_FOLDER :: before).
    reflexivity.
Qed.

End TargetFolderInvariants.

(** X5: the folder the target-folder step resolves to is never made up: it
    is the folder of the defaults or one the folder picker resolved to. *)
Theorem X5_target_folder_is_a_candidate :
  forall (env : Env) (fuel : nat) (defaults : WizardParams) (projectName : string)
         (w : World) (c : Uri),
    outcome (specifyTargetFolder env fuel defaults projectName w) = Ok (Some c) ->
    In (Some c) (candidates defaults w).
Proof.
  intros env fuel defaults projectName w c.
  unfold specifyTargetFolder, candidates.
  destruct (truthy (wp_targetFolder defaults)).
  - unfold bind at 1. unfold ret at 1.
    pose proof (@specifyTargetFolder_loop_result env projectName fuel
                  (option_map Uri_file (wp_targetFolder defaults)) w c) as Hloop.
    destruct (specifyTargetFolder_loop env fuel projectName _ w) as [[r w'] t].
    cbn [outcome events fst snd] in *. intros Hout. exact (proj1 (Hloop Hout)).
  - unfold bind at 1. unfold openDialogForFolder, bind, getWorld, emit, modifyWorld, ret.
    cbn.
    destruct (folderPicks w) as [|first folders] eqn:Hpicks; cbn.
    + pose proof (@specifyTargetFolder_loop_result env projectName fuel None w c) as Hloop.
      destruct (specifyTargetFolder_loop env fuel projectName None w) as [[r w'] t].
      cbn [outcome events fst snd] in *. intros Hout. destruct (Hloop Hout) as [Hin _].
      rewrite Hpicks in Hin. destruct Hin as [Hin | []]. discriminate.
    + match goal with
      | |- context [specifyTargetFolder_loop env fuel projectName first ?w1] =>
          pose proof (@specifyTargetFolder_loop_result env projectName fuel first w1 c)
            as Hloop;
          destruct (specifyTargetFolder_loop env fuel projectName first w1) as [[r w'] t]
      end.
      cbn [outcome events fst snd] in *. intros Hout. exact (proj1 (Hloop Hout)).
Qed.

(** X6: the target-folder step never hands back a folder it has not looked
    up, and never one that holds the project already unless the overwrite
    warning was the last thing it showed: there is no overwrite the user was
    not asked about. *)
Theorem X6_no_overwrite_without_warning :
  forall (env : Env) (fuel : nat) (defaults : WizardParams) (projectName : string)
         (w : World) (c : Uri),
    let run := specifyTargetFolder env fuel defaults projectName w in
    outcome run = Ok (Some c) ->
    endsWith
      (if conflicts env projectName c
       then EShowWarningMessage (MESSAGE_EXISTING_FOLDER projectName)
              [OPTION_CONTINUE; OPTION_CHOOSE_ANOTHER_FOLDER]
       else EPathExists (path_join env (fsPath c) projectName))
      (events run).
Proof.
  intros env fuel defaults projectName w c run. subst run.
  unfold specifyTargetFolder.
  destruct (truthy (wp_targetFolder defaults)).
  - unfold bind, ret.
    pose proof (@specifyTargetFolder_loop_result env projectName fuel
                  (option_map Uri_file (wp_targetFolder defaults)) w c) as Hloop.
    destruct (specifyTargetFolder_loop env fuel projectName _ w) as [[r w'] t].
    cbn [outcome events fst snd app] in *. intros Hout. exact (proj2 (Hloop Hout)).
  - unfold bind, openDialogForFolder, bind, getWorld, emit, modifyWorld, ret.
    cbn.
    destruct (folderPicks w) as [|first folders] eqn:Hpicks; cbn.
    + pose proof (@specifyTargetFolder_loop_result env projectName fuel None w c) as Hloop.
      destruct (specifyTargetFolder_loop env fuel projectName None w) as [[r w'] t].
      cbn [outcome events fst snd app] in *. intros Hout. destruct (Hloop Hout) as [Hin _].
      rewrite Hpicks in Hin. destruct Hin as [Hin | []]. discriminate.
    + match goal with
      | |- context [specifyTargetFolder_loop env fuel projectName first ?w1] =>
          pose proof (@specifyTargetFolder_loop_result env projectName fuel first w1 c)
            as Hloop;
          destruct (specifyTargetFolder_loop env fuel projectName first w1) as [[r w'] t]
      end.
      cbn [outcome events fst snd app] in *. intros Hout. destruct (Hloop Hout) as [_ Hends].
      apply endsWith_cons. exact Hends.
Qed.

Section DependencyInvariants.

Variable bootVersion : string.
Variable defaults : WizardParams.

(** What the loop resolves to is an answer of the prompt that is no
    dependency, or nothing; and every prompt it shows is built from the
    seed. *)
Lemma specifyDependencies_loop_result (fuel : nat) :
  forall (w : World),
    let run := specifyDependencies_loop fuel bootVersion defaults w in
    (forall a, outcome run = Ok a ->
               isDependency a = false /\ (a = None \/ In a (dependencyPicks w)))
    /\ (forall e, In e (events run) ->
                  e = EShowDependencyPick bootVersion (orEmpty (wp_dependencies defaults))).
Proof.
  induction fuel as [|fuel IH]; intros w; cbv zeta.
  - split; [discriminate | intros e []].
  - cbn [specifyDependencies_loop].
    unfold bind, modifyWorld, showDependencyPick, getWorld, emit, toggleDependency, ret.
    cbn.
    destruct (dependencyPicks w) as [|answer rest] eqn:Hpicks; cbn.
    + split.
      * intros a [= <-]. split; [reflexivity | left; reflexivity].
      * intros e [<- | []]. reflexivity.
    + destruct (isDependency answer) eqn:Hkind; cbn.
      * match goal with
        | |- context [specifyDependencies_loop fuel bootVersion defaults ?w1] =>
            specialize (IH w1);
            destruct (specifyDependencies_loop fuel bootVersion defaults w1) as [[r w'] t]
        end.
        cbn in *. destruct IH as [IHout IHev]. split.
        -- intros a Hout. destruct (IHout a Hout) as [Hno Hin].
           split; [exact Hno|]. destruct Hin as [Hin | Hin]; [left | right; right]; exact Hin.
        -- intros e [<- | He]; [reflexivity | exact (IHev e He)].
      * split.
        -- intros a [= <-]. split; [exact Hkind | right; left; reflexivity].
        -- intros e [<- | []]. reflexivity.
Qed.

End DependencyInvariants.

(** X7: the item the dependencies step resolves to is one the user picked
    in the prompt, and never a dependency: picking a dependency only ever
    continues the loop. *)
Theorem X7_dependencies_resolve_to_a_picked_item :
  forall (fuel : nat) (manager : ServiceManager) (bootVersion : string)
         (defaults : WizardParams) (w : World) (c : IDependenciesItem),
    outcome (specifyDependencies fuel manager bootVersion defaults w) = Ok c ->
    itemType c <> "dependency" /\ In (Some c) (dependencyPicks w).
Proof.
  intros fuel manager bootVersion defaults w c.
  unfold specifyDependencies, bind.
  destruct (@specifyDependencies_loop_result bootVersion defaults fuel w) as [Hloop _].
  destruct (specifyDependencies_loop fuel bootVersion defaults w) as [[r w'] t].
  cbn in *. destruct r as [[a|] | e |]; cbn; try discriminate.
  intros [= ->]. destruct (Hloop (Some c) eq_refl) as [Hno Hin]. split.
  - intros Hkind. cbn in Hno. rewrite Hkind in Hno. discriminate.
  - destruct Hin as [Hin | Hin]; [discriminate | exact Hin].
Qed.

(** X8: whatever is toggled and however long the loop runs, every list the
    dependencies step shows is built for the version given and from the
    selection [defaults.dependencies || []], and the step shows nothing
    else. *)
Theorem X8_dependency_prompts_show_the_seed :
  forall (fuel : nat) (manager : ServiceManager) (bootVersion : string)
         (defaults : WizardParams) (w : World) (e : Event),
    In e (events (specifyDependencies fuel manager bootVersion defaults w)) ->
    e = EShowDependencyPick bootVersion (orEmpty (wp_dependencies defaults)).
Proof.
  intros fuel manager bootVersion defaults w e.
  unfold specifyDependencies, bind.
  destruct (@specifyDependencies_loop_result bootVersion defaults fuel w) as [_ Hloop].
  destruct (specifyDependencies_loop fuel bootVersion defaults w) as [[r w'] t].
  cbn in *. destruct r as [[a|] | err |]; cbn; try rewrite app_nil_r; apply Hloop.
Qed.

(** The folder picked holds no [demo]: the step resolves to it, the answer
    of the picker. *)
Lemma X5_target_folder_witness :
  let env := sampleEnv None None None (Some "Java") (inr "/tmp/demo.zip") None in
  let w := sampleWorld [] [Some (Uri_file "/out")] [] in
  In (Some (Uri_file "/out")) (candidates noDefaults w).
Proof.
  intros env w.
  apply (@X5_target_folder_is_a_candidate env 1 noDefaults "demo" w (Uri_file "/out")).
  reflexivity.
Defined.

(** The folder picked holds a [demo] already and the user continues: the
    last thing the step did was to show the warning. *)
Lemma X6_overwrite_witness :
  let env := sampleEnv None None None (Some "Java") (inr "/tmp/demo.zip") None in
  let w := sampleWorld [] [Some (Uri_file "/work")] [Some OPTION_CONTINUE] in
  let run := specifyTargetFolder env 1 noDefaults "demo" w in
  endsWith
    (EShowWarningMessage (MESSAGE_EXISTING_FOLDER "demo")
       [OPTION_CONTINUE; OPTION_CHOOSE_ANOTHER_FOLDER])
    (events run).
Proof.
  intros env w run.
  apply (@X6_no_overwrite_without_warning env 1 noDefaults "demo" w (Uri_file "/work")).
  reflexivity.
Defined.

(** One dependency toggled, then the selection confirmed. *)
Lemma X7_dependencies_witness :
  let w := sampleWorld [Some (dependencyItem "web"); Some (confirmItem "web")] [] [] in
  itemType (confirmItem "web") <> "dependency"
  /\ In (Some (confirmItem "web")) (dependencyPicks w).
Proof.
  intros w.
  apply (@X7_dependencies_resolve_to_a_picked_item 2 {| sm_url := "https://start.spring.io" |}
           "2.7.0" noDefaults w (confirmItem "web")).
  reflexivity.
Defined.

(** In that run the second prompt, shown after [web] was toggled, still
    shows the empty selection of the defaults. *)
Lemma X8_dependency_prompts_witness :
  let w := sampleWorld [Some (dependencyItem "web"); Some (confirmItem "web")] [] [] in
  let run :=
    specifyDependencies 2 {| sm_url := "https://start.spring.io" |} "2.7.0" noDefaults w in
  nth 1 (events run) (EProgress "") = EShowDependencyPick "2.7.0" [].
Proof.
  intros w run.
  apply (@X8_dependency_prompts_show_the_seed 2 {| sm_url := "https://start.spring.io" |}
           "2.7.0" noDefaults w (nth 1 (events run) (EProgress ""))).
  vm_compute. right. left. reflexivity.
Defined.

(** ** Steps that only ask *)

Lemma steady_ret {A} (a : A) : steady (ret a).
Proof. intros w. split; [reflexivity | discriminate]. Qed.

Lemma steady_throw {A} (e : JsError) : steady (@throw A e).
Proof. intros w. split; [reflexivity | discriminate]. Qed.

Lemma steady_emit (e : Event) : steady (emit e).
Proof. intros w. split; [reflexivity | discriminate]. Qed.

Lemma steady_settled {A} (r : JsError + A) : steady (settled r).
Proof. destruct r; [apply steady_throw | apply steady_ret]. Qed.

Lemma steady_bind {A B} (m : M A) (k : A -> M B) :
  steady m -> (forall a, steady (k a)) -> steady (bind m k).
Proof.
  intros Hm Hk w. unfold bind.
  destruct (Hm w) as [Hw Hout].
  destruct (m w) as [[r w1] t1]. cbn [outcome world fst snd] in Hw, Hout. subst w1.
  destruct r as [a | e |]; [|split; [reflexivity | discriminate] | contradiction].
  destruct (Hk a w) as [Hw2 Hout2].
  destruct (k a w) as [[r2 w2] t2]. cbn [outcome world fst snd] in *.
  split; assumption.
Qed.

Ltac steady_step :=
  match goal with
  | |- steady (bind _ _) => apply steady_bind; [|intros ?]
  | |- steady (if ?b then _ else _) => destruct b
  | |- steady (match ?x with _ => _ end) => destruct x
  | |- steady (ret _) => apply steady_ret
  | |- steady (throw _) => apply steady_throw
  | |- steady (emit _) => apply steady_emit
  | |- steady (settled _) => apply steady_settled
  end.

Section SteadySteps.

Variable env : Env.

Lemma steady_specifyServiceUrl : steady (specifyServiceUrl env).
Proof. unfold specifyServiceUrl. repeat steady_step. Qed.

Lemma steady_specifyLanguage defaults : steady (specifyLanguage env defaults).
Proof. unfold specifyLanguage, showQuickPick. repeat steady_step. Qed.

Lemma steady_specifyGroupId defaults : steady (specifyGroupId env defaults).
Proof. unfold specifyGroupId, getFromInputBox. repeat steady_step. Qed.

Lemma steady_specifyArtifactId defaults : steady (specifyArtifactId env defaults).
Proof. unfold specifyArtifactId, getFromInputBox. repeat steady_step. Qed.

Lemma steady_specifyPackaging defaults : steady (specifyPackaging env defaults).
Proof. unfold specifyPackaging, showQuickPick. repeat steady_step. Qed.

Lemma steady_specifyBootVersion manager : steady (specifyBootVersion env manager).
Proof. unfold specifyBootVersion, showQuickPick. repeat steady_step. Qed.

Lemma steady_specifyOpenMethod hasOpen projectLocation :
  steady (specifyOpenMethod env hasOpen projectLocation).
Proof. unfold specifyOpenMethod. repeat steady_step. Qed.

Lemma steady_openProject outputUri artifactId :
  steady (openProject env outputUri artifactId).
Proof.
  unfold openProject.
  apply steady_bind; [apply steady_specifyOpenMethod|]. intros choice.
  repeat steady_step.
Qed.

End SteadySteps.

(** The dependencies step does not touch the answers of the folder
    picker. *)
Lemma specifyDependencies_loop_keeps_folders bootVersion defaults (fuel : nat) :
  forall w,
    folderPicks (world (specifyDependencies_loop fuel bootVersion defaults w))
    = folderPicks w.
Proof.
  induction fuel as [|fuel IH]; intros w; [reflexivity|].
  cbn [specifyDependencies_loop].
  unfold bind, modifyWorld, showDependencyPick, getWorld, emit, toggleDependency, ret.
  cbn.
  destruct (dependencyPicks w) as [|answer rest]; cbn; [reflexivity|].
  destruct (isDependency answer); cbn; [|reflexivity].
  match goal with
  | |- context [specifyDependencies_loop fuel bootVersion defaults ?w1] =>
      specialize (IH w1);
      destruct (specifyDependencies_loop fuel bootVersion defaults w1) as [[r w'] t]
  end.
  cbn in *. exact IH.
Qed.

Lemma specifyDependencies_keeps_folders fuel manager bootVersion defaults w :
  folderPicks (world (specifyDependencies fuel manager bootVersion defaults w))
  = folderPicks w.
Proof.
  unfold specifyDependencies, bind.
  pose proof (@specifyDependencies_loop_keeps_folders bootVersion defaults fuel w) as Hloop.
  destruct (specifyDependencies_loop fuel bootVersion defaults w) as [[r w'] t].
  cbn in *. destruct r as [[c|] | e |]; cbn; exact Hloop.
Qed.

(** A guarded stage settles when its step does and the rest does. *)
Lemma guarded_stage_settles {A B} (name message : string) (cb : M (option A))
    (k : A -> M B) (w : World) :
  outcome (cb w) <> OutOfFuel ->
  (forall v, outcome (cb w) = Ok (Some v) ->
             outcome (k v (world (cb w))) <> OutOfFuel) ->
  outcome ((x <- instrumentOperationStep name cb ;; x <- orCanceled message x ;; k x) w)
  <> OutOfFuel.
Proof.
  intros Hcb Hk. unfold bind, instrumentOperationStep. cbv beta.
  destruct (cb w) as [[r w1] t1]. cbn [outcome world fst snd] in Hcb, Hk.
  destruct r as [[v|] | e |]; cbn [orCanceled ret throw]; try discriminate;
    [|contradiction].
  specialize (Hk v eq_refl).
  destruct (k v w1) as [[r2 w2] t2]. exact Hk.
Qed.

Lemma item_stage_settles {B} (name : string) (cb : M IDependenciesItem)
    (k : IDependenciesItem -> M B) (w : World) :
  outcome (cb w) <> OutOfFuel ->
  (forall v, outcome (cb w) = Ok v -> outcome (k v (world (cb w))) <> OutOfFuel) ->
  outcome ((x <- instrumentOperationStep name cb ;; k x) w) <> OutOfFuel.
Proof.
  intros Hcb Hk. unfold bind, instrumentOperationStep. cbv beta.
  destruct (cb w) as [[r w1] t1]. cbn [outcome world fst snd] in Hcb, Hk.
  destruct r as [v | e |]; try discriminate; [|contradiction].
  specialize (Hk v eq_refl).
  destruct (k v w1) as [[r2 w2] t2]. exact Hk.
Qed.

Lemma sendInfo_settles {B} (info : list (string * string)) (k : M B) (w : World) :
  outcome (k w) <> OutOfFuel -> outcome ((sendInfo info ;; k) w) <> OutOfFuel.
Proof.
  intros Hk. destruct (sendInfo_then info k w) as (Hout & _).
  cbv zeta in Hout. rewrite Hout. exact Hk.
Qed.

(** X9: the wizard comes to an end.  Every turn of its two loops uses up an
    answer of the user, so with fuel beyond the answers that are left
    [runSteps] settles: it returns or throws, and it is not cut short. *)
Theorem X9_runSteps_settles :
  forall (env : Env) (fuel : nat) (h : GenerateProjectHandler) (w : World),
    length (dependencyPicks w) < fuel ->
    length (folderPicks w) + 2 <= fuel ->
    outcome (runSteps env fuel h w) <> OutOfFuel.
Proof.
  intros env fuel h w Hpicks Hfolders. unfold runSteps.
  apply guarded_stage_settles; [apply steady_specifyServiceUrl|].
  intros serviceUrl _. rewrite (proj1 (steady_specifyServiceUrl env w)). cbv beta zeta.
  apply guarded_stage_settles; [apply steady_specifyLanguage|].
  intros language _. rewrite (proj1 (steady_specifyLanguage env _ w)). cbv beta zeta.
  apply guarded_stage_settles; [apply steady_specifyGroupId|].
  intros groupId _. rewrite (proj1 (steady_specifyGroupId env _ w)). cbv beta zeta.
  apply guarded_stage_settles; [apply steady_specifyArtifactId|].
  intros artifactId _. rewrite (proj1 (steady_specifyArtifactId env _ w)). cbv beta zeta.
  apply guarded_stage_settles; [apply steady_specifyPackaging|].
  intros packaging _. rewrite (proj1 (steady_specifyPackaging env _ w)). cbv beta zeta.
  apply guarded_stage_settles; [apply steady_specifyBootVersion|].
  intros bootVersion _. rewrite (proj1 (steady_specifyBootVersion env _ w)). cbv beta zeta.
  apply sendInfo_settles.
  apply item_stage_settles; [apply specifyDependencies_enough_fuel; exact Hpicks|].
  intros dependencies _.
  set (w1 := world (specifyDependencies fuel _ bootVersion _ w)).
  assert (Hw1 : folderPicks w1 = folderPicks w)
    by apply specifyDependencies_keeps_folders.
  clearbody w1. cbv beta zeta.
  apply sendInfo_settles.
  apply guarded_stage_settles;
    [apply specifyTargetFolder_enough_fuel; rewrite Hw1; exact Hfolders|].
  intros outputUri _.
  set (w2 := world (specifyTargetFolder env fuel _ artifactId w1)).
  clearbody w2. cbv beta zeta.
  match goal with
  | |- outcome (?run w2) <> OutOfFuel =>
      match run with
      | context [settled (downloadUrl ?h')] =>
          destruct (@fetch_unfold env h' dependencies outputUri artifactId w2 eq_refl)
            as (targetUrl & _ & Hrun)
      end
  end.
  rewrite Hrun.
  destruct (downloadAndUnzip_facts env targetUrl (fsPath outputUri) w2)
    as (_ & _ & Hfetch).
  destruct (downloadAndUnzip env targetUrl (fsPath outputUri) w2) as [[r w3] t3].
  cbn [outcome fst] in Hfetch.
  destruct r as [[] | e |]; [|discriminate | contradiction].
  cbv zeta.
  match goal with
  | |- context [openProject env outputUri artifactId ?w4] =>
      pose proof (proj2 (steady_openProject env outputUri artifactId w4)) as Hopen;
      destruct (openProject env outputUri artifactId w4) as [[r4 w5] t5]
  end.
  exact Hopen.
Qed.

(** One scripted answer to the dependency prompt and one to the folder
    picker: three rounds are enough. *)
Lemma X9_runSteps_settles_witness :
  let env := sampleEnv None None None (Some "Java") (inr "/tmp/demo.zip") None in
  let w := sampleWorld [Some (confirmItem "web")] [Some (Uri_file "/out")] [] in
  outcome (runSteps env 3 (newHandler MavenProject None) w) <> OutOfFuel.
Proof.
  intros env w.
  apply (@X9_runSteps_settles env 3 (newHandler MavenProject None) w).
  - cbn. lia.
  - cbn. lia.
Defined.

(** ** More on the download URL *)

Lemma lacks_app (c : ascii) (a b : string) :
  lacks c (a ++ b)%string = lacks c a && lacks c b.
Proof.
  induction a as [|x a IH]; [reflexivity|].
  cbn. rewrite IH. apply andb_assoc.
Qed.

Lemma splitOn_plain (sep : ascii) (a : string) :
  lacks sep a = true -> splitOn sep a = [a].
Proof.
  induction a as [|x a IH]; [reflexivity|].
  cbn. intros Hlacks. apply andb_prop in Hlacks. destruct Hlacks as [Hx Ha].
  apply negb_true_iff in Hx. rewrite Hx, (IH Ha). reflexivity.
Qed.

Lemma splitOn_app (sep : ascii) (a rest : string) :
  lacks sep a = true ->
  splitOn sep (a ++ String sep rest)%string = a :: splitOn sep rest.
Proof.
  induction a as [|x a IH].
  - intros _. cbn. rewrite Ascii.eqb_refl. reflexivity.
  - cbn. intros Hlacks. apply andb_prop in Hlacks. destruct Hlacks as [Hx Ha].
    apply negb_true_iff in Hx. rewrite Hx, (IH Ha). reflexivity.
Qed.

Lemma keyValue_parameter (k v : string) :
  lacks "=" k = true -> keyValue (parameter (k, v)) = (k, v).
Proof.
  unfold parameter. cbn [fst snd].
  induction k as [|x k IH].
  - intros _. reflexivity.
  - cbn. intros Hlacks. apply andb_prop in Hlacks. destruct Hlacks as [Hx Hk].
    apply negb_true_iff in Hx. rewrite Hx.
    cbn in IH. rewrite (IH Hk). reflexivity.
Qed.

Lemma plain_parameter (p : string * string) :
  plain p = true -> lacks "&" (parameter p) = true.
Proof.
  unfold plain, parameter. intros Hp.
  apply andb_prop in Hp. destruct Hp as [Hp Hv].
  apply andb_prop in Hp. destruct Hp as [_ Hk].
  rewrite lacks_app, Hk. cbn. exact Hv.
Qed.

(** Parameters joined with [&] come back from the query string as they went
    in, as long as none of them holds a separator of its own. *)
Lemma queryParameters_join (pairs : list (string * string)) :
  pairs <> [] ->
  forallb plain pairs = true ->
  queryParameters (join "&" (map parameter pairs)) = pairs.
Proof.
  unfold queryParameters, join.
  induction pairs as [|p pairs IH]; [contradiction|].
  intros _ Hplain. cbn [forallb] in Hplain.
  apply andb_prop in Hplain. destruct Hplain as [Hp Hrest].
  assert (Hkey : keyValue (parameter p) = p).
  { destruct p as [k v]. apply keyValue_parameter.
    unfold plain in Hp. cbn [fst snd] in Hp.
    apply andb_prop in Hp. destruct Hp as [Hp _].
    apply andb_prop in Hp. apply Hp. }
  destruct pairs as [|p' pairs].
  - cbn [map String.concat]. rewrite (splitOn_plain _ _ (plain_parameter _ Hp)).
    cbn [map]. rewrite Hkey. reflexivity.
  - cbn [map String.concat] in *.
    change ("&" ++ ?s)%string with (String "&" s).
    rewrite (splitOn_app _ _ _ (plain_parameter _ Hp)).
    cbn [map]. rewrite Hkey. f_equal. apply IH; [discriminate | exact Hrest].
Qed.

(** X10: for every handler whose dependencies are set and whose answers hold
    no [&], the download URL is the service URL, [/starter.zip?], and a
    query string that reads back as exactly eight parameters, in the order
    type, language, groupId, artifactId, packaging, bootVersion, baseDir,
    dependencies; [baseDir] always repeats the artifact id, and an answer
    that is missing travels as the text [undefined]. *)
Theorem X10_downloadUrl_reads_back :
  forall (h : GenerateProjectHandler) (d : IDependenciesItem),
    dependencies h = Some d ->
    forallb (fun p => lacks "&" (snd p)) (writtenParameters h d) = true ->
    exists query,
      downloadUrl h = inr (tpl (serviceUrl h) ++ "/starter.zip?" ++ query)%string
      /\ queryParameters query = writtenParameters h d
      /\ (forall v, In ("baseDir", v) (queryParameters query) -> v = tpl (artifactId h)).
Proof.
  intros h d Hdeps Hclean.
  exists (join "&" (map parameter (writtenParameters h d))).
  assert (Hread : queryParameters (join "&" (map parameter (writtenParameters h d)))
                  = writtenParameters h d).
  { apply queryParameters_join; [discriminate|].
    unfold writtenParameters in *. cbn [forallb snd] in Hclean.
    repeat (apply andb_prop in Hclean; destruct Hclean as [? Hclean]).
    unfold plain. cbn [forallb fst snd].
    repeat (apply andb_true_intro; split); try assumption; reflexivity. }
  split; [|split].
  - unfold downloadUrl. rewrite Hdeps. reflexivity.
  - exact Hread.
  - rewrite Hread. unfold writtenParameters. cbn [In].
    intros v Hin.
    repeat (destruct Hin as [Hin | Hin]; [try discriminate; congruence|]).
    contradiction.
Qed.

(** The answers of the example hold no separator. *)
Lemma X10_downloadUrl_reads_back_witness :
  let h := demoAnswers "https://start.spring.io" "selection" None None noDefaults in
  exists query,
    downloadUrl h = inr ("https://start.spring.io" ++ "/starter.zip?" ++ query)%string
    /\ queryParameters query
       = writtenParameters h {| itemType := "selection"; id := "web,data-jpa" |}
    /\ (forall v, In ("baseDir", v) (queryParameters query) -> v = "demo").
Proof.
  intros h.
  apply (@X10_downloadUrl_reads_back h {| itemType := "selection"; id := "web,data-jpa" |}
           eq_refl eq_refl).
Defined.

(** ** More on opening the project *)

Lemma isString_true (v : option string) (s : string) :
  isString v s = true <-> v = Some s.
Proof.
  destruct v as [x|]; cbn; [|split; discriminate].
  rewrite String.eqb_eq. split; [intros ->; reflexivity | intros [= ->]; reflexivity].
Qed.

(** X11: opening the project fails in one situation only, and then with the
    [TypeError] of reading [find]: "Add to Workspace" is the method, the
    target folder is not under the root path, and the workspace has no
    folder list.  In every other situation it returns, and in none does it
    touch the answers or the dependency manager. *)
Theorem X11_openProject_fails_only_without_folder_list :
  forall (env : Env) (outputUri : Uri) (artifactId : string) (w : World),
    let run := openProject env outputUri artifactId w in
    let choice := outcome (specifyOpenMethod env (hasOpenFolder env) (fsPath outputUri) w) in
    (outcome run = Throw (TypeError "find")
     <-> choice = Ok (Some OPEN_IN_CURRENT_WORKSPACE)
         /\ outsideRootPath (fsPath outputUri) (rootPath env) = true
         /\ workspaceFolders env = None)
    /\ (outcome run = Ok tt \/ outcome run = Throw (TypeError "find"))
    /\ world run = w.
Proof.
  intros env outputUri artifactId w run choice. subst run choice.
  unfold openProject. fold (hasOpenFolder env).
  destruct (specifyOpenMethod_run env (hasOpenFolder env) (fsPath outputUri) w)
    as (choice & t & Hchoice & _).
  unfold bind. rewrite Hchoice. cbn [outcome fst].
  destruct (isString choice OPEN_IN_NEW_WORKSPACE) eqn:Hnew.
  { apply isString_true in Hnew. subst choice. cbn.
    repeat split; try (left; reflexivity); try discriminate.
    intros ([=] & _). }
  destruct (isString choice OPEN_IN_CURRENT_WORKSPACE) eqn:Hadd.
  2:{ cbn. repeat split; try (left; reflexivity); try discriminate.
      intros (Hc & _). injection Hc as ->. discriminate. }
  apply isString_true in Hadd. subst choice.
  destruct (outsideRootPath (fsPath outputUri) (rootPath env)).
  2:{ cbn. repeat split; try (left; reflexivity); try discriminate.
      intros (_ & [=] & _). }
  destruct (workspaceFolders env) as [folders|].
  - destruct (negb _); cbn; repeat split; try (left; reflexivity); try discriminate;
      intros (_ & _ & [=]).
  - cbn. repeat split; try (right; reflexivity); reflexivity.
Qed.

(** "Add to Workspace" is configured and nothing is open. *)
Lemma X11_openProject_witness :
  let env :=
    sampleEnv (Some OPEN_IN_CURRENT_WORKSPACE) None None (Some "Java")
      (inr "/tmp/demo.zip") None in
  let w := sampleWorld [] [] [] in
  outcome (openProject env (Uri_file "/out") "demo" w) = Throw (TypeError "find").
Proof.
  intros env w.
  apply (proj2 (proj1 (@X11_openProject_fails_only_without_folder_list env
                         (Uri_file "/out") "demo" w))).
  repeat split.
Defined.

(** ** The answers on their way to the service *)

Lemma prefixed_prefixed {A} (t1 t2 : list Event) (run : Outcome A * World * list Event) :
  prefixed t1 (prefixed t2 run) = prefixed (t1 ++ t2) run.
Proof. destruct run as [[r w] t]. cbn. rewrite app_assoc. reflexivity. Qed.

Lemma events_prefixed {A} (before : list Event) (run : Outcome A * World * list Event) :
  events (prefixed before run) = before ++ events run.
Proof. destruct run as [[r w] t]. reflexivity. Qed.

Lemma world_prefixed {A} (before : list Event) (run : Outcome A * World * list Event) :
  world (prefixed before run) = world run.
Proof. destruct run as [[r w] t]. reflexivity. Qed.

Lemma outcome_prefixed {A} (before : list Event) (run : Outcome A * World * list Event) :
  outcome (prefixed before run) = outcome run.
Proof. destruct run as [[r w] t]. reflexivity. Qed.

Lemma run_eta {A} (m : M A) (w : World) :
  m w = (outcome (m w), world (m w), events (m w)).
Proof. destruct (m w) as [[r w1] t]. reflexivity. Qed.

(** A steady step, written out. *)
Lemma steady_run {A} (m : M A) (w : World) :
  steady m -> m w = (outcome (m w), w, events (m w)).
Proof.
  intros Hm. destruct (Hm w) as [Hw _].
  destruct (m w) as [[r w1] t]. cbn in *. subst w1. reflexivity.
Qed.

(** A guarded stage whose step resolves to a value goes on with it. *)
Lemma guarded_stage_resolved {A B} (name message : string) (cb : M (option A))
    (k : A -> M B) (w w1 : World) (v : A) :
  outcome (cb w) = Ok (Some v) ->
  world (cb w) = w1 ->
  (x <- instrumentOperationStep name cb ;; x <- orCanceled message x ;; k x) w
  = prefixed (EStepBegin name :: events (cb w) ++ [EStepEnd name (Fulfilled true)])
      (k v w1).
Proof.
  intros Hout Hworld. unfold bind, instrumentOperationStep. cbv beta.
  rewrite (run_eta cb w), Hout, Hworld.
  cbn [orCanceled ret isDefined JsValue_option events snd].
  destruct (k v w1) as [[r w'] t]. reflexivity.
Qed.

Lemma item_stage_resolved {B} (name : string) (cb : M IDependenciesItem)
    (k : IDependenciesItem -> M B) (w : World) (v : IDependenciesItem) :
  outcome (cb w) = Ok v ->
  (x <- instrumentOperationStep name cb ;; k x) w
  = prefixed (EStepBegin name :: events (cb w) ++ [EStepEnd name (Fulfilled true)])
      (k v (world (cb w))).
Proof.
  intros Hout. unfold bind, instrumentOperationStep. cbv beta.
  rewrite (run_eta cb w), Hout. cbn [events world fst snd].
  destruct (k v _) as [[r w'] t]. reflexivity.
Qed.

Lemma sendInfo_resolved {B} (info : list (string * string)) (k : M B) (w : World) :
  (sendInfo info ;; k) w = prefixed [ESendInfo info] (k w).
Proof.
  unfold sendInfo, bind, emit. destruct (k w) as [[r w'] t]. reflexivity.
Qed.

(** When the eight steps resolve, the rest of [runSteps] runs on the
    handler that holds their answers, in the world the target-folder step
    left. *)
Lemma runSteps_resolved (env : Env) (fuel : nat) (h : GenerateProjectHandler)
    (w : World) (url language groupId artifactId packaging bootVersion : string)
    (item : IDependenciesItem) (out : Uri) :
  let manager := {| sm_url := url |} in
  let w1 := world (specifyDependencies fuel manager bootVersion (defaults h) w) in
  let w2 := world (specifyTargetFolder env fuel (defaults h) artifactId w1) in
  serviceUrlAnswer env = Some url ->
  outcome (specifyLanguage env (defaults h) w) = Ok (Some language) ->
  outcome (specifyGroupId env (defaults h) w) = Ok (Some groupId) ->
  outcome (specifyArtifactId env (defaults h) w) = Ok (Some artifactId) ->
  outcome (specifyPackaging env (defaults h) w) = Ok (Some packaging) ->
  outcome (specifyBootVersion env manager w) = Ok (Some bootVersion) ->
  outcome (specifyDependencies fuel manager bootVersion (defaults h) w) = Ok item ->
  outcome (specifyTargetFolder env fuel (defaults h) artifactId w1) = Ok (Some out) ->
  exists before,
    runSteps env fuel h w
    = prefixed before
        ((targetUrl <-
            settled (downloadUrl (answered h url language groupId artifactId
                                    packaging bootVersion item out)) ;;
          instrumentOperationStep "DownloadUnzip"
            (downloadAndUnzip env targetUrl (fsPath out)) ;;
          updateLastUsedDependencies item ;;
          openProject env out artifactId) w2).
Proof.
  intros manager w1 w2 Hurl Hlanguage HgroupId HartifactId Hpackaging HbootVersion
    Hitem Hout.
  unfold runSteps.
  rewrite (@guarded_stage_resolved _ _ "serviceUrl" _ (specifyServiceUrl env) _ w w url);
    [|unfold specifyServiceUrl, ret; rewrite Hurl; reflexivity|reflexivity].
  cbv beta zeta.
  rewrite (@guarded_stage_resolved _ _ "Language" _ _ _ w w language);
    [|exact Hlanguage|apply steady_specifyLanguage].
  cbv beta zeta.
  rewrite (@guarded_stage_resolved _ _ "GroupId" _ _ _ w w groupId);
    [|exact HgroupId|apply steady_specifyGroupId].
  cbv beta zeta.
  rewrite (@guarded_stage_resolved _ _ "ArtifactId" _ _ _ w w artifactId);
    [|exact HartifactId|apply steady_specifyArtifactId].
  cbv beta zeta.
  rewrite (@guarded_stage_resolved _ _ "Packaging" _ _ _ w w packaging);
    [|exact Hpackaging|apply steady_specifyPackaging].
  cbv beta zeta.
  rewrite (@guarded_stage_resolved _ _ "BootVersion" _ _ _ w w bootVersion);
    [|exact HbootVersion|apply steady_specifyBootVersion].
  cbv beta zeta.
  rewrite sendInfo_resolved.
  rewrite (@item_stage_resolved _ "Dependencies" _ _ w item); [|exact Hitem].
  cbv beta zeta.
  rewrite sendInfo_resolved.
  rewrite (@guarded_stage_resolved _ _ "TargetFolder" _ _ _ w1 w2 out);
    [|exact Hout|reflexivity].
  cbv beta zeta.
  rewrite !prefixed_prefixed.
  eexists. reflexivity.
Qed.

(** X12: when the eight steps resolve, the archive is requested from the
    address built of exactly their answers, it is unpacked into the chosen
    target folder, and once that has worked the confirmed item becomes the
    last used dependencies and the run ends as the opening of the project
    does. *)
Theorem X12_answers_reach_the_service :
  forall (env : Env) (fuel : nat) (h : GenerateProjectHandler) (w : World)
    (url language groupId artifactId packaging bootVersion : string)
    (item : IDependenciesItem) (out : Uri),
    let manager := {| sm_url := url |} in
    let w1 := world (specifyDependencies fuel manager bootVersion (defaults h) w) in
    let w2 := world (specifyTargetFolder env fuel (defaults h) artifactId w1) in
    let target :=
      (url ++ "/starter.zip?type=" ++ projectTypeName (projectType h)
         ++ "&language=" ++ language ++ "&groupId=" ++ groupId
         ++ "&artifactId=" ++ artifactId ++ "&packaging=" ++ packaging
         ++ "&bootVersion=" ++ bootVersion ++ "&baseDir=" ++ artifactId
         ++ "&dependencies=" ++ id item)%string in
    let run := runSteps env fuel h w in
    serviceUrlAnswer env = Some url ->
    outcome (specifyLanguage env (defaults h) w) = Ok (Some language) ->
    outcome (specifyGroupId env (defaults h) w) = Ok (Some groupId) ->
    outcome (specifyArtifactId env (defaults h) w) = Ok (Some artifactId) ->
    outcome (specifyPackaging env (defaults h) w) = Ok (Some packaging) ->
    outcome (specifyBootVersion env manager w) = Ok (Some bootVersion) ->
    outcome (specifyDependencies fuel manager bootVersion (defaults h) w) = Ok item ->
    outcome (specifyTargetFolder env fuel (defaults h) artifactId w1) = Ok (Some out) ->
    In (EDownloadFile target) (events run)
    /\ forall file,
         downloadFile env target = inr file ->
         In (EExtract file (fsPath out)) (events run)
         /\ (extract env file (fsPath out) = None ->
             lastUsedOf (world run) = Some item
             /\ outcome run = outcome (openProject env out artifactId (world run))).
Proof.
  intros env fuel h w url language groupId artifactId packaging bootVersion item out
    manager w1 w2 target run Hurl Hlanguage HgroupId HartifactId Hpackaging
    HbootVersion Hitem Hout.
  destruct (@runSteps_resolved env fuel h w url language groupId artifactId packaging
              bootVersion item out Hurl Hlanguage HgroupId HartifactId Hpackaging
              HbootVersion Hitem Hout) as (before & Hrun).
  fold manager w1 w2 in Hrun.
  assert (Htarget : downloadUrl (answered h url language groupId artifactId packaging
                                   bootVersion item out) = inr target) by reflexivity.
  subst run. rewrite Hrun. clear Hrun.
  rewrite events_prefixed, world_prefixed, outcome_prefixed.
  unfold bind at 1 2 3 4. unfold settled at 1 2 3 4. rewrite Htarget.
  unfold bind, instrumentOperationStep, downloadAndUnzip, emit, settled,
    updateLastUsedDependencies, modifyWorld, ret, throw.
  cbv beta.
  destruct (downloadFile env target) as [err | file] eqn:Hfile.
  - split.
    + rewrite in_app_iff. right. cbn.
      right. right. left. reflexivity.
    + intros file' H. discriminate H.
  - cbv beta iota.
    destruct (extract env file (fsPath out)) as [err |] eqn:Hextract.
    + split.
      * rewrite in_app_iff. right. cbn. rewrite Hextract. cbn.
        right. right. left. reflexivity.
      * intros file' H. injection H as <-. split.
        -- rewrite in_app_iff. right. cbn. rewrite Hextract. cbn.
           do 4 right. left. reflexivity.
        -- rewrite Hextract. intros H. discriminate H.
    + cbn -[openProject]. rewrite Hextract. cbn -[openProject].
      match goal with
      | |- context [openProject env out artifactId ?w3] =>
          destruct (steady_openProject env out artifactId w3) as [Hworld _];
          destruct (openProject env out artifactId w3) as [[r4 w4] t4] eqn:Hopen
      end.
      cbn [world fst snd] in Hworld. subst w4. split.
      * rewrite in_app_iff. right. cbn.
        right. right. left. reflexivity.
      * intros file' H. injection H as <-. split.
        -- rewrite in_app_iff. right. cbn.
           do 4 right. left. reflexivity.
        -- intros _. cbn [world outcome fst snd]. rewrite Hopen.
           split; reflexivity.
Qed.

(** The answers of the URL example, given to the wizard by the host. *)
Lemma X12_answers_witness :
  let env := sampleEnv None None None (Some "Java") (inr "/tmp/demo.zip") None in
  let w := sampleWorld [Some (confirmItem "web,data-jpa")] [Some (Uri_file "/out")] [] in
  let run := runSteps env 2 (newHandler MavenProject None) w in
  let target := ("https://start.spring.io/starter.zip?" ++ demoQuery)%string in
  In (EDownloadFile target) (events run)
  /\ In (EExtract "/tmp/demo.zip" "/out") (events run)
  /\ lastUsedOf (world run) = Some (confirmItem "web,data-jpa")
  /\ outcome run = Ok tt.
Proof.
  intros env w run target.
  pose proof (@X12_answers_reach_the_service env 2 (newHandler MavenProject None) w
                "https://start.spring.io" "java" "com.example" "demo" "jar" "2.7.0"
                (confirmItem "web,data-jpa") (Uri_file "/out")
                eq_refl eq_refl eq_refl eq_refl eq_refl eq_refl eq_refl eq_refl)
    as [Hdownload Hrest].
  destruct (Hrest "/tmp/demo.zip" eq_refl) as [Hextract Hdone].
  destruct (Hdone eq_refl) as [Hlast Hout].
  split; [exact Hdownload|]. split; [exact Hextract|]. split; [exact Hlast|].
  exact (eq_trans Hout eq_refl).
Defined.

(** ** What a run shows the user *)

Lemma only_ret {A} P (a : A) : only P (ret a).
Proof. intros w e []. Qed.

Lemma only_throw {A} P (e : JsError) : only P (@throw A e).
Proof. intros w e' []. Qed.

Lemma only_outOfFuel {A} P : only P (@outOfFuel A).
Proof. intros w e []. Qed.

Lemma only_getWorld P : only P getWorld.
Proof. intros w e []. Qed.

Lemma only_modifyWorld P (f : World -> World) : only P (modifyWorld f).
Proof. intros w e []. Qed.

Lemma only_settled {A} P (r : JsError + A) : only P (settled r).
Proof. destruct r; [apply only_throw | apply only_ret]. Qed.

Lemma only_emit (P : Event -> Prop) (e : Event) : P e -> only P (emit e).
Proof. intros He w e' [<- | []]. exact He. Qed.

Lemma only_bind {A B} P (m : M A) (k : A -> M B) :
  only P m -> (forall a, only P (k a)) -> only P (bind m k).
Proof.
  intros Hm Hk w e. unfold bind.
  pose proof (Hm w) as Hm1.
  destruct (m w) as [[r w1] t1]. cbn [events snd] in Hm1.
  destruct r as [a | err |]; cbn [events snd]; auto.
  pose proof (Hk a w1) as Hk1.
  destruct (k a w1) as [[r2 w2] t2]. cbn [events snd] in *.
  rewrite in_app_iff. intros [H | H]; auto.
Qed.

Lemma only_instrumentOperationStep {A} `{JsValue A} (P : Event -> Prop)
    (name : string) (cb : M A) :
  P (EStepBegin name) -> (forall how, P (EStepEnd name how)) ->
  only P cb -> only P (instrumentOperationStep name cb).
Proof.
  intros Hbegin Hend Hcb w e. unfold instrumentOperationStep.
  pose proof (Hcb w) as Hcb1.
  destruct (cb w) as [[r w1] t1]. cbn [events snd] in Hcb1.
  destruct r as [a | err |]; cbn [events snd In]; rewrite ?in_app_iff; cbn [In].
  - intros [<- | [Hin | [<- | []]]]; auto.
  - intros [<- | [Hin | [<- | []]]]; auto.
  - intros [<- | Hin]; auto.
Qed.

Create HintDb only.
#[local] Hint Resolve only_ret only_throw only_outOfFuel only_getWorld only_modifyWorld
  only_settled : only.

(** Composite computations are taken apart bind by bind; [allowed] shows
    that an event is one [P] allows. *)
Ltac only_step allowed :=
  cbv beta zeta;
  match goal with
  | |- only _ (bind _ _) => apply only_bind; [|intros ?]
  | |- only _ (if ?b then _ else _) => destruct b
  | |- only _ (match ?x with _ => _ end) => destruct x
  | |- only _ (emit _) => apply only_emit; allowed
  | |- only _ (instrumentOperationStep _ _) =>
      apply only_instrumentOperationStep; [allowed | intros ?; allowed |]
  | |- only _ _ => solve [auto with only]
  end.

Ltac only_auto allowed := repeat only_step allowed.

Section OnlyRun.

Variable env : Env.
Variable P : Event -> Prop.

Hypothesis P_calls : forall e, isOrchestration e = true -> P e.
Hypothesis P_info : forall info, P (ESendInfo info).

(** A run shows what its steps show, and beside that makes only the calls
    of the orchestrator and sends telemetry. *)
Lemma only_runSteps (fuel : nat) (h : GenerateProjectHandler) :
  only P (specifyLanguage env (defaults h)) ->
  only P (specifyGroupId env (defaults h)) ->
  only P (specifyArtifactId env (defaults h)) ->
  only P (specifyPackaging env (defaults h)) ->
  (forall manager, only P (specifyBootVersion env manager)) ->
  (forall manager bootVersion,
     only P (specifyDependencies fuel manager bootVersion (defaults h))) ->
  (forall artifactId, only P (specifyTargetFolder env fuel (defaults h) artifactId)) ->
  only P (runSteps env fuel h).
Proof.
  intros Hlanguage HgroupId HartifactId Hpackaging HbootVersion Hdependencies Hfolder.
  assert (Hfetch : forall targetUrl targetFolder,
             only P (downloadAndUnzip env targetUrl targetFolder)).
  { intros targetUrl targetFolder w e Hin. apply P_calls.
    apply downloadAndUnzip_events in Hin. destruct e; try discriminate; reflexivity. }
  assert (Hopen : forall outputUri artifactId,
             only P (openProject env outputUri artifactId)).
  { intros outputUri artifactId w e Hin. apply P_calls.
    apply openProject_events in Hin. destruct e; try discriminate; reflexivity. }
  unfold runSteps, sendInfo, orCanceled, updateLastUsedDependencies, specifyServiceUrl.
  only_auto ltac:(first [apply P_info | apply P_calls; reflexivity]);
    first [apply Hlanguage | apply HgroupId | apply HartifactId | apply Hpackaging
          | apply HbootVersion | apply Hdependencies | apply Hfolder | apply Hfetch
          | apply Hopen].
Qed.

End OnlyRun.

Lemma only_specifyDependencies_loop P bootVersion defaults (fuel : nat) :
  (forall selected, P (EShowDependencyPick bootVersion selected)) ->
  only P (specifyDependencies_loop fuel bootVersion defaults).
Proof.
  intros Hpick. induction fuel as [|fuel IH]; cbn [specifyDependencies_loop].
  - apply only_outOfFuel.
  - unfold showDependencyPick, toggleDependency.
    only_auto ltac:(apply Hpick); exact IH.
Qed.

Lemma only_specifyDependencies P fuel manager bootVersion defaults :
  (forall selected, P (EShowDependencyPick bootVersion selected)) ->
  only P (specifyDependencies fuel manager bootVersion defaults).
Proof.
  intros Hpick. unfold specifyDependencies.
  apply only_bind; [apply only_specifyDependencies_loop, Hpick|].
  intros current. only_auto idtac.
Qed.

Lemma only_specifyTargetFolder_loop env (P : Event -> Prop) projectName (fuel : nat) :
  (forall path, P (EPathExists path)) ->
  (forall message options, P (EShowWarningMessage message options)) ->
  (forall label, P (EOpenDialog label)) ->
  forall outputUri, only P (specifyTargetFolder_loop env fuel projectName outputUri).
Proof.
  intros Hexists Hwarning Hdialog.
  induction fuel as [|fuel IH]; intros outputUri; cbn [specifyTargetFolder_loop].
  - apply only_outOfFuel.
  - unfold fsPathExists, showWarningMessage, openDialogForFolder.
    only_auto ltac:(first [apply Hexists | apply Hwarning | apply Hdialog]); apply IH.
Qed.

Lemma only_specifyTargetFolder env (P : Event -> Prop) fuel defaults projectName :
  (forall path, P (EPathExists path)) ->
  (forall message options, P (EShowWarningMessage message options)) ->
  (forall label, P (EOpenDialog label)) ->
  only P (specifyTargetFolder env fuel defaults projectName).
Proof.
  intros Hexists Hwarning Hdialog. unfold specifyTargetFolder.
  apply only_bind.
  - unfold openDialogForFolder. only_auto ltac:(apply Hdialog).
  - intros outputUri. apply only_specifyTargetFolder_loop; assumption.
Qed.

(** X13: what is preset is not asked for.  With a language given by the
    wizard's defaults or by the configuration, no run shows the quick pick
    for the language; and so for the packaging. *)
Theorem X13_presets_are_not_asked_for :
  forall (env : Env) (fuel : nat) (h : GenerateProjectHandler) (w : World),
    let run := runSteps env fuel h w in
    (truthy (jsOr (wp_language (defaults h)) (config env "defaultLanguage")) = true ->
     forall e, In e (events run) -> ~ asksFor "Specify project language." e)
    /\ (truthy (jsOr (wp_packaging (defaults h)) (config env "defaultPackaging")) = true ->
        forall e, In e (events run) -> ~ asksFor "Specify packaging type." e).
Proof.
  intros env fuel h w run. subst run. split; intros Hpreset e Hin.
  - revert w e Hin.
    apply (@only_runSteps env (fun e => ~ asksFor "Specify project language." e)).
    + intros e He [labels ->]. discriminate He.
    + intros info [labels H]. discriminate H.
    + unfold specifyLanguage. rewrite Hpreset. cbn [negb].
      only_auto idtac.
    + unfold specifyGroupId, getFromInputBox.
      only_auto ltac:(intros [labels H]; discriminate H).
    + unfold specifyArtifactId, getFromInputBox.
      only_auto ltac:(intros [labels H]; discriminate H).
    + unfold specifyPackaging, showQuickPick.
      only_auto ltac:(intros [labels H]; discriminate H).
    + intros manager. unfold specifyBootVersion, showQuickPick.
      only_auto ltac:(intros [labels H]; discriminate H).
    + intros manager bootVersion. apply only_specifyDependencies.
      intros selected [labels H]. discriminate H.
    + intros artifactId. apply only_specifyTargetFolder.
      * intros path [labels H]. discriminate H.
      * intros message options [labels H]. discriminate H.
      * intros label [labels H]. discriminate H.
  - revert w e Hin.
    apply (@only_runSteps env (fun e => ~ asksFor "Specify packaging type." e)).
    + intros e He [labels ->]. discriminate He.
    + intros info [labels H]. discriminate H.
    + unfold specifyLanguage, showQuickPick.
      only_auto ltac:(intros [labels H]; discriminate H).
    + unfold specifyGroupId, getFromInputBox.
      only_auto ltac:(intros [labels H]; discriminate H).
    + unfold specifyArtifactId, getFromInputBox.
      only_auto ltac:(intros [labels H]; discriminate H).
    + unfold specifyPackaging. rewrite Hpreset. cbn [negb].
      only_auto idtac.
    + intros manager. unfold specifyBootVersion, showQuickPick.
      only_auto ltac:(intros [labels H]; discriminate H).
    + intros manager bootVersion. apply only_specifyDependencies.
      intros selected [labels H]. discriminate H.
    + intros artifactId. apply only_specifyTargetFolder.
      * intros path [labels H]. discriminate H.
      * intros message options [labels H]. discriminate H.
      * intros label [labels H]. discriminate H.
Qed.

(** X14: a run shows no input box but the two of the wizard, and shows each
    seeded with the value the wizard's defaults give, or else the
    configuration. *)
Theorem X14_input_boxes_are_seeded :
  forall (env : Env) (fuel : nat) (h : GenerateProjectHandler) (w : World) (e : Event),
    In e (events (runSteps env fuel h w)) ->
    isInputBox e = true ->
    In e (inputBoxes env (defaults h)).
Proof.
  intros env fuel h w e Hin. revert w e Hin.
  apply (@only_runSteps env
           (fun e => isInputBox e = true -> In e (inputBoxes env (defaults h)))).
  - intros e He Hbox. destruct e; discriminate.
  - intros info Hbox. discriminate Hbox.
  - unfold specifyLanguage, showQuickPick.
    only_auto ltac:(intros Hbox; discriminate Hbox).
  - unfold specifyGroupId, getFromInputBox.
    only_auto ltac:(intros _; left; reflexivity).
  - unfold specifyArtifactId, getFromInputBox.
    only_auto ltac:(intros _; right; left; reflexivity).
  - unfold specifyPackaging, showQuickPick.
    only_auto ltac:(intros Hbox; discriminate Hbox).
  - intros manager. unfold specifyBootVersion, showQuickPick.
    only_auto ltac:(intros Hbox; discriminate Hbox).
  - intros manager bootVersion. apply only_specifyDependencies.
    intros selected Hbox. discriminate Hbox.
  - intros artifactId. apply only_specifyTargetFolder.
    + intros path Hbox. discriminate Hbox.
    + intros message options Hbox. discriminate Hbox.
    + intros label Hbox. discriminate Hbox.
Qed.

(** Language and packaging come with the wizard's defaults: neither quick
    pick is shown. *)
Lemma X13_presets_witness :
  let env := sampleEnv None None None (Some "Java") (inr "/tmp/demo.zip") None in
  let w := sampleWorld [Some (confirmItem "web")] [Some (Uri_file "/out")] [] in
  let given :=
    {| wp_artifactId := None; wp_groupId := None; wp_language := Some "Kotlin";
       wp_projectType := None; wp_packaging := Some "WAR"; wp_bootVersion := None;
       wp_dependencies := None; wp_targetFolder := None |} in
  let run := runSteps env 2 (newHandler MavenProject (Some given)) w in
  (forall e, In e (events run) -> ~ asksFor "Specify project language." e)
  /\ (forall e, In e (events run) -> ~ asksFor "Specify packaging type." e).
Proof.
  intros env w given run.
  destruct (@X13_presets_are_not_asked_for env 2 (newHandler MavenProject (Some given)) w)
    as [Hlanguage Hpackaging].
  split; [apply Hlanguage | apply Hpackaging]; reflexivity.
Defined.

(** Without defaults and configuration the box for the group id is shown
    empty. *)
Lemma X14_input_boxes_witness :
  let env := sampleEnv None None None (Some "Java") (inr "/tmp/demo.zip") None in
  In (EInputBox "Input Group Id for your project." None) (inputBoxes env noDefaults).
Proof.
  intros env.
  apply (@X14_input_boxes_are_seeded env 2 (newHandler MavenProject None)
           (sampleWorld [Some (confirmItem "web")] [Some (Uri_file "/out")] [])
           (EInputBox "Input Group Id for your project." None)).
  - vm_compute. repeat (first [left; reflexivity | right]).
  - reflexivity.
Defined.
